(** * LipidFinder web front end: pipeline orchestration and run state

    A shallow embedding of [webapp/app.py]: the run state store
    ([read_state], [update_state]), the stage handlers ([xcms],
    [run_peakfilter], [run_amalgamator], [run_mssearch]), the full
    pipeline ([run_pipeline_full]) and the parameter forms ([params],
    [module_params], [default_value_for]), followed by the properties of
    the orchestration that the specification lists and by further
    properties of the requests.

    Modelling conventions.
    - Python values are the values [json.load] can return: [value].
      A [dict] is an association list in insertion order, which is the
      order [json.dump] writes.
    - The file system maps a path (compared as a string) to a directory,
      to a file holding a JSON document, or to a file whose bytes
      [json.load] rejects.  Paths follow the POSIX conventions.
    - Strings are byte strings; [str.lower] is modelled on ASCII letters
      and [str.strip] on ASCII white space.
    - A handler is a computation over the [World] that either goes on,
      returns a response early, or raises; an exception that no [except]
      clause catches ends the request ([Crash]).
    - The external executables are a black box: [subprocess_run] of the
      environment [Env].  Writing a file that can be opened succeeds. *)

From Stdlib Require Import ZArith QArith Ascii String List Bool Lia.
From stdpp Require Import base option list gmap strings.

Local Open Scope string_scope.
Local Open Scope list_scope.
Local Open Scope Z_scope.

(** ** Python values *)

#[warnings="-register-all"]
Inductive value :=
| VNone
| VBool (b : bool)
| VInt (n : Z)
| VFloat (q : Q)
| VStr (s : string)
| VList (l : list value)
| VDict (d : list (string * value)).

Abbreviation dict := (list (string * value)).

(** [bool(v)] *)
Definition truthy (v : value) : bool :=
  match v with
  | VNone => false
  | VBool b => b
  | VInt n => negb (n =? 0)
  | VFloat q => negb (Qnum q =? 0)
  | VStr s => negb (String.eqb s "")
  | VList l => match l with [] => false | _ => true end
  | VDict d => match d with [] => false | _ => true end
  end.

(** [x or y] once both operands are evaluated; where the source relies on
    the short circuit, the right operand is sequenced explicitly. *)
Definition py_or (x y : value) : value := if truthy x then x else y.

(** [v is not None] *)
Definition is_not_None (v : value) : bool :=
  match v with VNone => false | _ => true end.

(** ** Dictionaries in insertion order *)

(** [d.get(k)] without the default, as an option *)
Fixpoint dict_find (k : string) (d : dict) : option value :=
  match d with
  | [] => None
  | (k', v) :: r => if String.eqb k k' then Some v else dict_find k r
  end.

(** [d.get(k)]: [None] when the key is absent *)
Definition dict_get (k : string) (d : dict) : value :=
  match dict_find k d with Some v => v | None => VNone end.

(** [d[k] = v]: an existing key keeps its position, a new key goes last *)
Fixpoint dict_set (k : string) (v : value) (d : dict) : dict :=
  match d with
  | [] => [(k, v)]
  | (k', v') :: r =>
      if String.eqb k k' then (k, v) :: r else (k', v') :: dict_set k v r
  end.

(** [d.setdefault(k, v)]: only an absent key is added *)
Definition dict_setdefault (k : string) (v : value) (d : dict) : dict :=
  match dict_find k d with Some _ => d | None => dict_set k v d end.

Definition keys (d : dict) : list string := map fst d.

(** What the loop of [update_state] makes of a dict: the entries of
    [kwargs] other than [None], written in turn. *)
Fixpoint merged (kwargs : dict) (d : dict) : dict :=
  match kwargs with
  | [] => d
  | (k, v) :: rest => merged rest (if is_not_None v then dict_set k v d else d)
  end.

(** [k] is given a value other than [None] somewhere in [kwargs]. *)
Fixpoint mentions (k : string) (kwargs : dict) : bool :=
  match kwargs with
  | [] => false
  | (k', v) :: rest => (String.eqb k k' && is_not_None v) || mentions k rest
  end.

(** ** Strings and paths *)

Definition lower_ascii (c : ascii) : ascii :=
  let n := nat_of_ascii c in
  if (Nat.leb 65 n && Nat.leb n 90)%bool then ascii_of_nat (n + 32) else c.

(** [s.lower()] *)
Fixpoint lower (s : string) : string :=
  match s with
  | EmptyString => EmptyString
  | String c r => String (lower_ascii c) (lower r)
  end.

(** [needle in hay] *)
Fixpoint contains (needle hay : string) : bool :=
  String.prefix needle hay ||
  match hay with
  | EmptyString => false
  | String _ r => contains needle r
  end.

Definition startswith_slash (s : string) : bool :=
  match s with String "/" _ => true | _ => false end.

Fixpoint endswith_slash (s : string) : bool :=
  match s with
  | EmptyString => false
  | String c EmptyString => Ascii.eqb c "/"
  | String _ r => endswith_slash r
  end.

(** [os.path.join(a, b)] of [posixpath] *)
Definition os_path_join (a b : string) : string :=
  if startswith_slash b then b
  else if String.eqb a "" || endswith_slash a then a +:+ b
  else a +:+ "/" +:+ b.

(** [sep.join(l)] *)
Definition str_join (sep : string) (l : list string) : string :=
  String.concat sep l.

(** ** The world a request runs in *)

Inductive entry :=
| Directory
| Junk (raw : string)          (* a file [json.load] rejects: empty, truncated, a CSV *)
| Json (v : value).            (* a file holding a JSON document *)

Record CompletedProcess := mkProc {
  stdout : string;
  stderr : string;
  returncode : Z
}.

Record World := mkWorld {
  files : gmap string entry;       (* what is on disk *)
  fd_regular : gset Z;             (* descriptors open on regular files *)
  spawned : list (list string)     (* the command lines run so far *)
}.

Inductive exn :=
| FileNotFoundError
| IsADirectoryError
| JSONDecodeError
| TypeError
| AttributeError
| OverflowError
| OSError (msg : string).

(** What the program takes from its installation and from the libraries
    it calls. *)
Record Env := mkEnv {
  CONFIG_DIR : string;
  DOCS_DIR : string;
  sys_executable : string;
  (* [subprocess.run(cmd, input=..)]: a launch failure, or the finished
     process and the files it leaves behind *)
  subprocess_run :
    list string -> option string -> World ->
    exn + (CompletedProcess * gmap string entry);
  (* [Path(p).name] *)
  path_name : string -> string;
  (* [str(Path(a) / b)] *)
  path_div : string -> string -> string;
  (* the category counts [pandas] reads from a summary workbook *)
  read_category_counts : World -> string -> list (string * Z)
}.

Definition isfile (w : World) (p : string) : bool :=
  match files w !! p with
  | Some Directory | None => false
  | Some _ => true
  end.

Definition exists_path (w : World) (p : string) : bool :=
  match files w !! p with Some _ => true | None => false end.

(** ** Responses *)

Record LogEntry := mkLog {
  log_title : string;
  log_command : string;
  log_stdout : string;
  log_stderr : string;
  log_success : bool
}.

Inductive Response :=
(* [flash(msg); return redirect(url_for(endpoint))] *)
| Redirect (endpoint flashed : string)
(* [render_template("run_result.html", ...)] *)
| RunResult (title command : string) (success : bool)
            (result_path stdout_text stderr_text : string)
(* [render_template("pipeline_visualize.html", ...)] *)
| PipelineVisualize (success : bool) (output_dir : string)
                    (logs : list LogEntry)
                    (scatter_png summary_xlsx full_xlsx amalgamated_csv : option string)
                    (category_counts : list (string * Z))
(* an exception left the view function *)
| Crash (e : exn).

(** ** Computations: state, early return, exceptions *)

Inductive outcome (A : Type) :=
| Next (a : A)
| Return (r : Response)
| Raise (e : exn).
Arguments Next {A} a.
Arguments Return {A} r.
Arguments Raise {A} e.

Definition M (A : Type) : Type := World -> outcome A * World.

Definition ret {A} (a : A) : M A := fun w => (Next a, w).

Definition bind {A B} (m : M A) (k : A -> M B) : M B :=
  fun w =>
    match m w with
    | (Next a, w') => k a w'
    | (Return r, w') => (Return r, w')
    | (Raise e, w') => (Raise e, w')
    end.

Definition return_ {A} (r : Response) : M A := fun w => (Return r, w).

Definition raise {A} (e : exn) : M A := fun w => (Raise e, w).

Definition get_world : M World := fun w => (Next w, w).

(** [try: body / except Exception: handler] *)
Definition try_except {A} (body : M A) (handler : exn -> M A) : M A :=
  fun w =>
    match body w with
    | (Raise e, w') => handler e w'
    | r => r
    end.

(** The response of a view function. *)
Definition respond (m : M Response) (w : World) : Response * World :=
  match m w with
  | (Next r, w') => (r, w')
  | (Return r, w') => (r, w')
  | (Raise e, w') => (Crash e, w')
  end.

Declare Scope py_scope.
Delimit Scope py_scope with py.
Notation "x <- c1 ;; c2" := (bind c1 (fun x => c2))
  (at level 100, c1 at next level, right associativity) : py_scope.
Notation "c1 ;;; c2" := (bind c1 (fun _ => c2))
  (at level 100, right associativity) : py_scope.
Local Open Scope py_scope.

(** ** Library calls *)

(** [open(path, "r")]: the entry the file holds *)
Definition open_r (path : string) : M entry :=
  fun w =>
    match files w !! path with
    | None => (Raise FileNotFoundError, w)
    | Some Directory => (Raise IsADirectoryError, w)
    | Some f => (Next f, w)
    end.

(** [json.load(f)] *)
Definition json_load (f : entry) : M value :=
  match f with
  | Json v => ret v
  | _ => raise JSONDecodeError
  end.

(** [with open(path, "w") as f: json.dump(obj, f)] *)
Definition json_dump_to (path : string) (obj : value) : M unit :=
  fun w =>
    match files w !! path with
    | Some Directory => (Raise IsADirectoryError, w)
    | _ => (Next tt, mkWorld (<[path := Json obj]> (files w)) (fd_regular w) (spawned w))
    end.

(** [obj.get(k)]; only a dict has the method *)
Definition py_get (obj : value) (k : string) : M value :=
  match obj with
  | VDict d => ret (dict_get k d)
  | _ => raise AttributeError
  end.

(** [obj[k] = v] with a string key *)
Definition py_setitem (obj : value) (k : string) (v : value) : M value :=
  match obj with
  | VDict d => ret (VDict (dict_set k v d))
  | _ => raise TypeError
  end.

(** [obj.setdefault(k, v)], returning the object *)
Definition py_setdefault (obj : value) (k : string) (v : value) : M value :=
  match obj with
  | VDict d => ret (VDict (dict_setdefault k v d))
  | _ => raise AttributeError
  end.

(** [s.lower()]; only a string has the method *)
Definition py_lower (v : value) : M string :=
  match v with
  | VStr s => ret (lower s)
  | _ => raise AttributeError
  end.

(** [os.path.isfile(v)]: a string is a path; an integer (a [bool] is one)
    is a descriptor, which has to fit a C [int]; nothing else is accepted *)
Definition fd_isfile (n : Z) : M bool :=
  fun w =>
    if (-2147483648 <=? n) && (n <=? 2147483647)
    then (Next (bool_decide (n ∈ fd_regular w)), w)
    else (Raise OverflowError, w).

Definition os_path_isfile (v : value) : M bool :=
  fun w =>
    match v with
    | VStr p => (Next (isfile w p), w)
    | VInt n => fd_isfile n w
    | VBool b => fd_isfile (if b then 1 else 0) w
    | _ => (Raise TypeError, w)
    end.

(** The strings of an argument vector, when all of them are strings. *)
Fixpoint as_strings (l : list value) : option (list string) :=
  match l with
  | [] => Some []
  | VStr s :: r =>
      match as_strings r with Some r' => Some (s :: r') | None => None end
  | _ => None
  end.

(** [request.form.get(k, default)] *)
Definition form_get (form : gmap string string) (k default : string) : string :=
  match form !! k with Some s => s | None => default end.

(** [bool(request.form.get(k))] *)
Definition form_bool (form : gmap string string) (k : string) : bool :=
  match form !! k with Some s => negb (String.eqb s "") | None => false end.

Definition nonempty (s : string) : bool := negb (String.eqb s "").

Section WebApp.

Variable E : Env.

Definition config_file (name : string) : string := CONFIG_DIR E +:+ "/" +:+ name.

Definition STATE_PATH : string := config_file "state.json".

(** [subprocess.run(cmd, ..., check=False)] *)
Definition subprocess_call (cmd : list value) (input : option string)
  : M (list string * CompletedProcess) :=
  fun w =>
    match as_strings cmd with
    | None => (Raise TypeError, w)
    | Some argv =>
        match subprocess_run E argv input w with
        | inl e => (Raise e, w)
        | inr (proc, fs) =>
            (Next (argv, proc), mkWorld fs (fd_regular w) (spawned w ++ [argv]))
        end
    end.

(** [Path(v).name.lower()] *)
Definition path_name_lower (v : value) : M string :=
  match v with
  | VStr p => ret (lower (path_name E p))
  | _ => raise TypeError
  end.

(** *** The run state store (lines 35-53) *)

Definition read_state : M value :=
  try_except
    (f <- open_r STATE_PATH ;; json_load f)
    (fun _ => ret (VDict [])).

(** [for k, v in kwargs.items(): if v is not None: state[k] = v] *)
Fixpoint merge_kwargs (kwargs : dict) (state : value) : M value :=
  match kwargs with
  | [] => ret state
  | (k, v) :: rest =>
      state <- (if is_not_None v then py_setitem state k v else ret state) ;;
      merge_kwargs rest state
  end.

Definition update_state (kwargs : dict) : M unit :=
  state <- read_state ;;
  state <- merge_kwargs kwargs state ;;
  try_except (json_dump_to STATE_PATH state) (fun _ => ret tt).

(** The value [read_state] makes of what is at the state path. *)
Definition stored (o : option entry) : value :=
  match o with
  | Some (Json v) => v
  | _ => VDict []
  end.

(** [try: body / except FileNotFoundError: handler] *)
Definition try_except_FileNotFound {A} (body : M A) (handler : M A) : M A :=
  try_except body
    (fun e => match e with FileNotFoundError => handler | _ => raise e end).

Definition newline : string := String (ascii_of_nat 10) EmptyString.

(** *** The alignment stage (lines 154-203, the POST branch) *)

Definition xcms (form : gmap string string) : M Response :=
  let rscript_path := form_get form "rscript_path" "Rscript" in
  let mzxml_dir := form_get form "mzxml_dir" "" in
  let report_name := form_get form "report_name" "xcms_report" in
  if negb (nonempty mzxml_dir) then
    return_ (Redirect "xcms" "Please provide the mzXML directory path.")
  else
  let script_path := DOCS_DIR E +:+ "/xcms.R" in
  run <- try_except_FileNotFound
           (subprocess_call [VStr rscript_path; VStr script_path]
              (Some (mzxml_dir +:+ newline +:+ report_name +:+ newline)))
           (return_ (Redirect "xcms"
              "Rscript not found. Please set the correct Rscript path.")) ;;
  let proc := snd run in
  let out := stdout proc in
  let err := stderr proc in
  let result_path := path_div E mzxml_dir (report_name +:+ ".csv") in
  w <- get_world ;;
  let success := exists_path w result_path in
  (if success then
     let rp := result_path in
     let lower_rp := lower rp in
     let key :=
       if contains "neg" lower_rp || contains "negative" lower_rp
       then Some "xcms_last_negative_csv"
       else if contains "pos" lower_rp || contains "positive" lower_rp
       then Some "xcms_last_positive_csv"
       else None in
     update_state (("xcms_last_csv", VStr rp) ::
                   match key with Some k => [(k, VStr rp)] | None => [] end)
   else ret tt) ;;;
  ret (RunResult "XCMS Run" (rscript_path +:+ " " +:+ script_path) success
         result_path out err).

(** *** The stage runner (lines 237-246) *)

Definition run_python_module (module_name : string) (args_list : list value)
  : M (list string * CompletedProcess) :=
  let cmd := [VStr (sys_executable E); VStr "-m"; VStr module_name] ++ args_list in
  subprocess_call cmd None.

(** *** The filter stage (lines 260-317) *)

(** [for cand in candidates: if cand and os.path.isfile(cand): ...; break] *)
Fixpoint first_candidate (candidates : list value) (input_path : value) : M value :=
  match candidates with
  | [] => ret input_path
  | cand :: rest =>
      ok <- (if truthy cand then os_path_isfile cand else ret false) ;;
      if ok then ret cand else first_candidate rest input_path
  end.

Definition run_peakfilter (form : gmap string string) : M Response :=
  let input_path := VStr (form_get form "input_path" "") in
  let output_dir := form_get form "output_dir" "" in
  let params_path := form_get form "params_path" (config_file "peakfilter.json") in
  let verbose := form_bool form "verbose" in
  let timestamp := form_bool form "timestamp" in
  input_path <-
    (if negb (truthy input_path) then
       st <- read_state ;;
       c1 <- py_get st "xcms_last_negative_csv" ;;
       c2 <- py_get st "xcms_last_positive_csv" ;;
       c3 <- py_get st "xcms_last_csv" ;;
       input_path <- first_candidate [c1; c2; c3] input_path ;;
       if negb (truthy input_path) then
         return_ (Redirect "pipeline"
           "No input provided and no XCMS output found. Run XCMS first.")
       else ret input_path
     else ret input_path) ;;
  has_params <- os_path_isfile (VStr params_path) ;;
  if negb has_params then
    return_ (Redirect "pipeline"
      "PeakFilter parameters not found. Configure them under Params.")
  else
  let args := [VStr "-i"; input_path; VStr "-p"; VStr params_path]
              ++ (if nonempty output_dir then [VStr "-o"; VStr output_dir] else [])
              ++ (if verbose then [VStr "--verbose"] else [])
              ++ (if timestamp then [VStr "--timestamp"] else []) in
  run <- run_python_module "LipidFinder.run_peakfilter" args ;;
  let cmd := fst run in
  let proc := snd run in
  let out := stdout proc in
  let err := stderr proc in
  let success := returncode proc =? 0 in
  try_except
    (lower_in <- path_name_lower input_path ;;
     if nonempty output_dir then
       if contains "neg" lower_in || contains "negative" lower_in then
         update_state [("peakfilter_last_negative_summary",
           VStr (os_path_join output_dir "peakfilter_negative_summary.csv"))]
       else if contains "pos" lower_in || contains "positive" lower_in then
         update_state [("peakfilter_last_positive_summary",
           VStr (os_path_join output_dir "peakfilter_positive_summary.csv"))]
       else
         update_state [("peakfilter_last_summary",
           VStr (os_path_join output_dir "peakfilter_summary.csv"))]
     else ret tt)
    (fun _ => ret tt) ;;;
  ret (RunResult "PeakFilter Run" (str_join " " cmd) success output_dir out err).

(** *** The amalgamation stage (lines 320-354) *)

Definition run_amalgamator (form : gmap string string) : M Response :=
  let neg_file := VStr (form_get form "neg_file" "") in
  let pos_file := VStr (form_get form "pos_file" "") in
  let output_dir := form_get form "output_dir" "" in
  let params_path := form_get form "params_path" (config_file "amalgamator.json") in
  inputs <-
    (if negb (truthy neg_file && truthy pos_file) then
       st <- read_state ;;
       neg_file <- (if truthy neg_file then ret neg_file
                    else py_get st "peakfilter_last_negative_summary") ;;
       pos_file <- (if truthy pos_file then ret pos_file
                    else py_get st "peakfilter_last_positive_summary") ;;
       if negb (truthy neg_file && truthy pos_file) then
         return_ (Redirect "pipeline"
           "Missing Amalgamator inputs. Run PeakFilter for both polarities first.")
       else ret (neg_file, pos_file)
     else ret (neg_file, pos_file)) ;;
  let neg_file := fst inputs in
  let pos_file := snd inputs in
  has_params <- os_path_isfile (VStr params_path) ;;
  if negb has_params then
    return_ (Redirect "pipeline"
      "Amalgamator parameters not found. Configure them under Params.")
  else
  let args := [VStr "-neg"; neg_file; VStr "-pos"; pos_file; VStr "-p"; VStr params_path]
              ++ (if nonempty output_dir then [VStr "-o"; VStr output_dir] else []) in
  run <- run_python_module "LipidFinder.run_amalgamator" args ;;
  let cmd := fst run in
  let proc := snd run in
  let out := stdout proc in
  let err := stderr proc in
  let success := returncode proc =? 0 in
  (if success && nonempty output_dir then
     update_state [("amalgamator_last_csv",
       VStr (os_path_join output_dir "amalgamated.csv"))]
   else ret tt) ;;;
  ret (RunResult "Amalgamator Run" (str_join " " cmd) success output_dir out err).

(** *** The search stage (lines 357-387) *)

(** [st.get(k1) or st.get(k2) or ...]: the lookups stop at the first
    value that is true; the last one looked up is the result. *)
Fixpoint get_first_truthy (st : value) (ks : list string) (last : value) : M value :=
  match ks with
  | [] => ret last
  | k :: rest =>
      v <- py_get st k ;;
      if truthy v then ret v else get_first_truthy st rest v
  end.

Definition run_mssearch (form : gmap string string) : M Response :=
  let input_file := VStr (form_get form "input_file" "") in
  let output_dir := form_get form "output_dir" "" in
  let params_path := form_get form "params_path" (config_file "mssearch.json") in
  input_file <-
    (if negb (truthy input_file) then
       st <- read_state ;;
       input_file <- get_first_truthy st
         ["amalgamator_last_csv"; "peakfilter_last_negative_summary";
          "peakfilter_last_positive_summary"; "peakfilter_last_summary"] VNone ;;
       if negb (truthy input_file) then
         return_ (Redirect "pipeline"
           "Missing MSSearch input. Run Amalgamator or PeakFilter first.")
       else ret input_file
     else ret input_file) ;;
  has_params <- os_path_isfile (VStr params_path) ;;
  if negb has_params then
    return_ (Redirect "pipeline"
      "MSSearch parameters not found. Configure them under Params.")
  else
  let args := [VStr "-i"; input_file; VStr "-p"; VStr params_path]
              ++ (if nonempty output_dir then [VStr "-o"; VStr output_dir] else []) in
  run <- run_python_module "LipidFinder.run_mssearch" args ;;
  let cmd := fst run in
  let proc := snd run in
  let out := stdout proc in
  let err := stderr proc in
  let success := returncode proc =? 0 in
  ret (RunResult "MSSearch Run" (str_join " " cmd) success output_dir out err).

(** *** The full pipeline (lines 390-535) *)

(** [log_entry(title, cmd, proc)] *)
Definition log_entry (title : string) (cmd : list string) (proc : CompletedProcess)
  : LogEntry :=
  mkLog title (str_join " " cmd) (stdout proc) (stderr proc) (returncode proc =? 0).

(** The early exits of the stage chain:
    [render_template("pipeline_visualize.html", success=False, ...)] *)
Definition halted (output_dir : string) (logs : list LogEntry) : Response :=
  PipelineVisualize false output_dir logs None None None None [].

(** Lines 406-425: the inputs taken from the last alignment run. *)
Definition resolve_top_inputs (neg_input pos_input : value) : M (value * value) :=
  if negb (truthy neg_input || truthy pos_input) then
    st <- read_state ;;
    n <- py_get st "xcms_last_negative_csv" ;;
    let neg_input := py_or n neg_input in
    p <- py_get st "xcms_last_positive_csv" ;;
    let pos_input := py_or p pos_input in
    inputs <-
      (if negb (truthy neg_input || truthy pos_input) then
         generic <- py_get st "xcms_last_csv" ;;
         ok <- (if truthy generic then os_path_isfile generic else ret false) ;;
         if ok then
           lower_name <- path_name_lower generic ;;
           if contains "neg" lower_name || contains "negative" lower_name then
             ret (generic, pos_input)
           else if contains "pos" lower_name || contains "positive" lower_name then
             ret (neg_input, generic)
           else
             ret (generic, pos_input)
         else ret (neg_input, pos_input)
       else ret (neg_input, pos_input)) ;;
    if negb (truthy (fst inputs) || truthy (snd inputs)) then
      return_ (Redirect "pipeline"
        "No inputs found. Run XCMS first to generate aligned CSVs.")
    else ret inputs
  else ret (neg_input, pos_input).

(** Lines 427-436: the stages whose parameter file is missing. *)
Definition missing_parameters (w : World) (neg_input pos_input : value) : list string :=
  (if truthy neg_input || truthy pos_input then
     if negb (isfile w (config_file "peakfilter.json")) then ["PeakFilter"] else []
   else [])
  ++ (if negb (isfile w (config_file "amalgamator.json")) then ["Amalgamator"] else [])
  ++ (if negb (isfile w (config_file "mssearch.json")) then ["MSSearch"] else []).

(** Lines 454-464 and 465-475: one filter run; the summary it leaves. *)
Definition filter_stage (title summary_name : string) (input : value)
    (output_dir : string) (verbose timestamp : bool) (logs : list LogEntry)
  : M (value * list LogEntry) :=
  if truthy input then
    let args := [VStr "-i"; input; VStr "-p"; VStr (config_file "peakfilter.json");
                 VStr "-o"; VStr output_dir]
                ++ (if verbose then [VStr "--verbose"] else [])
                ++ (if timestamp then [VStr "--timestamp"] else []) in
    run <- run_python_module "LipidFinder.run_peakfilter" args ;;
    let logs := logs ++ [log_entry title (fst run) (snd run)] in
    if negb (returncode (snd run) =? 0) then
      return_ (halted output_dir logs)
    else ret (VStr (os_path_join output_dir summary_name), logs)
  else ret (VNone, logs).

(** Lines 478-485. *)
Definition amalgamate_stage (neg_summary pos_summary : value)
    (output_dir : string) (logs : list LogEntry)
  : M (value * list LogEntry) :=
  if truthy neg_summary && truthy pos_summary then
    let args := [VStr "-neg"; neg_summary; VStr "-pos"; pos_summary;
                 VStr "-p"; VStr (config_file "amalgamator.json");
                 VStr "-o"; VStr output_dir] in
    run <- run_python_module "LipidFinder.run_amalgamator" args ;;
    let logs := logs ++ [log_entry "Amalgamator" (fst run) (snd run)] in
    if negb (returncode (snd run) =? 0) then
      return_ (halted output_dir logs)
    else ret (VStr (os_path_join output_dir "amalgamated.csv"), logs)
  else ret (VNone, logs).

(** Lines 490-500: the parameters handed to the search stage. *)
Definition write_search_overlay : M value :=
  ms_params_obj <-
    try_except
      (f <- open_r (config_file "mssearch.json") ;; json_load f)
      (fun _ => ret (VDict [])) ;;
  ms_params_obj <- py_setdefault ms_params_obj "plotCategories" (VBool true) ;;
  ms_params_obj <- py_setdefault ms_params_obj "summary" (VBool true) ;;
  ms_params_obj <- py_setitem ms_params_obj "figFormat" (VStr "png") ;;
  json_dump_to (config_file "mssearch_web_pipeline.json") ms_params_obj ;;;
  ret ms_params_obj.

(** Lines 488-506: the search run on the overlay. *)
Definition search_stage (ms_input : value) (output_dir : string)
    (logs : list LogEntry)
  : M (value * list LogEntry) :=
  ms_params_obj <- write_search_overlay ;;
  let args := [VStr "-i"; ms_input;
               VStr "-p"; VStr (config_file "mssearch_web_pipeline.json");
               VStr "-o"; VStr output_dir] in
  run <- run_python_module "LipidFinder.run_mssearch" args ;;
  let logs := logs ++ [log_entry "MSSearch" (fst run) (snd run)] in
  if negb (returncode (snd run) =? 0) then
    return_ (halted output_dir logs)
  else ret (ms_params_obj, logs).

Definition if_file (w : World) (p : string) : option string :=
  if isfile w p then Some p else None.

Definition run_pipeline_full (form : gmap string string) : M Response :=
  let neg_input := VStr (form_get form "neg_input" "") in
  let pos_input := VStr (form_get form "pos_input" "") in
  let output_dir := form_get form "output_dir" "" in
  let verbose := form_bool form "verbose" in
  let timestamp := form_bool form "timestamp" in
  if negb (nonempty output_dir) then
    return_ (Redirect "pipeline"
      "Please provide an output directory for the pipeline.")
  else
  inputs <- resolve_top_inputs neg_input pos_input ;;
  let neg_input := fst inputs in
  let pos_input := snd inputs in
  w <- get_world ;;
  let missing := missing_parameters w neg_input pos_input in
  if match missing with [] => false | _ => true end then
    return_ (Redirect "pipeline"
      ("Missing parameters for: " +:+ str_join ", " missing
       +:+ ". Configure them under Params."))
  else
  let logs := [] in
  (* 1) Run PeakFilter for provided inputs *)
  r <- filter_stage "PeakFilter (negative)" "peakfilter_negative_summary.csv"
         neg_input output_dir verbose timestamp logs ;;
  let neg_summary := fst r in
  let logs := snd r in
  r <- filter_stage "PeakFilter (positive)" "peakfilter_positive_summary.csv"
         pos_input output_dir verbose timestamp logs ;;
  let pos_summary := fst r in
  let logs := snd r in
  (* 2) Amalgamate if both summaries exist *)
  r <- amalgamate_stage neg_summary pos_summary output_dir logs ;;
  let amalgamated_csv := fst r in
  let logs := snd r in
  (* 3) MSSearch on amalgamated or single summary *)
  let ms_input := py_or amalgamated_csv (py_or neg_summary pos_summary) in
  r <- search_stage ms_input output_dir logs ;;
  let ms_params_obj := fst r in
  let logs := snd r in
  (* Build visualization data *)
  db <- py_get ms_params_obj "database" ;;
  db_name <- py_lower (py_or db (VStr "all_lmsd")) ;;
  let summary_xlsx := os_path_join output_dir ("mssearch_" +:+ db_name +:+ "_summary.xlsx") in
  let scatter_png := os_path_join output_dir ("category_scatterplot_" +:+ db_name +:+ ".png") in
  let full_xlsx := os_path_join output_dir ("mssearch_" +:+ db_name +:+ ".xlsx") in
  w <- get_world ;;
  let category_counts :=
    if isfile w summary_xlsx then read_category_counts E w summary_xlsx else [] in
  ret (PipelineVisualize true output_dir logs
         (if_file w scatter_png) (if_file w summary_xlsx) (if_file w full_xlsx)
         (match amalgamated_csv with
          | VStr p => if truthy amalgamated_csv then if_file w p else None
          | _ => None
          end)
         category_counts).

End WebApp.

(** ** Vocabulary of the statements *)

(** Every run of [m] takes a world to one related to it by [R]. *)
Definition respects {A} (R : World -> World -> Prop) (m : M A) : Prop :=
  ∀ w, R w (snd (m w)).

(** [m] only looks at the world and never leaves the view function. *)
Definition quiet {A} (m : M A) : Prop :=
  ∀ w, snd (m w) = w ∧ ∀ r, fst (m w) ≠ Return r.

(** The file at [p] is the same in both worlds. *)
Definition same_file (p : string) (w w' : World) : Prop :=
  files w' !! p = files w !! p.

(** No process was run between the two worlds. *)
Definition same_spawned (w w' : World) : Prop :=
  spawned w' = spawned w.

(** The log [logs] accounts for exactly the processes run between [w] and
    [w']: one entry per command line, in the order they were run. *)
Definition attempted (w : World) (logs : list LogEntry) (w' : World) : Prop :=
  ∃ cmds, spawned w' = spawned w ++ cmds
          ∧ map (str_join " ") cmds = map log_command logs.

(** The command line of a filter run of the full pipeline. *)
Definition filter_argv (E : Env) (input out : string) (verbose timestamp : bool)
  : list string :=
  [sys_executable E; "-m"; "LipidFinder.run_peakfilter";
   "-i"; input; "-p"; config_file E "peakfilter.json"; "-o"; out]
  ++ (if verbose then ["--verbose"] else [])
  ++ (if timestamp then ["--timestamp"] else []).

(** The search parameters of a pipeline run, from the saved ones. *)
Definition overlay_of (d : dict) : dict :=
  dict_set "figFormat" (VStr "png")
    (dict_setdefault "summary" (VBool true)
       (dict_setdefault "plotCategories" (VBool true) d)).

(** The external executables leave the file at [p] alone. *)
Definition leaves (E : Env) (p : string) : Prop :=
  ∀ argv input w proc fs,
    subprocess_run E argv input w = inr (proc, fs) -> fs !! p = files w !! p.

(** [w'] is [w] after one process has run, and nothing else. *)
Definition ran_one (E : Env) (w w' : World) : Prop :=
  ∃ argv input proc fs,
    subprocess_run E argv input w = inr (proc, fs)
    ∧ w' = mkWorld fs (fd_regular w) (spawned w ++ [argv]).

(** The polarity tag of the specification: [neg]/[negative] is looked
    for first, then [pos]/[positive], in the name without regard to case. *)
Inductive Polarity := Negative | Positive | Unknown.

Definition inferPolarity (filename : string) : Polarity :=
  let l := lower filename in
  if contains "neg" l || contains "negative" l then Negative
  else if contains "pos" l || contains "positive" l then Positive
  else Unknown.

(** The success flag a response shows. *)
Definition reports_success (r : Response) : bool :=
  match r with
  | RunResult _ _ success _ _ _ => success
  | PipelineVisualize success _ _ _ _ _ _ _ => success
  | _ => false
  end.

(** ** A sample installation *)

(** The text after the last separator: [Path(p).name] for a path without
    trailing separator or dot components. *)
Fixpoint last_component (acc s : string) : string :=
  match s with
  | EmptyString => acc
  | String c r =>
      if Ascii.eqb c "/" then last_component EmptyString r
      else last_component (acc +:+ String c EmptyString) r
  end.

(** Executables that exit with [code] and leave the disk as it is. *)
Definition exits (code : Z) (argv : list string) (input : option string)
    (w : World) : exn + (CompletedProcess * gmap string entry) :=
  inr (mkProc "" "" code, files w).

Definition sample_env (code : Z) : Env :=
  mkEnv "/app/webapp/config" "/app/docs" "/usr/bin/python3"
    (exits code)
    (last_component EmptyString)
    (fun a b => a +:+ "/" +:+ b)
    (fun _ _ => []).

Definition on_disk (l : list (string * entry)) : World :=
  mkWorld (list_to_map l) ∅ [].

Definition form_of (l : list (string * string)) : gmap string string :=
  list_to_map l.

(** The three saved parameter sets. *)
Definition configured : list (string * entry) :=
  [("/app/webapp/config/peakfilter.json", Json (VDict []));
   ("/app/webapp/config/amalgamator.json", Json (VDict []));
   ("/app/webapp/config/mssearch.json", Json (VDict []))].

(** Scenario A of the specification: both inputs given, nothing recorded. *)
Definition scenario_A : gmap string string :=
  form_of [("neg_input", "/data/neg.csv"); ("pos_input", "/data/pos.csv");
           ("output_dir", "/out")].

(** The saved search parameters with category plotting switched off. *)
Definition plotting_off : list (string * entry) :=
  [("/app/webapp/config/peakfilter.json", Json (VDict []));
   ("/app/webapp/config/amalgamator.json", Json (VDict []));
   ("/app/webapp/config/mssearch.json",
    Json (VDict [("plotCategories", VBool false); ("database", VStr "COMP_DB")]))].

(** A state whose amalgamated file has since been deleted, next to a
    filter summary that is still there. *)
Definition stale_state : list (string * entry) :=
  configured ++
  [("/app/webapp/config/state.json",
    Json (VDict [("amalgamator_last_csv", VStr "/old/amalgamated.csv");
                 ("peakfilter_last_negative_summary",
                  VStr "/out/peakfilter_negative_summary.csv")]));
   ("/out/peakfilter_negative_summary.csv", Junk "mz,rt,intensity")].

(** A state whose two filter summaries have both been deleted. *)
Definition deleted_summaries : list (string * entry) :=
  configured ++
  [("/app/webapp/config/state.json",
    Json (VDict [("peakfilter_last_negative_summary", VStr "/gone/neg_summary.csv");
                 ("peakfilter_last_positive_summary", VStr "/gone/pos_summary.csv")]))].

(** A state with one alignment output, of no recognisable polarity. *)
Definition generic_only : list (string * entry) :=
  configured ++
  [("/app/webapp/config/state.json",
    Json (VDict [("xcms_last_csv", VStr "/data/run7.csv")]));
   ("/data/run7.csv", Junk "mz,rt,intensity")].

(** An alignment report named [pos_run] in the directory [/data/neg], and
    the request that made it. *)
Definition pos_report : list (string * entry) :=
  configured ++ [("/data/neg/pos_run.csv", Junk "mz,rt,intensity")].

Definition align_pos_run : gmap string string :=
  form_of [("mzxml_dir", "/data/neg"); ("report_name", "pos_run")].

(** The same report, recorded under the generic key only. *)
Definition pos_report_generic : list (string * entry) :=
  pos_report ++
  [("/app/webapp/config/state.json",
    Json (VDict [("xcms_last_csv", VStr "/data/neg/pos_run.csv")]))].

(** ** Command lines of the stage requests *)

(** [[sys.executable, "-m", module_name] + args_list] *)
Definition module_argv (E : Env) (module_name : string) (args_list : list string)
  : list string :=
  [sys_executable E; "-m"; module_name] ++ args_list.

(** [["-o", output_dir]] when an output directory is given *)
Definition output_args (output_dir : string) : list string :=
  if nonempty output_dir then ["-o"; output_dir] else [].

(** The command line of the alignment run and what it is fed. *)
Definition xcms_argv (E : Env) (form : gmap string string) : list string :=
  [form_get form "rscript_path" "Rscript"; DOCS_DIR E +:+ "/xcms.R"].

Definition xcms_input (form : gmap string string) : string :=
  form_get form "mzxml_dir" "" +:+ newline
  +:+ form_get form "report_name" "xcms_report" +:+ newline.

(** The report the alignment run is expected to leave. *)
Definition xcms_result_path (E : Env) (form : gmap string string) : string :=
  path_div E (form_get form "mzxml_dir" "")
    (form_get form "report_name" "xcms_report" +:+ ".csv").

(** The command lines of the three stage requests, for the input(s) the
    request has settled on. *)
Definition peakfilter_argv (E : Env) (form : gmap string string) (input_path : string)
  : list string :=
  module_argv E "LipidFinder.run_peakfilter"
    (["-i"; input_path;
      "-p"; form_get form "params_path" (config_file E "peakfilter.json")]
     ++ output_args (form_get form "output_dir" "")
     ++ (if form_bool form "verbose" then ["--verbose"] else [])
     ++ (if form_bool form "timestamp" then ["--timestamp"] else [])).

Definition amalgamator_argv (E : Env) (form : gmap string string)
    (neg_file pos_file : string) : list string :=
  module_argv E "LipidFinder.run_amalgamator"
    (["-neg"; neg_file; "-pos"; pos_file;
      "-p"; form_get form "params_path" (config_file E "amalgamator.json")]
     ++ output_args (form_get form "output_dir" "")).

Definition mssearch_argv (E : Env) (form : gmap string string) (input_file : string)
  : list string :=
  module_argv E "LipidFinder.run_mssearch"
    (["-i"; input_file;
      "-p"; form_get form "params_path" (config_file E "mssearch.json")]
     ++ output_args (form_get form "output_dir" "")).

(** What a filter request records for an input of the given polarity. *)
Definition peakfilter_record (pol : Polarity) (output_dir : string) : string * value :=
  match pol with
  | Negative => ("peakfilter_last_negative_summary",
                 VStr (os_path_join output_dir "peakfilter_negative_summary.csv"))
  | Positive => ("peakfilter_last_positive_summary",
                 VStr (os_path_join output_dir "peakfilter_positive_summary.csv"))
  | Unknown => ("peakfilter_last_summary",
                VStr (os_path_join output_dir "peakfilter_summary.csv"))
  end.

(** A candidate of the filter's resolver that can be used in [w]. *)
Definition usable_path (w : World) (c : value) : bool :=
  match c with
  | VStr p => nonempty p && isfile w p
  | _ => false
  end.

(** What the requests themselves put under a key of the state: a path;
    a key not yet recorded reads as [None]. *)
Definition path_or_none (v : value) : bool :=
  match v with VNone | VStr _ => true | _ => false end.

(** [(ms_params_obj.get("database") or "all_lmsd").lower()]: the database
    name of a results page, when what stands under [database] has a name. *)
Definition database_name (d : dict) : option string :=
  match py_or (dict_get "database" d) (VStr "all_lmsd") with
  | VStr s => Some (lower s)
  | _ => None
  end.

(** The results page of a pipeline run that went through (lines 509-535):
    the artifacts named after the database [db] that are on disk in [w]. *)
Definition pipeline_page (E : Env) (w : World) (out db : string)
    (logs : list LogEntry) (amalgamated : option string) : Response :=
  let summary_xlsx := os_path_join out ("mssearch_" +:+ db +:+ "_summary.xlsx") in
  let scatter_png := os_path_join out ("category_scatterplot_" +:+ db +:+ ".png") in
  let full_xlsx := os_path_join out ("mssearch_" +:+ db +:+ ".xlsx") in
  PipelineVisualize true out logs
    (if_file w scatter_png) (if_file w summary_xlsx) (if_file w full_xlsx)
    amalgamated
    (if isfile w summary_xlsx then read_category_counts E w summary_xlsx else []).

(** The command line of the search run of the full pipeline. *)
Definition search_argv (E : Env) (ms_input out : string) : list string :=
  [sys_executable E; "-m"; "LipidFinder.run_mssearch"; "-i"; ms_input;
   "-p"; config_file E "mssearch_web_pipeline.json"; "-o"; out].

(** The command line of the amalgamation of the full pipeline. *)
Definition amalgamate_argv (E : Env) (out : string) : list string :=
  [sys_executable E; "-m"; "LipidFinder.run_amalgamator";
   "-neg"; os_path_join out "peakfilter_negative_summary.csv";
   "-pos"; os_path_join out "peakfilter_positive_summary.csv";
   "-p"; config_file E "amalgamator.json"; "-o"; out].

(** The parameters the search falls back on. *)
Definition overlay_defaults : dict :=
  [("plotCategories", VBool true); ("summary", VBool true); ("figFormat", VStr "png")].

(** ** Runs of the stage executables *)

(** One process of a full pipeline run: the title it is logged under, its
    command line, and what [subprocess.run] returned for it. *)
Record StageRun := mkRun {
  run_title : string;
  run_argv : list string;
  run_proc : CompletedProcess
}.

Definition run_entry (r : StageRun) : LogEntry :=
  log_entry (run_title r) (run_argv r) (run_proc r).

Definition exited_zero (r : StageRun) : bool := returncode (run_proc r) =? 0.

(** [w'] is [w] after the processes [runs], started one after the other,
    each in the world its predecessors left; in between, the application
    may have written files of its own. *)
Inductive pipeline_trace (E : Env) : World -> list StageRun -> World -> Prop :=
| trace_start (w : World) : pipeline_trace E w [] w
| trace_write (w : World) (runs : list StageRun) (w1 : World)
    (path : string) (v : entry) :
    pipeline_trace E w runs w1 ->
    pipeline_trace E w runs
      (mkWorld (<[path := v]> (files w1)) (fd_regular w1) (spawned w1))
| trace_process (w : World) (runs : list StageRun) (w1 : World)
    (r : StageRun) (fs : gmap string entry) :
    pipeline_trace E w runs w1 ->
    subprocess_run E (run_argv r) None w1 = inr (run_proc r, fs) ->
    pipeline_trace E w (runs ++ [r])
      (mkWorld fs (fd_regular w1) (spawned w1 ++ [run_argv r])).

(** Executables of which the one run as module [m] exits with code 1 and
    the others with code 0; all leave the disk as it is. *)
Definition fails_at (m : string) (argv : list string) (input : option string)
    (w : World) : exn + (CompletedProcess * gmap string entry) :=
  inr (mkProc "" "" (if existsb (String.eqb m) argv then 1 else 0), files w).

Definition failing_env (m : string) : Env :=
  mkEnv "/app/webapp/config" "/app/docs" "/usr/bin/python3"
    (fails_at m)
    (last_component EmptyString)
    (fun a b => a +:+ "/" +:+ b)
    (fun _ _ => []).

(** ** The parameter forms (lines 20-32, 56-68, 81-151) *)

Inductive Method := GET | POST.

(** [redirect(url_for(endpoint))] after [flash(flashed)], or
    [render_template("params.html", module=, specs=, values=)] *)
Inductive ParamsResponse :=
| ParamsRedirect (endpoint flashed : string)
| ParamsPage (module : string) (specs values : dict).

(** What a parameter request can end in: an exception of the library
    calls, or the [ValueError] of [int()] and [float()]. *)
Inductive params_exn := Raised (e : exn) | ValueError.

Definition raised {A} (r : exn + A) : params_exn + A :=
  match r with inl e => inl (Raised e) | inr a => inr a end.

Notation "x <-! c1 ;; c2" := (match c1 with inl e => inl e | inr x => c2 end)
  (at level 100, c1 at next level, right associativity) : py_scope.

(** [with open(path, "r") as f: json.load(f)] *)
Definition read_json (w : World) (path : string) : exn + value :=
  match files w !! path with
  | None => inl FileNotFoundError
  | Some Directory => inl IsADirectoryError
  | Some (Junk _) => inl JSONDecodeError
  | Some (Json v) => inr v
  end.

(** [with open(path, "w") as f: json.dump(obj, f)] *)
Definition write_json (path : string) (obj : value) (w : World) : exn + World :=
  match files w !! path with
  | Some Directory => inl IsADirectoryError
  | _ => inr (mkWorld (<[path := Json obj]> (files w)) (fd_regular w) (spawned w))
  end.

(** [obj.get(k, default)] *)
Definition get_or (obj : value) (k : string) (default : value) : exn + value :=
  match obj with
  | VDict d => inr (match dict_find k d with Some v => v | None => default end)
  | _ => inl AttributeError
  end.

(** [v == s] for a string [s] *)
Definition value_is (v : value) (s : string) : bool :=
  match v with VStr t => String.eqb t s | _ => false end.

(** [s in container] for a string [s]: an element of a list, a piece of a
    string, a key of a dict *)
Definition py_in (s : string) (container : value) : exn + bool :=
  match container with
  | VList l => inr (existsb (fun v => value_is v s) l)
  | VStr t => inr (contains s t)
  | VDict d => inr (existsb (String.eqb s) (keys d))
  | _ => inl TypeError
  end.

(** [c.isspace()] on ASCII: tab to carriage return, the four separators,
    the space *)
Definition is_space (c : ascii) : bool :=
  let n := nat_of_ascii c in
  ((Nat.leb 9 n && Nat.leb n 13) || (Nat.leb 28 n && Nat.leb n 32))%bool.

Fixpoint lstrip (s : string) : string :=
  match s with
  | EmptyString => EmptyString
  | String c r => if is_space c then lstrip r else s
  end.

Fixpoint rstrip (s : string) : string :=
  match s with
  | EmptyString => EmptyString
  | String c r =>
      match rstrip r with
      | EmptyString => if is_space c then EmptyString else String c EmptyString
      | r' => String c r'
      end
  end.

(** [s.strip()] *)
Definition strip (s : string) : string := rstrip (lstrip s).

(** [s.split(sep)] for a separator of one character *)
Fixpoint split_on (sep : ascii) (s : string) : list string :=
  match s with
  | EmptyString => [EmptyString]
  | String c r =>
      if Ascii.eqb c sep then EmptyString :: split_on sep r
      else match split_on sep r with
           | h :: t => String c h :: t
           | [] => [String c EmptyString]
           end
  end.

(** Lines 119-126: the pairs of a text like [a|b, c|d] *)
Fixpoint collect_pairs (chunks : list string) (pairs : list value) : list value :=
  match chunks with
  | [] => pairs
  | chunk :: rest =>
      let chunk := strip chunk in
      if negb (nonempty chunk) then collect_pairs rest pairs
      else
        let parts := map strip (split_on "|" chunk) in
        if Nat.eqb (length parts) 2
        then collect_pairs rest (pairs ++ [VList (map VStr parts)])
        else collect_pairs rest pairs
  end.

Section ParamsApp.

Variable E : Env.

(** [BASE_DIR / "LipidFinder" / "Data"] *)
Variable LF_DATA_DIR : string.

(** [int(raw)] and [float(raw)] of a text; [None] is their [ValueError]. *)
Variable py_int : string -> option value.
Variable py_float : string -> option value.

Definition load_template (w : World) : exn + value :=
  read_json w (LF_DATA_DIR +:+ "/parameters_template.json").

(** The loop of [module_params] over [tpl.items()] *)
Fixpoint filter_specs (module : string) (items : dict) (filtered : dict)
  : exn + dict :=
  match items with
  | [] => inr filtered
  | (key, spec) :: rest =>
      modules <-! get_or spec "modules" (VList []) ;;
      active <-! py_in module modules ;;
      filter_specs module rest (if active then dict_set key spec filtered else filtered)
  end.

Definition module_params (w : World) (module : string) : exn + dict :=
  tpl <-! load_template w ;;
  match tpl with
  | VDict items => filter_specs module items []
  | _ => inl AttributeError
  end.

Definition default_value_for (spec : value) : exn + value :=
  t <-! get_or spec "type" VNone ;;
  if value_is t "bool" then
    d <-! get_or spec "default" (VBool false) ;; inr (VBool (truthy d))
  else if value_is t "path" then
    get_or spec "default" (VStr "")
  else if existsb (value_is t) ["str"; "int"; "float"; "selection"] then
    get_or spec "default" VNone
  else if existsb (value_is t) ["int range"; "float range"] then
    get_or spec "default" (VList [VNone; VNone])
  else if existsb (value_is t) ["multiselection"; "pairs"] then
    get_or spec "default" (VList [])
  else get_or spec "default" VNone.

(** [request.form.get(k)] *)
Definition form_lookup (form : gmap string string) (k : string) : value :=
  match form !! k with Some s => VStr s | None => VNone end.

(** Lines 98-101 and the [cast] of lines 111-114: an absent or empty field
    is [None], any other is parsed as a number. *)
Definition cast (as_int : bool) (raw : option string) : params_exn + value :=
  match raw with
  | None => inr VNone
  | Some s =>
      if String.eqb s "" then inr VNone
      else match (if as_int then py_int s else py_float s) with
           | Some v => inr v
           | None => inl ValueError
           end
  end.

(** Lines 93-129: the value posted for one parameter *)
Definition posted_value (form : gmap string string) (key : string) (spec : value)
  : params_exn + value :=
  typ <-! raised (get_or spec "type" VNone) ;;
  if value_is typ "bool" then inr (VBool (form_bool form key))
  else if existsb (value_is typ) ["int"; "float"] then
    cast (value_is typ "int") (form !! key)
  else if value_is typ "selection" then inr (form_lookup form key)
  else if value_is typ "path" then inr (form_lookup form key)
  else if existsb (value_is typ) ["str"] then inr (form_lookup form key)
  else if existsb (value_is typ) ["int range"; "float range"] then
    a <-! cast (value_is typ "int range") (form !! (key +:+ "_a")) ;;
    b <-! cast (value_is typ "int range") (form !! (key +:+ "_b")) ;;
    inr (VList [a; b])
  else if value_is typ "pairs" then
    inr (VList (collect_pairs (split_on "," (form_get form key "")) []))
  else inr (form_lookup form key).

(** The loop of lines 92-129 *)
Fixpoint collect_values (form : gmap string string) (items : dict) (values : dict)
  : params_exn + dict :=
  match items with
  | [] => inr values
  | (key, spec) :: rest =>
      v <-! posted_value form key spec ;;
      collect_values form rest (dict_set key v values)
  end.

(** The loop of lines 148-149; [saved_values.get] is looked up before its
    arguments are evaluated *)
Fixpoint prefill (saved_values : value) (items : dict) (values : dict)
  : exn + dict :=
  match items with
  | [] => inr values
  | (key, spec) :: rest =>
      match saved_values with
      | VDict _ =>
          default <-! default_value_for spec ;;
          v <-! get_or saved_values key default ;;
          prefill saved_values rest (dict_set key v values)
      | _ => inl AttributeError
      end
  end.

Definition params (method : Method) (module : string) (form : gmap string string)
    (w : World) : (params_exn + ParamsResponse) * World :=
  let module := lower module in
  if negb (existsb (String.eqb module) ["peakfilter"; "amalgamator"; "mssearch"]) then
    (inr (ParamsRedirect "index" "Unknown module"), w)
  else
  match module_params w module with
  | inl e => (inl (Raised e), w)
  | inr specs =>
      let saved_path := config_file E (module +:+ ".json") in
      match method with
      | POST =>
          match collect_values form specs [] with
          | inl e => (inl e, w)
          | inr values =>
              (* Save only active module parameters *)
              match write_json saved_path (VDict values) w with
              | inl e => (inl (Raised e), w)
              | inr w' =>
                  (inr (ParamsRedirect "index"
                          ("Saved parameters for " +:+ module +:+ " to " +:+ saved_path)),
                   w')
              end
          end
      | GET =>
          (* Prefill from saved config if present *)
          let saved_values :=
            if exists_path w saved_path then
              match read_json w saved_path with inr v => v | inl _ => VDict [] end
            else VDict [] in
          (* Build initial values *)
          match prefill saved_values specs [] with
          | inl e => (inl (Raised e), w)
          | inr values => (inr (ParamsPage module specs values), w)
          end
      end
  end.

End ParamsApp.

(** ** The start page (lines 71-78) *)

(** The [saved] flags handed to [index.html] *)
Definition index (E : Env) (w : World) : list (string * bool) :=
  [("peakfilter", exists_path w (config_file E "peakfilter.json"));
   ("amalgamator", exists_path w (config_file E "amalgamator.json"));
   ("mssearch", exists_path w (config_file E "mssearch.json"))].

(** ** Vocabulary of the statements about the parameter forms *)

(** The name by which the full pipeline reports a module whose parameters
    are missing. *)
Definition stage_title (module : string) : string :=
  if String.eqb module "peakfilter" then "PeakFilter"
  else if String.eqb module "amalgamator" then "Amalgamator"
  else "MSSearch".


Definition is_dict (v : value) : bool :=
  match v with VDict _ => true | _ => false end.

(** The template entry [spec] lists [module] among its modules. *)
Definition is_active (module : string) (spec : value) : bool :=
  match get_or spec "modules" (VList []) with
  | inr modules => match py_in module modules with inr b => b | inl _ => false end
  | inl _ => false
  end.


(** What the form shows for a parameter: the saved value when there is
    one, the default of the template otherwise. *)
Definition shown (saved : dict) (key : string) (spec : value) : value :=
  match dict_find key saved with
  | Some v => v
  | None => match default_value_for spec with inr d => d | inl _ => VNone end
  end.

(** ** More of the sample installation *)

(** An alignment report of negative polarity on disk. *)
Definition aligned : list (string * entry) :=
  configured ++ [("/data/neg/xcms_report.csv", Junk "mz,rt,intensity")].

Definition align_neg : gmap string string := form_of [("mzxml_dir", "/data/neg")].

(** An installation none of whose executables can be started. *)
Definition nothing_starts : Env :=
  mkEnv "/app/webapp/config" "/app/docs" "/usr/bin/python3"
    (fun _ _ _ => inl FileNotFoundError)
    (last_component EmptyString)
    (fun a b => a +:+ "/" +:+ b)
    (fun _ _ => []).

(** A state whose negative alignment output is gone while the generic one
    is still there. *)
Definition stale_alignment : list (string * entry) :=
  configured ++
  [("/app/webapp/config/state.json",
    Json (VDict [("xcms_last_negative_csv", VStr "/gone/neg.csv");
                 ("xcms_last_csv", VStr "/data/run7.csv")]));
   ("/data/run7.csv", Junk "mz,rt,intensity")].

(** A state document that is a JSON list. *)
Definition state_is_list : list (string * entry) :=
  configured ++ [("/app/webapp/config/state.json", Json (VList []))].

(** Saved search parameters that are not JSON, and that are a JSON list. *)
Definition search_unreadable : list (string * entry) :=
  [("/app/webapp/config/peakfilter.json", Json (VDict []));
   ("/app/webapp/config/amalgamator.json", Json (VDict []));
   ("/app/webapp/config/mssearch.json", Junk "{database:")].

Definition search_is_list : list (string * entry) :=
  [("/app/webapp/config/peakfilter.json", Json (VDict []));
   ("/app/webapp/config/amalgamator.json", Json (VDict []));
   ("/app/webapp/config/mssearch.json", Json (VList []))].

(** The scatter plot of an earlier search is in the output directory. *)
Definition with_plot : list (string * entry) :=
  configured ++ [("/out/category_scatterplot_all_lmsd.png", Junk "PNG")].

(** A template of four parameters. *)
Definition replicates_spec : value :=
  VDict [("type", VStr "int"); ("default", VInt 3);
         ("modules", VList [VStr "peakfilter"])].

Definition sample_template : dict :=
  [("polarity", VDict [("type", VStr "selection"); ("default", VStr "Negative");
                       ("modules", VList [VStr "peakfilter"; VStr "amalgamator"])]);
   ("numberOfTechReps", replicates_spec);
   ("adductsPairs", VDict [("type", VStr "pairs");
                           ("modules", VList [VStr "peakfilter"])]);
   ("database", VDict [("type", VStr "str"); ("default", VStr "COMP_DB");
                       ("modules", VList [VStr "mssearch"])])].

Definition with_template : list (string * entry) :=
  [("/app/LipidFinder/Data/parameters_template.json", Json (VDict sample_template))].

(** Numbers in plain decimal digits. *)
Fixpoint digits (s : string) (acc : Z) : option Z :=
  match s with
  | EmptyString => Some acc
  | String c r =>
      let n := nat_of_ascii c in
      if (Nat.leb 48 n && Nat.leb n 57)%bool
      then digits r (10 * acc + Z.of_nat (n - 48))
      else None
  end.

Definition sample_int (s : string) : option value :=
  match digits s 0 with Some z => Some (VInt z) | None => None end.

Definition sample_float (s : string) : option value :=
  match digits s 0 with Some z => Some (VFloat (inject_Z z)) | None => None end.

(** * Properties *)

(** ** Dictionaries *)

Lemma dict_find_set_eq (k : string) (v : value) (d : dict) :
  dict_find k (dict_set k v d) = Some v.
Proof.
  induction d as [|[k' v'] r IH]; simpl.
  - by rewrite String.eqb_refl.
  - destruct (String.eqb k k') eqn:Hk; simpl; rewrite ?String.eqb_refl, ?Hk; auto.
Qed.

Lemma dict_find_set_ne (k k' : string) (v : value) (d : dict) :
  k ≠ k' -> dict_find k' (dict_set k v d) = dict_find k' d.
Proof.
  intros Hne. induction d as [|[k0 v0] r IH]; simpl.
  - destruct (String.eqb k' k) eqn:Hk; auto.
    apply String.eqb_eq in Hk. congruence.
  - destruct (String.eqb k k0) eqn:Hk; simpl.
    + apply String.eqb_eq in Hk. subst k0.
      destruct (String.eqb k' k) eqn:Hk'; auto.
      apply String.eqb_eq in Hk'. congruence.
    + by rewrite IH.
Qed.

Lemma dict_set_same (k : string) (v : value) (d : dict) :
  dict_find k d = Some v -> dict_set k v d = d.
Proof.
  induction d as [|[k' v'] r IH]; simpl; [done|].
  destruct (String.eqb k k') eqn:Hk.
  - apply String.eqb_eq in Hk. intros [= ->]. by subst.
  - intros H. by rewrite IH.
Qed.

Lemma dict_set_set (k : string) (v v' : value) (d : dict) :
  dict_set k v' (dict_set k v d) = dict_set k v' d.
Proof.
  induction d as [|[k0 v0] r IH]; simpl.
  - by rewrite String.eqb_refl.
  - destruct (String.eqb k k0) eqn:Hk; simpl.
    + by rewrite String.eqb_refl.
    + by rewrite Hk, IH.
Qed.

Lemma keys_dict_set_in (k k' : string) (v : value) (d : dict) :
  In k (keys d) -> In k (keys (dict_set k' v d)).
Proof.
  induction d as [|[k0 v0] r IH]; simpl; [done|].
  intros Hin. destruct (String.eqb k' k0) eqn:Hk; simpl in *; [|tauto].
  apply String.eqb_eq in Hk. subst. tauto.
Qed.

Lemma keys_dict_set_self (k : string) (v : value) (d : dict) :
  In k (keys (dict_set k v d)).
Proof.
  induction d as [|[k0 v0] r IH]; simpl; auto.
  destruct (String.eqb k k0) eqn:Hk; simpl; auto.
Qed.

(** Two writes to different keys commute once the first key is there. *)
Lemma dict_set_comm (k k' : string) (v v' : value) (d : dict) :
  k ≠ k' -> In k (keys d) ->
  dict_set k' v' (dict_set k v d) = dict_set k v (dict_set k' v' d).
Proof.
  intros Hne. induction d as [|[k0 v0] r IH]; simpl; [done|].
  intros Hin.
  destruct (String.eqb k k0) eqn:Hk, (String.eqb k' k0) eqn:Hk'.
  - apply String.eqb_eq in Hk, Hk'. congruence.
  - apply String.eqb_eq in Hk. subst k0. simpl.
    by rewrite Hk', String.eqb_refl.
  - apply String.eqb_eq in Hk'. subst k0. simpl.
    by rewrite Hk, String.eqb_refl.
  - simpl. rewrite Hk, Hk'. f_equal. apply IH.
    destruct Hin as [Heq|H]; auto.
    subst. by rewrite String.eqb_refl in Hk.
Qed.

Lemma dict_set_length_in (k : string) (v : value) (d : dict) :
  In k (keys d) -> length (dict_set k v d) = length d.
Proof.
  induction d as [|[k0 v0] r IH]; simpl; [done|].
  intros Hin. destruct (String.eqb k k0) eqn:Hk; simpl; auto.
  f_equal. apply IH. destruct Hin as [Heq|H]; auto.
  subst. by rewrite String.eqb_refl in Hk.
Qed.

Lemma merged_keys_in (kwargs : dict) (k : string) (d : dict) :
  In k (keys d) -> In k (keys (merged kwargs d)).
Proof.
  revert d. induction kwargs as [|[k' v'] r IH]; simpl; [done|].
  intros d Hin. apply IH. destruct (is_not_None v'); auto.
  by apply keys_dict_set_in.
Qed.

Lemma merged_overrides (kwargs : dict) (k : string) (v : value) (d : dict) :
  mentions k kwargs = true -> In k (keys d) ->
  merged kwargs (dict_set k v d) = merged kwargs d.
Proof.
  revert d. induction kwargs as [|[k' v'] r IH]; simpl; [done|].
  intros d Hm Hin.
  destruct (is_not_None v') eqn:Hv.
  - destruct (String.eqb k k') eqn:Hk.
    + apply String.eqb_eq in Hk. subst k'. by rewrite dict_set_set.
    + simpl in Hm. rewrite dict_set_comm; auto.
      * apply IH; auto. by apply keys_dict_set_in.
      * intros ->. by rewrite String.eqb_refl in Hk.
  - rewrite andb_false_r in Hm. simpl in Hm. by apply IH.
Qed.

Lemma merged_commutes (kwargs : dict) (k : string) (v : value) (d : dict) :
  mentions k kwargs = false -> In k (keys d) ->
  merged kwargs (dict_set k v d) = dict_set k v (merged kwargs d).
Proof.
  revert d. induction kwargs as [|[k' v'] r IH]; simpl; [done|].
  intros d Hm Hin. apply orb_false_iff in Hm as [Hm1 Hm2].
  destruct (is_not_None v') eqn:Hv.
  - rewrite andb_true_r in Hm1.
    rewrite dict_set_comm; auto.
    + apply IH; auto. by apply keys_dict_set_in.
    + intros ->. by rewrite String.eqb_refl in Hm1.
  - by apply IH.
Qed.

Lemma merged_idempotent (kwargs : dict) (d : dict) :
  merged kwargs (merged kwargs d) = merged kwargs d.
Proof.
  revert d. induction kwargs as [|[k v] r IH]; simpl; [done|].
  intros d. destruct (is_not_None v) eqn:Hv; [|apply IH].
  set (d1 := dict_set k v d).
  assert (Hin : In k (keys d1)) by apply keys_dict_set_self.
  destruct (mentions k r) eqn:Hm.
  - rewrite merged_overrides; auto using merged_keys_in.
  - rewrite merged_commutes; auto using merged_keys_in.
    rewrite IH. rewrite <- merged_commutes; auto.
    unfold d1. by rewrite dict_set_set.
Qed.

Lemma merged_find_unmentioned (kwargs : dict) (k : string) (d : dict) :
  mentions k kwargs = false -> dict_find k (merged kwargs d) = dict_find k d.
Proof.
  revert d. induction kwargs as [|[k' v'] r IH]; simpl; [done|].
  intros d Hm. apply orb_false_iff in Hm as [Hm1 Hm2].
  rewrite IH; auto. destruct (is_not_None v') eqn:Hv; auto.
  rewrite andb_true_r in Hm1. apply dict_find_set_ne.
  intros ->. by rewrite String.eqb_refl in Hm1.
Qed.

Lemma mentions_not_in (k : string) (kwargs : dict) :
  ¬ In k (keys kwargs) -> mentions k kwargs = false.
Proof.
  induction kwargs as [|[k0 v0] r IH]; simpl; [done|].
  intros Hnotin. apply orb_false_iff. split.
  - destruct (String.eqb k k0) eqn:Hk; auto.
    apply String.eqb_eq in Hk. subst. tauto.
  - apply IH. tauto.
Qed.

Lemma merged_find_mentioned (kwargs : dict) (k : string) (v : value) (d : dict) :
  NoDup (keys kwargs) -> In (k, v) kwargs -> is_not_None v = true ->
  dict_find k (merged kwargs d) = Some v.
Proof.
  revert d. induction kwargs as [|[k' v'] r IH]; simpl; [done|].
  intros d Hnd [Heq|Hin] Hv; inversion Hnd as [|? ? Hnotin Hnd']; subst.
  - inversion Heq; subst. rewrite Hv.
    rewrite merged_find_unmentioned; [apply dict_find_set_eq|].
    apply mentions_not_in. by rewrite <- list_elem_of_In.
  - by apply IH.
Qed.

(** ** Effects of the building blocks *)

#[local] Instance same_file_refl p : Reflexive (same_file p).
Proof. by intros w. Qed.

#[local] Instance same_file_trans p : Transitive (same_file p).
Proof. unfold same_file. intros w1 w2 w3 H1 H2. by rewrite H2. Qed.

#[local] Instance same_spawned_refl : Reflexive same_spawned.
Proof. by intros w. Qed.

#[local] Instance same_spawned_trans : Transitive same_spawned.
Proof. unfold same_spawned. intros w1 w2 w3 H1 H2. by rewrite H2. Qed.

Section Respects.

Context (R : World -> World -> Prop) `{!Reflexive R, !Transitive R}.

Lemma respects_pure {A} (m : M A) : respects eq m -> respects R m.
Proof. intros H w. by rewrite <- (H w). Qed.

Lemma respects_ret {A} (a : A) : respects R (ret a).
Proof. by intros w. Qed.

Lemma respects_return {A} (r : Response) : respects R (@return_ A r).
Proof. by intros w. Qed.

Lemma respects_raise {A} (e : exn) : respects R (@raise A e).
Proof. by intros w. Qed.

Lemma respects_get_world : respects R get_world.
Proof. by intros w. Qed.

Lemma respects_bind {A B} (m : M A) (k : A -> M B) :
  respects R m -> (∀ a, respects R (k a)) -> respects R (bind m k).
Proof.
  intros Hm Hk w. unfold bind. specialize (Hm w).
  destruct (m w) as [[a|r|e] w1]; simpl in *; auto.
  transitivity w1; auto. apply Hk.
Qed.

Lemma respects_try_except {A} (body : M A) (handler : exn -> M A) :
  respects R body -> (∀ e, respects R (handler e)) ->
  respects R (try_except body handler).
Proof.
  intros Hb Hh w. unfold try_except. specialize (Hb w).
  destruct (body w) as [[a|r|e] w1]; simpl in *; auto.
  transitivity w1; auto. apply Hh.
Qed.

Lemma respects_open_r (path : string) : respects R (open_r path).
Proof. intros w. unfold open_r. by destruct (files w !! path) as [[]|]. Qed.

Lemma respects_json_load (f : entry) : respects R (json_load f).
Proof. intros w. by destruct f. Qed.

Lemma respects_py_get (obj : value) (k : string) : respects R (py_get obj k).
Proof. intros w. by destruct obj. Qed.

Lemma respects_py_setitem (obj : value) (k : string) (v : value) :
  respects R (py_setitem obj k v).
Proof. intros w. by destruct obj. Qed.

Lemma respects_py_setdefault (obj : value) (k : string) (v : value) :
  respects R (py_setdefault obj k v).
Proof. intros w. by destruct obj. Qed.

Lemma respects_py_lower (v : value) : respects R (py_lower v).
Proof. intros w. by destruct v. Qed.

Lemma respects_os_path_isfile (v : value) : respects R (os_path_isfile v).
Proof.
  intros w. destruct v as [|b|n| | | |]; try done; unfold os_path_isfile, fd_isfile;
    by destruct (_ && _).
Qed.

Lemma respects_path_name_lower (E : Env) (v : value) :
  respects R (path_name_lower E v).
Proof. intros w. by destruct v. Qed.

Lemma respects_read_state (E : Env) : respects R (read_state E).
Proof.
  apply respects_try_except; [|intros; apply respects_ret].
  apply respects_bind; [apply respects_open_r|apply respects_json_load].
Qed.

Lemma respects_merge_kwargs (kwargs : dict) (st : value) :
  respects R (merge_kwargs kwargs st).
Proof.
  revert st. induction kwargs as [|[k v] r IH]; intros st; simpl.
  - apply respects_ret.
  - apply respects_bind; [|auto].
    destruct (is_not_None v); [apply respects_py_setitem|apply respects_ret].
Qed.

Lemma respects_first_candidate (cs : list value) (ip : value) :
  respects R (first_candidate cs ip).
Proof.
  induction cs as [|c r IH]; simpl; [apply respects_ret|].
  apply respects_bind.
  - destruct (truthy c); [apply respects_os_path_isfile|apply respects_ret].
  - intros [|]; [apply respects_ret|apply IH].
Qed.

Lemma respects_get_first_truthy (st : value) (ks : list string) (last : value) :
  respects R (get_first_truthy st ks last).
Proof.
  revert last. induction ks as [|k r IH]; intros last; simpl; [apply respects_ret|].
  apply respects_bind; [apply respects_py_get|].
  intros v. destruct (truthy v); [apply respects_ret|apply IH].
Qed.

End Respects.

(** ** The run state store *)

Section StateStore.

Variable E : Env.

Lemma read_state_stored (w : World) :
  read_state E w = (Next (stored (files w !! STATE_PATH E)), w).
Proof.
  unfold read_state, try_except, bind, open_r.
  destruct (files w !! STATE_PATH E) as [[|raw|v]|]; reflexivity.
Qed.

Lemma merge_kwargs_dict (kwargs : dict) (d : dict) (w : World) :
  merge_kwargs kwargs (VDict d) w = (Next (VDict (merged kwargs d)), w).
Proof.
  revert d. induction kwargs as [|[k v] r IH]; intros d; simpl; [done|].
  unfold bind. destruct (is_not_None v); simpl; apply IH.
Qed.

Lemma merge_kwargs_world (kwargs : dict) (st : value) (w : World) :
  snd (merge_kwargs kwargs st w) = w.
Proof.
  revert st. induction kwargs as [|[k v] r IH]; intros st; simpl; [done|].
  unfold bind. destruct (is_not_None v); simpl; [|apply IH].
  destruct st; simpl; auto.
Qed.

(** A state that is no dict cannot take an item: the merge raises, unless
    there is nothing to merge. *)
Lemma merge_kwargs_not_dict (kwargs : dict) (st : value) (w : World) :
  (∀ d, st ≠ VDict d) ->
  merge_kwargs kwargs st w = (Next st, w) ∨
  merge_kwargs kwargs st w = (Raise TypeError, w).
Proof.
  intros Hnd. induction kwargs as [|[k v] r IH]; simpl; [by left|].
  unfold bind. destruct (is_not_None v); simpl; [|apply IH].
  destruct st; simpl; auto. by destruct (Hnd d).
Qed.

Lemma update_state_dict (kwargs : dict) (d : dict) (w : World) :
  stored (files w !! STATE_PATH E) = VDict d ->
  files w !! STATE_PATH E ≠ Some Directory ->
  update_state E kwargs w =
    (Next tt, mkWorld (<[STATE_PATH E := Json (VDict (merged kwargs d))]> (files w))
                (fd_regular w) (spawned w)).
Proof.
  intros Hst Hdir. unfold update_state, bind.
  rewrite read_state_stored, Hst, merge_kwargs_dict.
  unfold try_except, json_dump_to.
  destruct (files w !! STATE_PATH E) as [[]|]; done.
Qed.

Lemma update_state_directory (kwargs : dict) (w : World) :
  files w !! STATE_PATH E = Some Directory ->
  update_state E kwargs w = (Next tt, w).
Proof.
  intros Hdir. unfold update_state, bind.
  rewrite read_state_stored, Hdir. simpl. rewrite merge_kwargs_dict.
  unfold try_except, json_dump_to. by rewrite Hdir.
Qed.

Lemma update_state_other_files (kwargs : dict) (w : World) (p : string) :
  p ≠ STATE_PATH E ->
  files (snd (update_state E kwargs w)) !! p = files w !! p.
Proof.
  intros Hp. unfold update_state, bind. rewrite read_state_stored.
  pose proof (merge_kwargs_world kwargs (stored (files w !! STATE_PATH E)) w) as Hw.
  destruct (merge_kwargs _ _ w) as [[st| |] w']; simpl in Hw; subst w'; auto.
  unfold try_except, json_dump_to.
  destruct (files w !! STATE_PATH E) as [[]|]; simpl; auto;
    by rewrite lookup_insert_ne.
Qed.

Lemma update_state_spawned (kwargs : dict) (w : World) :
  spawned (snd (update_state E kwargs w)) = spawned w.
Proof.
  unfold update_state, bind. rewrite read_state_stored.
  pose proof (merge_kwargs_world kwargs (stored (files w !! STATE_PATH E)) w) as Hw.
  destruct (merge_kwargs _ _ w) as [[st| |] w']; simpl in Hw; subst w'; auto.
  unfold try_except, json_dump_to.
  destruct (files w !! STATE_PATH E) as [[]|]; simpl; auto.
Qed.

Lemma classic_dict (v : value) : (∃ d, v = VDict d) ∨ (∀ d, v ≠ VDict d).
Proof. destruct v; eauto; right; intros d' [=]. Qed.

Lemma update_state_twice_dict (kwargs : dict) (d : dict) (w : World) :
  stored (files w !! STATE_PATH E) = VDict d ->
  files w !! STATE_PATH E ≠ Some Directory ->
  snd (update_state E kwargs (snd (update_state E kwargs w)))
  = snd (update_state E kwargs w).
Proof.
  intros Hst Hdir.
  rewrite (update_state_dict kwargs d w Hst Hdir). simpl.
  rewrite (update_state_dict kwargs (merged kwargs d)); simpl;
    rewrite ?lookup_insert_eq; try done.
  by rewrite merged_idempotent, insert_insert_eq.
Qed.

Lemma update_state_twice (kwargs : dict) (w : World) :
  snd (update_state E kwargs (snd (update_state E kwargs w)))
  = snd (update_state E kwargs w).
Proof.
  destruct (files w !! STATE_PATH E) as [ent|] eqn:Hf.
  - destruct ent as [|raw|v].
    + rewrite (update_state_directory kwargs w Hf). simpl.
      by rewrite (update_state_directory kwargs w Hf).
    + apply (update_state_twice_dict kwargs []); by rewrite Hf.
    + destruct (classic_dict v) as [[d ->]|Hnd].
      * apply (update_state_twice_dict kwargs d); by rewrite Hf.
      * assert (Hone : update_state E kwargs w =
                  (Next tt, mkWorld (<[STATE_PATH E := Json v]> (files w))
                              (fd_regular w) (spawned w))
                ∨ update_state E kwargs w = (Raise TypeError, w)).
        { unfold update_state, bind. rewrite read_state_stored, Hf. simpl.
          destruct (merge_kwargs_not_dict kwargs v w Hnd) as [H|H]; rewrite H; auto.
          left. unfold try_except, json_dump_to. by rewrite Hf. }
        destruct Hone as [H|H]; rewrite H; simpl; [|by rewrite H].
        unfold update_state, bind. rewrite read_state_stored. simpl.
        rewrite lookup_insert_eq. simpl.
        match goal with |- context [merge_kwargs kwargs v ?w1] =>
          destruct (merge_kwargs_not_dict kwargs v w1 Hnd) as [H'|H']; rewrite H'
        end.
        -- unfold try_except, json_dump_to. simpl.
           rewrite lookup_insert_eq. simpl. by rewrite insert_insert_eq.
        -- exfalso. unfold update_state, bind in H.
           rewrite read_state_stored, Hf in H. simpl in H.
           destruct (merge_kwargs_not_dict kwargs v w Hnd) as [H0|H0];
             rewrite H0 in H; [|done].
           clear -H0 H' Hnd.
           revert H0 H'. generalize (mkWorld (<[STATE_PATH E:=Json v]> (files w))
                                       (fd_regular w) (spawned w)).
           intros w1. induction kwargs as [|[k x] r IH]; simpl; [done|].
           unfold bind. destruct (is_not_None x); simpl; auto.
           destruct v; simpl; try done. by destruct (Hnd d).
  - apply (update_state_twice_dict kwargs []); by rewrite Hf.
Qed.

(** C6. Whatever makes the state document unreadable -- no file, an empty
    file, content that does not parse -- [read_state] hands the caller an
    empty map: it goes on with [{}] (it neither raises nor leaves the view
    function) and the world is as it was. *)
Theorem read_state_unreadable_is_empty (w : World) :
  files w !! STATE_PATH E = None
  ∨ files w !! STATE_PATH E = Some (Junk "")
  ∨ (∃ raw, files w !! STATE_PATH E = Some (Junk raw)) ->
  read_state E w = (Next (VDict []), w).
Proof.
  intros H. rewrite read_state_stored.
  destruct H as [-> | [-> | [raw ->]]]; reflexivity.
Qed.

(** C7. [update_state] merges the entries of [kwargs] that are not [None]
    into the map read from disk and writes the whole map back; a second
    call with the same [kwargs] leaves the world -- the persisted document
    included -- exactly as the first call left it; keys that [kwargs] gives
    no value other than [None] keep the value they had, and no other file
    is touched. *)
Theorem update_state_merges_and_is_idempotent (kwargs : dict) (w : World) :
  let w1 := snd (update_state E kwargs w) in
  snd (update_state E kwargs w1) = w1
  ∧ (∀ d, stored (files w !! STATE_PATH E) = VDict d ->
          files w !! STATE_PATH E ≠ Some Directory ->
          files w1 !! STATE_PATH E = Some (Json (VDict (merged kwargs d)))
          ∧ (∀ k, mentions k kwargs = false ->
                  dict_find k (merged kwargs d) = dict_find k d)
          ∧ (∀ k v, NoDup (keys kwargs) -> In (k, v) kwargs -> v ≠ VNone ->
                    dict_find k (merged kwargs d) = Some v))
  ∧ (∀ p, p ≠ STATE_PATH E -> files w1 !! p = files w !! p).
Proof.
  cbv zeta. split; [apply update_state_twice|]. split.
  - intros d Hst Hdir. split; [|split].
    + rewrite (update_state_dict kwargs d w Hst Hdir). simpl.
      apply lookup_insert_eq.
    + intros k Hk. by apply merged_find_unmentioned.
    + intros k v Hnd Hin Hv. apply merged_find_mentioned; auto.
      by destruct v.
  - intros p Hp. by apply update_state_other_files.
Qed.

End StateStore.

(** ** Frames *)

Lemma append_inj_l (p a b : string) : p +:+ a = p +:+ b -> a = b.
Proof. induction p as [|c p IH]; simpl; [done|]. intros [= H]. auto. Qed.

Lemma config_file_inj (E : Env) (a b : string) :
  config_file E a = config_file E b -> a = b.
Proof.
  unfold config_file. intros H.
  apply append_inj_l in H. by apply (append_inj_l "/") in H.
Qed.

Lemma respects_json_dump_to_file (p path : string) (obj : value) :
  path ≠ p -> respects (same_file p) (json_dump_to path obj).
Proof.
  intros Hne w. unfold json_dump_to, same_file.
  destruct (files w !! path) as [[]|]; simpl; auto; by rewrite lookup_insert_ne.
Qed.

Lemma respects_json_dump_to_spawned (path : string) (obj : value) :
  respects same_spawned (json_dump_to path obj).
Proof.
  intros w. unfold json_dump_to, same_spawned.
  by destruct (files w !! path) as [[]|].
Qed.

Lemma respects_subprocess_call (E : Env) (p : string) cmd input :
  leaves E p -> respects (same_file p) (subprocess_call E cmd input).
Proof.
  intros Hl w. unfold subprocess_call, same_file.
  destruct (as_strings cmd) as [argv|]; simpl; auto.
  destruct (subprocess_run E argv input w) as [e|[proc fs]] eqn:Hrun; simpl; auto.
  by apply (Hl _ _ _ _ _ Hrun).
Qed.

Lemma respects_run_python_module (E : Env) (p : string) name args :
  leaves E p -> respects (same_file p) (run_python_module E name args).
Proof. intros Hl. by apply respects_subprocess_call. Qed.

Lemma respects_update_state_file (E : Env) (p : string) (kwargs : dict) :
  p ≠ STATE_PATH E -> respects (same_file p) (update_state E kwargs).
Proof. intros Hne w. by apply update_state_other_files. Qed.

Lemma respects_update_state_spawned (E : Env) (kwargs : dict) :
  respects same_spawned (update_state E kwargs).
Proof. intros w. apply update_state_spawned. Qed.

Lemma respond_snd (m : M Response) (w : World) : snd (respond m w) = snd (m w).
Proof. unfold respond. by destruct (m w) as [[]]. Qed.

(** One step through a computation, by the shape of its head. *)
Ltac respects_step :=
  lazymatch goal with
  | |- Reflexive _ => apply _
  | |- Transitive _ => apply _
  | |- ∀ _, _ => intros ?
  | |- respects _ (bind _ _) => apply respects_bind
  | |- respects _ (try_except _ _) => apply respects_try_except
  | |- respects _ (ret _) => apply respects_ret
  | |- respects _ (return_ _) => apply respects_return
  | |- respects _ (raise _) => apply respects_raise
  | |- respects _ get_world => apply respects_get_world
  | |- respects _ (read_state _) => apply respects_read_state
  | |- respects _ (open_r _) => apply respects_open_r
  | |- respects _ (json_load _) => apply respects_json_load
  | |- respects _ (py_get _ _) => apply respects_py_get
  | |- respects _ (py_setitem _ _ _) => apply respects_py_setitem
  | |- respects _ (py_setdefault _ _ _) => apply respects_py_setdefault
  | |- respects _ (py_lower _) => apply respects_py_lower
  | |- respects _ (os_path_isfile _) => apply respects_os_path_isfile
  | |- respects _ (path_name_lower _ _) => apply respects_path_name_lower
  | |- respects _ (first_candidate _ _) => apply respects_first_candidate
  | |- respects _ (get_first_truthy _ _ _) => apply respects_get_first_truthy
  | |- respects _ (if ?b then _ else _) => destruct b
  | |- respects _ (match ?x with _ => _ end) => destruct x
  end.

(** A bind whose first part is handled by hand. *)
Ltac bind_step := apply respects_bind; [apply _ | | intros ?].

Section PipelineFrame.

Variable E : Env.
Variable p : string.
Hypothesis Hleaves : leaves E p.

Lemma respects_resolve_top_inputs (neg_input pos_input : value) :
  respects (same_file p) (resolve_top_inputs E neg_input pos_input).
Proof. unfold resolve_top_inputs. repeat respects_step. Qed.

Lemma respects_filter_stage title name input out verbose timestamp logs :
  respects (same_file p) (filter_stage E title name input out verbose timestamp logs).
Proof.
  unfold filter_stage. destruct (truthy input); [|repeat respects_step].
  bind_step; [by apply respects_run_python_module|].
  repeat respects_step.
Qed.

Lemma respects_amalgamate_stage neg_summary pos_summary out logs :
  respects (same_file p) (amalgamate_stage E neg_summary pos_summary out logs).
Proof.
  unfold amalgamate_stage.
  destruct (truthy neg_summary && truthy pos_summary); [|repeat respects_step].
  bind_step; [by apply respects_run_python_module|].
  repeat respects_step.
Qed.

Lemma respects_write_search_overlay :
  p ≠ config_file E "mssearch_web_pipeline.json" ->
  respects (same_file p) (write_search_overlay E).
Proof.
  intros Hne. unfold write_search_overlay.
  do 4 (bind_step; [repeat respects_step|]).
  bind_step; [by apply respects_json_dump_to_file|repeat respects_step].
Qed.

Lemma respects_search_stage ms_input out logs :
  p ≠ config_file E "mssearch_web_pipeline.json" ->
  respects (same_file p) (search_stage E ms_input out logs).
Proof.
  intros Hne. unfold search_stage.
  bind_step; [by apply respects_write_search_overlay|].
  bind_step; [by apply respects_run_python_module|].
  repeat respects_step.
Qed.

Lemma respects_run_pipeline_full (form : gmap string string) :
  p ≠ config_file E "mssearch_web_pipeline.json" ->
  respects (same_file p) (run_pipeline_full E form).
Proof.
  intros Hne. unfold run_pipeline_full. cbv zeta.
  destruct (negb _); [repeat respects_step|].
  bind_step; [apply respects_resolve_top_inputs|].
  bind_step; [repeat respects_step|].
  destruct (missing_parameters _ _ _ _); [|repeat respects_step].
  bind_step; [apply respects_filter_stage|].
  bind_step; [apply respects_filter_stage|].
  bind_step; [apply respects_amalgamate_stage|].
  bind_step; [by apply respects_search_stage|].
  repeat respects_step.
Qed.

End PipelineFrame.

(** ** Computations that only look *)

Lemma quiet_ret {A} (a : A) : quiet (ret a).
Proof. by intros w. Qed.

Lemma quiet_raise {A} (e : exn) : quiet (@raise A e).
Proof. by intros w. Qed.

Lemma quiet_get_world : quiet get_world.
Proof. by intros w. Qed.

Lemma quiet_bind {A B} (m : M A) (k : A -> M B) :
  quiet m -> (∀ a, quiet (k a)) -> quiet (bind m k).
Proof.
  intros Hm Hk w. unfold bind. destruct (Hm w) as [Hw Hr].
  destruct (m w) as [[a|r|e] w1]; simpl in *; subst.
  - apply Hk.
  - by destruct (Hr r).
  - done.
Qed.

Lemma quiet_try_except {A} (body : M A) (handler : exn -> M A) :
  quiet body -> (∀ e, quiet (handler e)) -> quiet (try_except body handler).
Proof.
  intros Hb Hh w. unfold try_except. destruct (Hb w) as [Hw Hr].
  destruct (body w) as [[a|r|e] w1]; simpl in *; subst; auto.
  apply Hh.
Qed.

Lemma quiet_open_r (path : string) : quiet (open_r path).
Proof. intros w. unfold open_r. by destruct (files w !! path) as [[]|]. Qed.

Lemma quiet_json_load (f : entry) : quiet (json_load f).
Proof. intros w. by destruct f. Qed.

Lemma quiet_py_get (obj : value) (k : string) : quiet (py_get obj k).
Proof. intros w. by destruct obj. Qed.

Lemma quiet_py_setitem (obj : value) (k : string) (v : value) :
  quiet (py_setitem obj k v).
Proof. intros w. by destruct obj. Qed.

Lemma quiet_py_setdefault (obj : value) (k : string) (v : value) :
  quiet (py_setdefault obj k v).
Proof. intros w. by destruct obj. Qed.

Lemma quiet_py_lower (v : value) : quiet (py_lower v).
Proof. intros w. by destruct v. Qed.

Lemma quiet_os_path_isfile (v : value) : quiet (os_path_isfile v).
Proof.
  intros w. destruct v as [|b|n| | | |]; try done; unfold os_path_isfile, fd_isfile;
    by destruct (_ && _).
Qed.

Lemma quiet_path_name_lower (E : Env) (v : value) : quiet (path_name_lower E v).
Proof. intros w. by destruct v. Qed.

Lemma quiet_read_state (E : Env) : quiet (read_state E).
Proof. intros w. by rewrite read_state_stored. Qed.

Lemma quiet_first_candidate (cs : list value) (ip : value) :
  quiet (first_candidate cs ip).
Proof.
  induction cs as [|c r IH]; simpl; [apply quiet_ret|].
  apply quiet_bind.
  - destruct (truthy c); [apply quiet_os_path_isfile|apply quiet_ret].
  - intros [|]; [apply quiet_ret|apply IH].
Qed.

Lemma quiet_get_first_truthy (st : value) (ks : list string) (last : value) :
  quiet (get_first_truthy st ks last).
Proof.
  revert last. induction ks as [|k r IH]; intros last; simpl; [apply quiet_ret|].
  apply quiet_bind; [apply quiet_py_get|].
  intros v. destruct (truthy v); [apply quiet_ret|apply IH].
Qed.

(** A bind on a quiet computation either goes on in the same world or
    raises there. *)
Lemma quiet_bind_cases {A B} (m : M A) (k : A -> M B) (w : World) :
  quiet m ->
  (∃ a, m w = (Next a, w) ∧ bind m k w = k a w)
  ∨ (∃ e, m w = (Raise e, w) ∧ bind m k w = (Raise e, w)).
Proof.
  intros Hm. unfold bind. destruct (Hm w) as [Hw Hr].
  destruct (m w) as [[a|r|e] w1]; simpl in *; subst; eauto.
  by destruct (Hr r).
Qed.

Ltac quiet_step :=
  lazymatch goal with
  | |- ∀ _, _ => intros ?
  | |- quiet (bind _ _) => apply quiet_bind
  | |- quiet (try_except _ _) => apply quiet_try_except
  | |- quiet (ret _) => apply quiet_ret
  | |- quiet (raise _) => apply quiet_raise
  | |- quiet get_world => apply quiet_get_world
  | |- quiet (read_state _) => apply quiet_read_state
  | |- quiet (open_r _) => apply quiet_open_r
  | |- quiet (json_load _) => apply quiet_json_load
  | |- quiet (py_get _ _) => apply quiet_py_get
  | |- quiet (py_setitem _ _ _) => apply quiet_py_setitem
  | |- quiet (py_setdefault _ _ _) => apply quiet_py_setdefault
  | |- quiet (py_lower _) => apply quiet_py_lower
  | |- quiet (os_path_isfile _) => apply quiet_os_path_isfile
  | |- quiet (path_name_lower _ _) => apply quiet_path_name_lower
  | |- quiet (first_candidate _ _) => apply quiet_first_candidate
  | |- quiet (get_first_truthy _ _ _) => apply quiet_get_first_truthy
  | |- quiet (if ?b then _ else _) => destruct b
  | |- quiet (match ?x with _ => _ end) => destruct x
  end.

(** Step over the quiet head of the computation in the goal: the raising
    case is closed, the other goes on with the value named [a]. *)
Tactic Notation "quiet_bind" ident(a) :=
  let Hm := fresh "H" a in
  match goal with
  | |- context [bind ?m ?k ?w] =>
      let Hq := fresh "Hq" in
      assert (Hq : quiet m) by (first [assumption | repeat quiet_step]);
      destruct (quiet_bind_cases m k w Hq) as [(a & Hm & ->)|(? & Hm & ->)];
      clear Hq; [|try done]
  end.

(** ** The stages of the full pipeline, case by case *)

Section Stages.

Variable E : Env.

Lemma run_python_module_cases (name : string) (args : list value) (w : World) :
  match run_python_module E name args w with
  | (Next run, w') =>
      ∃ fs, as_strings ([VStr (sys_executable E); VStr "-m"; VStr name] ++ args)
              = Some (fst run)
            ∧ subprocess_run E (fst run) None w = inr (snd run, fs)
            ∧ w' = mkWorld fs (fd_regular w) (spawned w ++ [fst run])
  | (Return _, _) => False
  | (Raise _, w') => w' = w
  end.
Proof.
  unfold run_python_module, subprocess_call.
  destruct (as_strings _) as [argv|]; [|done].
  destruct (subprocess_run E argv None w) as [e|[proc fs]] eqn:Hrun; [done|].
  by exists fs.
Qed.

(** The argument vector of a filter run inside the pipeline. *)
Lemma filter_stage_cases title name input out verbose timestamp logs (w : World) :
  match filter_stage E title name input out verbose timestamp logs w with
  | (Next r, w') =>
      (truthy input = false ∧ r = (VNone, logs) ∧ w' = w)
      ∨ (truthy input = true ∧
         ∃ argv proc fs,
           subprocess_run E argv None w = inr (proc, fs)
           ∧ returncode proc = 0
           ∧ r = (VStr (os_path_join out name), logs ++ [log_entry title argv proc])
           ∧ w' = mkWorld fs (fd_regular w) (spawned w ++ [argv]))
  | (Return resp, w') =>
      truthy input = true ∧
      ∃ argv proc fs,
        subprocess_run E argv None w = inr (proc, fs)
        ∧ returncode proc ≠ 0
        ∧ resp = halted out (logs ++ [log_entry title argv proc])
        ∧ w' = mkWorld fs (fd_regular w) (spawned w ++ [argv])
  | (Raise _, w') => w' = w
  end.
Proof.
  unfold filter_stage. destruct (truthy input); [|by left].
  unfold bind.
  match goal with |- context [run_python_module E ?n ?a w] =>
    pose proof (run_python_module_cases n a w) as Hrun;
    destruct (run_python_module E n a w) as [[[argv proc]| |] w1]
  end; simpl in *; try done.
  destruct Hrun as (fs & _ & Hrun & ->).
  destruct (returncode proc =? 0) eqn:Hrc; simpl.
  - right. split; [done|]. exists argv, proc, fs. repeat split; auto. lia.
  - split; [done|]. exists argv, proc, fs. repeat split; auto. lia.
Qed.

Lemma amalgamate_stage_cases neg_summary pos_summary out logs (w : World) :
  match amalgamate_stage E neg_summary pos_summary out logs w with
  | (Next r, w') =>
      (truthy neg_summary && truthy pos_summary = false ∧ r = (VNone, logs) ∧ w' = w)
      ∨ (truthy neg_summary && truthy pos_summary = true ∧
         ∃ argv proc fs,
           subprocess_run E argv None w = inr (proc, fs)
           ∧ returncode proc = 0
           ∧ r = (VStr (os_path_join out "amalgamated.csv"),
                  logs ++ [log_entry "Amalgamator" argv proc])
           ∧ w' = mkWorld fs (fd_regular w) (spawned w ++ [argv]))
  | (Return resp, w') =>
      truthy neg_summary && truthy pos_summary = true ∧
      ∃ argv proc fs,
        subprocess_run E argv None w = inr (proc, fs)
        ∧ returncode proc ≠ 0
        ∧ resp = halted out (logs ++ [log_entry "Amalgamator" argv proc])
        ∧ w' = mkWorld fs (fd_regular w) (spawned w ++ [argv])
  | (Raise _, w') => w' = w
  end.
Proof.
  unfold amalgamate_stage.
  destruct (truthy neg_summary && truthy pos_summary); [|by left].
  unfold bind.
  match goal with |- context [run_python_module E ?n ?a w] =>
    pose proof (run_python_module_cases n a w) as Hrun;
    destruct (run_python_module E n a w) as [[[argv proc]| |] w1]
  end; simpl in *; try done.
  destruct Hrun as (fs & _ & Hrun & ->).
  destruct (returncode proc =? 0) eqn:Hrc; simpl.
  - right. split; [done|]. exists argv, proc, fs. repeat split; auto. lia.
  - split; [done|]. exists argv, proc, fs. repeat split; auto. lia.
Qed.

Lemma resolve_generic_quiet (st n p : value) :
  quiet (generic <- py_get st "xcms_last_csv" ;;
         ok <- (if truthy generic then os_path_isfile generic else ret false) ;;
         if ok then
           lower_name <- path_name_lower E generic ;;
           if contains "neg" lower_name || contains "negative" lower_name then
             ret (generic, p)
           else if contains "pos" lower_name || contains "positive" lower_name then
             ret (n, generic)
           else
             ret (generic, p)
         else ret (n, p)).
Proof. repeat quiet_step. Qed.

Lemma resolve_top_inputs_cases (neg_input pos_input : value) (w : World) :
  match resolve_top_inputs E neg_input pos_input w with
  | (Next inputs, w') => w' = w ∧ truthy (fst inputs) || truthy (snd inputs) = true
  | (Return resp, w') =>
      w' = w ∧ resp = Redirect "pipeline"
        "No inputs found. Run XCMS first to generate aligned CSVs."
  | (Raise _, w') => w' = w
  end.
Proof.
  unfold resolve_top_inputs.
  destruct (negb (truthy neg_input || truthy pos_input)) eqn:Hin;
    [|by apply negb_false_iff in Hin].
  quiet_bind st. quiet_bind n. quiet_bind p'.
  match goal with |- context [bind ?m _ w] =>
    assert (Hq : quiet m) by
      (quiet_step; [apply resolve_generic_quiet|quiet_step])
  end.
  quiet_bind inputs.
  destruct (negb (truthy inputs.1 || truthy inputs.2)) eqn:Hres; simpl; auto.
  by apply negb_false_iff in Hres.
Qed.

End Stages.

(** ** The full pipeline: the log and the processes *)

Lemma attempted_nil (w : World) : attempted w [] w.
Proof. exists []. by rewrite app_nil_r. Qed.

Lemma attempted_snoc w logs w1 title argv proc fs fd :
  attempted w logs w1 ->
  attempted w (logs ++ [log_entry title argv proc])
    (mkWorld fs fd (spawned w1 ++ [argv])).
Proof.
  intros (cmds & Hs & Hc). exists (cmds ++ [argv]). simpl. split.
  - by rewrite Hs, app_assoc.
  - by rewrite !map_app, Hc.
Qed.

Lemma attempted_same_spawned w logs w1 w2 :
  attempted w logs w1 -> spawned w2 = spawned w1 -> attempted w logs w2.
Proof. intros (cmds & Hs & Hc) H. exists cmds. by rewrite H. Qed.

Lemma forallb_removelast {A} (f : A -> bool) (l : list A) :
  forallb f l = true -> forallb f (removelast l) = true.
Proof.
  induction l as [|a [|b r] IH]; simpl in *; auto.
  intros H. apply andb_true_iff in H as [-> H]. simpl. by apply IH.
Qed.

Lemma forallb_snoc_false {A} (f : A -> bool) (l : list A) (a : A) :
  f a = false -> forallb f (l ++ [a]) = false.
Proof.
  intros H. rewrite forallb_app. simpl. rewrite H. apply andb_false_r.
Qed.

Section PipelineLog.

Variable E : Env.

Lemma write_search_overlay_eq (w : World) :
  write_search_overlay E w =
    match stored (files w !! config_file E "mssearch.json") with
    | VDict d =>
        match files w !! config_file E "mssearch_web_pipeline.json" with
        | Some Directory => (Raise IsADirectoryError, w)
        | _ => (Next (VDict (overlay_of d)),
                mkWorld (<[config_file E "mssearch_web_pipeline.json" :=
                            Json (VDict (overlay_of d))]> (files w))
                        (fd_regular w) (spawned w))
        end
    | _ => (Raise AttributeError, w)
    end.
Proof.
  unfold write_search_overlay, bind at 1.
  assert (Hload :
    try_except (f <- open_r (config_file E "mssearch.json");; json_load f)
      (λ _, ret (VDict [])) w
    = (Next (stored (files w !! config_file E "mssearch.json")), w)).
  { unfold try_except, bind, open_r.
    by destruct (files w !! config_file E "mssearch.json") as [[| |]|]. }
  rewrite Hload.
  destruct (stored _) as [| | | | | |d]; try done.
  unfold bind, py_setdefault, py_setitem, ret, json_dump_to. simpl.
  by destruct (files w !! config_file E "mssearch_web_pipeline.json") as [[| |]|].
Qed.

Lemma write_search_overlay_cases (w : World) :
  match write_search_overlay E w with
  | (Next obj, w') =>
      spawned w' = spawned w ∧ ∃ d, obj = VDict d
  | (Return _, _) => False
  | (Raise _, w') => w' = w
  end.
Proof.
  rewrite write_search_overlay_eq.
  destruct (stored _); try done.
  destruct (files w !! _) as [[| |]|]; simpl; eauto.
Qed.

Lemma search_stage_cases (ms_input : value) out logs (w : World) :
  match search_stage E ms_input out logs w with
  | (Next r, w') =>
      ∃ w1 d argv proc fs,
        spawned w1 = spawned w
        ∧ subprocess_run E argv None w1 = inr (proc, fs)
        ∧ returncode proc = 0
        ∧ r = (VDict d, logs ++ [log_entry "MSSearch" argv proc])
        ∧ w' = mkWorld fs (fd_regular w1) (spawned w1 ++ [argv])
  | (Return resp, w') =>
      ∃ w1 argv proc fs,
        spawned w1 = spawned w
        ∧ subprocess_run E argv None w1 = inr (proc, fs)
        ∧ returncode proc ≠ 0
        ∧ resp = halted out (logs ++ [log_entry "MSSearch" argv proc])
        ∧ w' = mkWorld fs (fd_regular w1) (spawned w1 ++ [argv])
  | (Raise _, w') => spawned w' = spawned w
  end.
Proof.
  unfold search_stage, bind at 1.
  pose proof (write_search_overlay_cases w) as H1.
  destruct (write_search_overlay E w) as [[obj|r|e] w1]; simpl in H1; try done;
    [|by subst].
  destruct H1 as (Hsp & d & ->).
  unfold bind.
  match goal with |- context [run_python_module E ?n ?a w1] =>
    pose proof (run_python_module_cases E n a w1) as Hrun;
    destruct (run_python_module E n a w1) as [[[argv proc]| |] w2]
  end; simpl in *; try done; [|by subst].
  destruct Hrun as (fs & _ & Hrun & ->).
  destruct (returncode proc =? 0) eqn:Hrc; simpl.
  - exists w1, d, argv, proc, fs. repeat split; auto. lia.
  - exists w1, argv, proc, fs. repeat split; auto. lia.
Qed.

(** What a response of the pipeline says about the run that produced it. *)
Lemma pipeline_log_sound (form : gmap string string) (w : World) :
  match respond (run_pipeline_full E form) w with
  | (PipelineVisualize success out logs _ _ _ _ _, w') =>
      success = forallb log_success logs
      ∧ forallb log_success (removelast logs) = true
      ∧ attempted w logs w'
  | (Redirect _ _, w') => w' = w
  | (RunResult _ _ _ _ _ _, _) => False
  | (Crash _, _) => True
  end.
Proof.
  unfold respond, run_pipeline_full. cbv zeta.
  destruct (negb (nonempty _)); [done|].
  set (out := form_get form "output_dir" "").
  unfold bind at 1.
  match goal with |- context [resolve_top_inputs E ?a ?b w] =>
    pose proof (resolve_top_inputs_cases E a b w) as Hres;
    destruct (resolve_top_inputs E a b w) as [[[neg pos]|r|e] w1]
  end; simpl in Hres.
  2: { by destruct Hres as [-> ->]. }
  2: { done. }
  destruct Hres as [-> _]. simpl.
  unfold bind at 1. simpl.
  destruct (missing_parameters E w neg pos); [|done].
  (* the negative filter *)
  unfold bind at 1.
  match goal with |- context [filter_stage E ?t ?n ?i ?o ?v ?ts ?l w] =>
    pose proof (filter_stage_cases E t n i o v ts l w) as H1;
    destruct (filter_stage E t n i o v ts l w) as [[[neg_summary logs1]|r|e] w1]
  end; simpl in H1.
  2: { destruct H1 as (_ & argv & proc & fs & _ & Hrc & -> & ->).
       simpl. split; [|split].
       - destruct (returncode proc =? 0) eqn:?; [lia|done].
       - done.
       - apply (attempted_snoc w [] w), attempted_nil. }
  2: { done. }
  assert (Hinv1 : forallb log_success logs1 = true ∧ attempted w logs1 w1).
  { destruct H1 as [(_ & [= -> ->] & ->)|(_ & argv & proc & fs & _ & Hrc & [= -> ->] & ->)].
    - split; [done|apply attempted_nil].
    - split; [simpl; by rewrite Hrc|apply (attempted_snoc w [] w), attempted_nil]. }
  clear H1. destruct Hinv1 as [Hok1 Hatt1]. simpl.
  (* the positive filter *)
  unfold bind at 1.
  match goal with |- context [filter_stage E ?t ?n ?i ?o ?v ?ts ?l w1] =>
    pose proof (filter_stage_cases E t n i o v ts l w1) as H2;
    destruct (filter_stage E t n i o v ts l w1) as [[[pos_summary logs2]|r|e] w2]
  end; simpl in H2.
  2: { destruct H2 as (_ & argv & proc & fs & _ & Hrc & -> & ->).
       simpl. split; [|split].
       - symmetry. apply forallb_snoc_false. simpl.
         destruct (returncode proc =? 0) eqn:?; [lia|done].
       - by rewrite removelast_last.
       - by apply attempted_snoc. }
  2: { done. }
  assert (Hinv2 : forallb log_success logs2 = true ∧ attempted w logs2 w2).
  { destruct H2 as [(_ & [= -> ->] & ->)|(_ & argv & proc & fs & _ & Hrc & [= -> ->] & ->)].
    - done.
    - split; [|by apply attempted_snoc].
      rewrite forallb_app, Hok1. simpl. by rewrite Hrc. }
  clear H2 Hok1 Hatt1. destruct Hinv2 as [Hok2 Hatt2]. simpl.
  (* the amalgamation *)
  unfold bind at 1.
  match goal with |- context [amalgamate_stage E ?n ?p ?o ?l w2] =>
    pose proof (amalgamate_stage_cases E n p o l w2) as H3;
    destruct (amalgamate_stage E n p o l w2) as [[[amalgamated logs3]|r|e] w3]
  end; simpl in H3.
  2: { destruct H3 as (_ & argv & proc & fs & _ & Hrc & -> & ->).
       simpl. split; [|split].
       - symmetry. apply forallb_snoc_false. simpl.
         destruct (returncode proc =? 0) eqn:?; [lia|done].
       - by rewrite removelast_last.
       - by apply attempted_snoc. }
  2: { done. }
  assert (Hinv3 : forallb log_success logs3 = true ∧ attempted w logs3 w3).
  { destruct H3 as [(_ & [= -> ->] & ->)|(_ & argv & proc & fs & _ & Hrc & [= -> ->] & ->)].
    - done.
    - split; [|by apply attempted_snoc].
      rewrite forallb_app, Hok2. simpl. by rewrite Hrc. }
  clear H3 Hok2 Hatt2. destruct Hinv3 as [Hok3 Hatt3]. simpl.
  (* the search *)
  unfold bind at 1.
  match goal with |- context [search_stage E ?i ?o ?l w3] =>
    pose proof (search_stage_cases i o l w3) as H4;
    destruct (search_stage E i o l w3) as [[[obj logs4]|r|e] w4]
  end; simpl in H4.
  2: { destruct H4 as (w3' & argv & proc & fs & Hsp & _ & Hrc & -> & ->).
       simpl. split; [|split].
       - symmetry. apply forallb_snoc_false. simpl.
         destruct (returncode proc =? 0) eqn:?; [lia|done].
       - by rewrite removelast_last.
       - apply (attempted_snoc w logs3 w3').
         by apply (attempted_same_spawned w logs3 w3). }
  2: { done. }
  destruct H4 as (w3' & d & argv & proc & fs & Hsp & _ & Hrc & [= -> ->] & ->).
  simpl. quiet_bind db. quiet_bind db_name. simpl. split; [|split].
  - rewrite forallb_app, Hok3. simpl. by rewrite Hrc.
  - by rewrite removelast_last.
  - apply (attempted_snoc w logs3 w3').
    by apply (attempted_same_spawned w logs3 w3).
Qed.

End PipelineLog.

(** ** The full pipeline: preconditions, failures, records *)

Lemma nonempty_true (s : string) : s ≠ "" -> nonempty s = true.
Proof. unfold nonempty. destruct s; [done|reflexivity]. Qed.

Lemma nonempty_append_r (a b : string) : nonempty b = true -> nonempty (a +:+ b) = true.
Proof. destruct a, b; auto. Qed.

Lemma os_path_join_relative (a b : string) :
  startswith_slash b = false -> nonempty a = true -> endswith_slash a = false ->
  os_path_join a b = a +:+ "/" +:+ b.
Proof.
  unfold os_path_join, nonempty. intros -> Ha ->.
  apply negb_true_iff in Ha. by rewrite Ha.
Qed.

Lemma os_path_join_nonempty (a b : string) :
  nonempty b = true -> nonempty (os_path_join a b) = true.
Proof.
  intros Hb. unfold os_path_join.
  destruct (startswith_slash b); [done|].
  destruct (_ || _); repeat apply nonempty_append_r; auto.
Qed.

Lemma as_strings_strs (l : list string) : as_strings (map VStr l) = Some l.
Proof. induction l as [|a r IH]; simpl; [done|]. by rewrite IH. Qed.

Section Pipeline.

Variable E : Env.

Lemma missing_parameters_eq (w : World) (neg pos : value) :
  truthy neg || truthy pos = true ->
  missing_parameters E w neg pos =
    (if isfile w (config_file E "peakfilter.json") then [] else ["PeakFilter"])
    ++ (if isfile w (config_file E "amalgamator.json") then [] else ["Amalgamator"])
    ++ (if isfile w (config_file E "mssearch.json") then [] else ["MSSearch"]).
Proof.
  intros H. unfold missing_parameters. rewrite H.
  by repeat destruct (isfile w _).
Qed.

Lemma filter_stage_run title name (input out : string) verbose timestamp logs
    (w : World) proc fs :
  input ≠ "" ->
  subprocess_run E (filter_argv E input out verbose timestamp) None w = inr (proc, fs) ->
  filter_stage E title name (VStr input) out verbose timestamp logs w =
    (if returncode proc =? 0 then
       Next (VStr (os_path_join out name),
             logs ++ [log_entry title (filter_argv E input out verbose timestamp) proc])
     else
       Return (halted out
         (logs ++ [log_entry title (filter_argv E input out verbose timestamp) proc])),
     mkWorld fs (fd_regular w)
       (spawned w ++ [filter_argv E input out verbose timestamp])).
Proof.
  intros Hin Hrun. unfold filter_stage. simpl.
  rewrite (nonempty_true input Hin : negb (String.eqb input "") = true).
  unfold bind, run_python_module, subprocess_call.
  assert (Hargv : ∀ l, as_strings (map VStr l) = Some l) by apply as_strings_strs.
  match goal with |- context [as_strings ?l] =>
    replace (as_strings l) with (Some (filter_argv E input out verbose timestamp))
  end.
  2: { unfold filter_argv. by destruct verbose, timestamp. }
  rewrite Hrun. simpl. by destruct (returncode proc =? 0).
Qed.

(** C4. A full pipeline run gives up before any process is started when
    its preconditions fail.  Without an output directory it answers at once
    with the request for one.  With one, if a parameter file is missing --
    the filter's, the amalgamator's or the search's, whether or not the
    amalgamator would have been reached -- the answer names all the missing
    stages together as soon as the inputs are known; and whatever the
    answer, the world is untouched: no process was run. *)
Theorem pipeline_preconditions (form : gmap string string) (w : World) :
  let out := form_get form "output_dir" "" in
  let expected :=
    (if isfile w (config_file E "peakfilter.json") then [] else ["PeakFilter"])
    ++ (if isfile w (config_file E "amalgamator.json") then [] else ["Amalgamator"])
    ++ (if isfile w (config_file E "mssearch.json") then [] else ["MSSearch"]) in
  (out = "" ->
   respond (run_pipeline_full E form) w =
     (Redirect "pipeline" "Please provide an output directory for the pipeline.", w))
  ∧ (out ≠ "" -> expected ≠ [] ->
     (∀ inputs,
        resolve_top_inputs E (VStr (form_get form "neg_input" ""))
          (VStr (form_get form "pos_input" "")) w = (Next inputs, w) ->
        respond (run_pipeline_full E form) w =
          (Redirect "pipeline"
             ("Missing parameters for: " +:+ str_join ", " expected
              +:+ ". Configure them under Params."), w))
     ∧ snd (respond (run_pipeline_full E form) w) = w
     ∧ spawned (snd (respond (run_pipeline_full E form) w)) = spawned w).
Proof.
  cbv zeta. split.
  - intros Hout. unfold respond, run_pipeline_full. cbv zeta. by rewrite Hout.
  - intros Hout Hexp.
    assert (Hrun : ∀ inputs,
      resolve_top_inputs E (VStr (form_get form "neg_input" ""))
        (VStr (form_get form "pos_input" "")) w = (Next inputs, w) ->
      respond (run_pipeline_full E form) w =
        (Redirect "pipeline"
           ("Missing parameters for: " +:+ str_join ", "
              ((if isfile w (config_file E "peakfilter.json") then [] else ["PeakFilter"])
               ++ (if isfile w (config_file E "amalgamator.json") then [] else ["Amalgamator"])
               ++ (if isfile w (config_file E "mssearch.json") then [] else ["MSSearch"]))
            +:+ ". Configure them under Params."), w)).
    { intros inputs Hres.
      pose proof (resolve_top_inputs_cases E (VStr (form_get form "neg_input" ""))
                    (VStr (form_get form "pos_input" "")) w) as Hc.
      rewrite Hres in Hc. destruct Hc as [_ Htruthy].
      unfold respond, run_pipeline_full. cbv zeta.
      rewrite (nonempty_true _ Hout). simpl.
      unfold bind at 1. rewrite Hres. unfold bind at 1. simpl.
      rewrite (missing_parameters_eq w _ _ Htruthy).
      set (l := (if isfile w (config_file E "peakfilter.json") then [] else ["PeakFilter"])
                ++ _) in *.
      by destruct l. }
    split; [exact Hrun|].
    assert (Hw : snd (respond (run_pipeline_full E form) w) = w).
    { pose proof (resolve_top_inputs_cases E (VStr (form_get form "neg_input" ""))
                    (VStr (form_get form "pos_input" "")) w) as Hc.
      destruct (resolve_top_inputs E _ _ w) as [[inputs|r|e] w1] eqn:Hres.
      - destruct Hc as [-> _]. by rewrite (Hrun inputs).
      - destruct Hc as [-> ->].
        unfold respond, run_pipeline_full. cbv zeta.
        rewrite (nonempty_true _ Hout). simpl.
        unfold bind at 1. by rewrite Hres.
      - subst w1. unfold respond, run_pipeline_full. cbv zeta.
        rewrite (nonempty_true _ Hout). simpl.
        unfold bind at 1. by rewrite Hres. }
    split; [exact Hw|by rewrite Hw].
Qed.

Lemma amalgamate_stage_run (out : string) (logs : list LogEntry) (w : World) proc fs :
  subprocess_run E (amalgamate_argv E out) None w = inr (proc, fs) ->
  amalgamate_stage E (VStr (os_path_join out "peakfilter_negative_summary.csv"))
    (VStr (os_path_join out "peakfilter_positive_summary.csv")) out logs w =
    (if returncode proc =? 0
     then Next (VStr (os_path_join out "amalgamated.csv"),
                logs ++ [log_entry "Amalgamator" (amalgamate_argv E out) proc])
     else Return (halted out
            (logs ++ [log_entry "Amalgamator" (amalgamate_argv E out) proc])),
     mkWorld fs (fd_regular w) (spawned w ++ [amalgamate_argv E out])).
Proof.
  intros Hrun. unfold amalgamate_stage. cbn [truthy].
  rewrite (os_path_join_nonempty out "peakfilter_negative_summary.csv" eq_refl
           : negb (String.eqb _ "") = true).
  rewrite (os_path_join_nonempty out "peakfilter_positive_summary.csv" eq_refl
           : negb (String.eqb _ "") = true).
  cbn [andb]. unfold bind, run_python_module, subprocess_call.
  cbn [app as_strings]. fold (amalgamate_argv E out). rewrite Hrun.
  cbn [fst snd]. by destruct (returncode proc =? 0).
Qed.

Lemma search_stage_run (d : dict) (w : World) (ms_input out : string)
    (logs : list LogEntry) proc fs :
  stored (files w !! config_file E "mssearch.json") = VDict d ->
  files w !! config_file E "mssearch_web_pipeline.json" ≠ Some Directory ->
  subprocess_run E (search_argv E ms_input out) None
    (mkWorld (<[config_file E "mssearch_web_pipeline.json" :=
                 Json (VDict (overlay_of d))]> (files w)) (fd_regular w) (spawned w))
  = inr (proc, fs) ->
  search_stage E (VStr ms_input) out logs w =
    (if returncode proc =? 0
     then Next (VDict (overlay_of d),
                logs ++ [log_entry "MSSearch" (search_argv E ms_input out) proc])
     else Return (halted out
            (logs ++ [log_entry "MSSearch" (search_argv E ms_input out) proc])),
     mkWorld fs (fd_regular w) (spawned w ++ [search_argv E ms_input out])).
Proof.
  intros Hst Hdir Hrun.
  unfold search_stage, bind at 1. rewrite (write_search_overlay_eq E), Hst.
  destruct (files w !! config_file E "mssearch_web_pipeline.json") as [[| |]|] eqn:Hov;
    try done;
    unfold bind, run_python_module, subprocess_call;
    cbn [app as_strings]; fold (search_argv E ms_input out); rewrite Hrun;
    cbn [fst snd]; by destruct (returncode proc =? 0).
Qed.

Lemma search_stage_trace (ms_input : value) out logs (w : World) :
  match search_stage E ms_input out logs w with
  | (Next r, w') =>
      ∃ v d argv proc fs,
        subprocess_run E argv None
          (mkWorld (<[config_file E "mssearch_web_pipeline.json" := v]> (files w))
             (fd_regular w) (spawned w)) = inr (proc, fs)
        ∧ returncode proc = 0
        ∧ r = (VDict d, logs ++ [log_entry "MSSearch" argv proc])
        ∧ w' = mkWorld fs (fd_regular w) (spawned w ++ [argv])
  | (Return resp, w') =>
      ∃ v argv proc fs,
        subprocess_run E argv None
          (mkWorld (<[config_file E "mssearch_web_pipeline.json" := v]> (files w))
             (fd_regular w) (spawned w)) = inr (proc, fs)
        ∧ returncode proc ≠ 0
        ∧ resp = halted out (logs ++ [log_entry "MSSearch" argv proc])
        ∧ w' = mkWorld fs (fd_regular w) (spawned w ++ [argv])
  | (Raise _, w') =>
      w' = w
      ∨ ∃ v, w' = mkWorld (<[config_file E "mssearch_web_pipeline.json" := v]> (files w))
                    (fd_regular w) (spawned w)
  end.
Proof.
  unfold search_stage, bind at 1. rewrite (write_search_overlay_eq E).
  destruct (stored _) as [| | | | | |d]; try (by left).
  set (w1 := mkWorld (<[config_file E "mssearch_web_pipeline.json" :=
                         Json (VDict (overlay_of d))]> (files w))
                (fd_regular w) (spawned w)).
  destruct (files w !! config_file E "mssearch_web_pipeline.json") as [[| |]|];
    try (by left); fold w1.
  all: unfold bind.
  all: match goal with |- context [run_python_module E ?n ?a ?w0] =>
         pose proof (run_python_module_cases E n a w0) as Hrun;
         destruct (run_python_module E n a w0) as [[[argv proc]| |] w2]
       end; simpl in Hrun; try done.
  all: try (subst w2; right; by exists (Json (VDict (overlay_of d)))).
  all: destruct Hrun as (fs & _ & Hrun & ->); cbn [fst snd].
  all: destruct (returncode proc =? 0) eqn:Hrc; cbn [negb];
    unfold ret, return_.
  all: first
    [ exists (Json (VDict (overlay_of d))), (overlay_of d), argv, proc, fs;
      split; [exact Hrun|]; split; [lia|]; by split
    | exists (Json (VDict (overlay_of d))), argv, proc, fs;
      split; [exact Hrun|]; split; [lia|]; by split ].
Qed.

Lemma trace_failed (w wi : World) (logs : list LogEntry) (runs : list StageRun)
    title argv proc fs :
  logs = map run_entry runs ->
  pipeline_trace E w runs wi ->
  Forall (fun r => returncode (run_proc r) = 0) runs ->
  subprocess_run E argv None wi = inr (proc, fs) ->
  returncode proc ≠ 0 ->
  ∃ runs',
    logs ++ [log_entry title argv proc] = map run_entry runs'
    ∧ pipeline_trace E w runs' (mkWorld fs (fd_regular wi) (spawned wi ++ [argv]))
    ∧ Forall (fun r => returncode (run_proc r) = 0) (removelast runs')
    ∧ false = forallb exited_zero runs'
    ∧ (false = false -> ∃ r, last runs' = Some r ∧ returncode (run_proc r) ≠ 0).
Proof.
  intros -> Ht Hall Hrun Hrc. exists (runs ++ [mkRun title argv proc]).
  split; [by rewrite map_app|].
  split; [by apply (trace_process E w runs wi (mkRun title argv proc) fs)|].
  split; [by rewrite removelast_last|]. split.
  - symmetry. apply forallb_snoc_false. unfold exited_zero. simpl. by apply Z.eqb_neq.
  - intros _. exists (mkRun title argv proc). split; [apply last_snoc|done].
Qed.

Lemma trace_succeeded (w wi : World) (logs : list LogEntry) (runs : list StageRun)
    title argv proc fs :
  logs = map run_entry runs ->
  pipeline_trace E w runs wi ->
  Forall (fun r => returncode (run_proc r) = 0) runs ->
  subprocess_run E argv None wi = inr (proc, fs) ->
  returncode proc = 0 ->
  logs ++ [log_entry title argv proc] = map run_entry (runs ++ [mkRun title argv proc])
  ∧ pipeline_trace E w (runs ++ [mkRun title argv proc])
      (mkWorld fs (fd_regular wi) (spawned wi ++ [argv]))
  ∧ Forall (fun r => returncode (run_proc r) = 0) (runs ++ [mkRun title argv proc]).
Proof.
  intros -> Ht Hall Hrun Hrc.
  split; [by rewrite map_app|].
  split; [by apply (trace_process E w runs wi (mkRun title argv proc) fs)|].
  apply Forall_app. split; [done|]. by constructor.
Qed.

(** Every answer of the full pipeline, by the exit codes of the processes
    that were run for it. *)
Lemma pipeline_exit_codes (form : gmap string string) (w : World) :
  match respond (run_pipeline_full E form) w with
  | (PipelineVisualize success out logs _ _ _ _ _, w') =>
      ∃ runs,
        logs = map run_entry runs
        ∧ pipeline_trace E w runs w'
        ∧ Forall (fun r => returncode (run_proc r) = 0) (removelast runs)
        ∧ success = forallb exited_zero runs
        ∧ (success = false ->
           ∃ r, last runs = Some r ∧ returncode (run_proc r) ≠ 0)
  | (Crash _, w') =>
      ∃ runs, pipeline_trace E w runs w'
              ∧ Forall (fun r => returncode (run_proc r) = 0) runs
  | (Redirect _ _, w') => w' = w
  | (RunResult _ _ _ _ _ _, _) => False
  end.
Proof.
  unfold respond, run_pipeline_full. cbv zeta.
  destruct (negb (nonempty _)); [done|].
  set (out := form_get form "output_dir" "").
  unfold bind at 1.
  match goal with |- context [resolve_top_inputs E ?a ?b w] =>
    pose proof (resolve_top_inputs_cases E a b w) as Hres;
    destruct (resolve_top_inputs E a b w) as [[[neg pos]|r|e] w1]
  end; simpl in Hres.
  2: { by destruct Hres as [-> ->]. }
  2: { subst w1. exists []. split; [apply trace_start|done]. }
  destruct Hres as [-> _]. simpl.
  unfold bind at 1. simpl.
  destruct (missing_parameters E w neg pos); [|done].
  assert (Hinv0 : ∃ runs, @nil LogEntry = map run_entry runs
                          ∧ pipeline_trace E w runs w
                          ∧ Forall (fun r => returncode (run_proc r) = 0) runs).
  { exists []. repeat split; [apply trace_start|done]. }
  (* the negative filter *)
  unfold bind at 1.
  match goal with |- context [filter_stage E ?t ?n ?i ?o ?v ?ts ?l w] =>
    pose proof (filter_stage_cases E t n i o v ts l w) as H1;
    destruct (filter_stage E t n i o v ts l w) as [[[neg_summary logs1]|r|e] w1]
  end; simpl in H1.
  2: { destruct H1 as (_ & argv & proc & fs & Hrun & Hrc & -> & ->).
       destruct Hinv0 as (runs & Hl & Ht & Hall).
       exact (trace_failed w w _ runs _ argv proc fs Hl Ht Hall Hrun Hrc). }
  2: { subst w1. destruct Hinv0 as (runs & _ & Ht & Hall). eauto. }
  assert (Hinv1 : ∃ runs, logs1 = map run_entry runs
                          ∧ pipeline_trace E w runs w1
                          ∧ Forall (fun r => returncode (run_proc r) = 0) runs).
  { destruct Hinv0 as (runs & Hl & Ht & Hall).
    destruct H1 as [(_ & [= -> ->] & ->)|(_ & argv & proc & fs & Hrun & Hrc & [= -> ->] & ->)].
    - eauto.
    - eexists. exact (trace_succeeded w w _ runs _ argv proc fs Hl Ht Hall Hrun Hrc). }
  clear H1 Hinv0. simpl.
  (* the positive filter *)
  unfold bind at 1.
  match goal with |- context [filter_stage E ?t ?n ?i ?o ?v ?ts ?l w1] =>
    pose proof (filter_stage_cases E t n i o v ts l w1) as H2;
    destruct (filter_stage E t n i o v ts l w1) as [[[pos_summary logs2]|r|e] w2]
  end; simpl in H2.
  2: { destruct H2 as (_ & argv & proc & fs & Hrun & Hrc & -> & ->).
       destruct Hinv1 as (runs & Hl & Ht & Hall).
       exact (trace_failed w w1 _ runs _ argv proc fs Hl Ht Hall Hrun Hrc). }
  2: { subst w2. destruct Hinv1 as (runs & _ & Ht & Hall). eauto. }
  assert (Hinv2 : ∃ runs, logs2 = map run_entry runs
                          ∧ pipeline_trace E w runs w2
                          ∧ Forall (fun r => returncode (run_proc r) = 0) runs).
  { destruct Hinv1 as (runs & Hl & Ht & Hall).
    destruct H2 as [(_ & [= -> ->] & ->)|(_ & argv & proc & fs & Hrun & Hrc & [= -> ->] & ->)].
    - eauto.
    - eexists. exact (trace_succeeded w w1 _ runs _ argv proc fs Hl Ht Hall Hrun Hrc). }
  clear H2 Hinv1. simpl.
  (* the amalgamation *)
  unfold bind at 1.
  match goal with |- context [amalgamate_stage E ?n ?p ?o ?l w2] =>
    pose proof (amalgamate_stage_cases E n p o l w2) as H3;
    destruct (amalgamate_stage E n p o l w2) as [[[amalgamated logs3]|r|e] w3]
  end; simpl in H3.
  2: { destruct H3 as (_ & argv & proc & fs & Hrun & Hrc & -> & ->).
       destruct Hinv2 as (runs & Hl & Ht & Hall).
       exact (trace_failed w w2 _ runs _ argv proc fs Hl Ht Hall Hrun Hrc). }
  2: { subst w3. destruct Hinv2 as (runs & _ & Ht & Hall). eauto. }
  assert (Hinv3 : ∃ runs, logs3 = map run_entry runs
                          ∧ pipeline_trace E w runs w3
                          ∧ Forall (fun r => returncode (run_proc r) = 0) runs).
  { destruct Hinv2 as (runs & Hl & Ht & Hall).
    destruct H3 as [(_ & [= -> ->] & ->)|(_ & argv & proc & fs & Hrun & Hrc & [= -> ->] & ->)].
    - eauto.
    - eexists. exact (trace_succeeded w w2 _ runs _ argv proc fs Hl Ht Hall Hrun Hrc). }
  clear H3 Hinv2. simpl.
  destruct Hinv3 as (runs & Hl & Ht & Hall).
  (* the search *)
  unfold bind at 1.
  match goal with |- context [search_stage E ?i ?o ?l w3] =>
    pose proof (search_stage_trace i o l w3) as H4;
    destruct (search_stage E i o l w3) as [[[obj logs4]|r|e] w4]
  end; simpl in H4.
  2: { destruct H4 as (v & argv & proc & fs & Hrun & Hrc & -> & ->).
       exact (trace_failed w _ _ runs _ argv proc fs Hl
                (trace_write E w runs w3 _ v Ht) Hall Hrun Hrc). }
  2: { destruct H4 as [->|[v ->]]; [eauto|].
       exists runs. split; [by apply trace_write|done]. }
  destruct H4 as (v & d & argv & proc & fs & Hrun & Hrc & [= -> ->] & ->).
  destruct (trace_succeeded w _ _ runs "MSSearch" argv proc fs Hl
              (trace_write E w runs w3 _ v Ht) Hall Hrun Hrc) as (Hl4 & Ht4 & Hall4).
  simpl in Ht4.
  simpl. quiet_bind db; try solve [simpl; eauto].
  quiet_bind db_name; try solve [simpl; eauto].
  simpl. exists (runs ++ [mkRun "MSSearch" argv proc]).
  split; [exact Hl4|]. split; [exact Ht4|].
  split; [by rewrite removelast_last|]. split; [|done].
  symmetry. apply forallb_forall. intros r Hr.
  rewrite Forall_forall in Hall4. apply list_elem_of_In in Hr.
  unfold exited_zero. apply Z.eqb_eq. by apply Hall4.
Qed.

(** C3. In a full pipeline run a failing stage ends the run.  The success
    flag of the answer is the conjunction of the successes in its log; every
    entry but the last is a success, so a failure is the last thing
    attempted; and the log accounts for exactly the processes that were
    run, one entry each, in order.  By exit codes: the log of every answer
    is the list of the processes that were run, each with the exit code
    [subprocess.run] returned for it in the world its predecessors left;
    every process but the last exited with code zero, the success flag says
    whether all did, and an answer that reports failure ends with a process
    whose exit code is not zero -- whichever stage it was.  A request that
    ends in an exception ran only processes that exited with code zero.  In
    particular, when the negative filter exits with a code other than
    zero, the answer carries that one entry and that one process is all
    that was run: the positive filter is not started.  Likewise, both
    inputs given, a positive filter, an amalgamator or a search that exits
    with a code other than zero is the last process run and the last entry
    of the log, after two, three and four runs. *)
Theorem pipeline_stops_at_first_failure (form : gmap string string) (w : World) :
  match respond (run_pipeline_full E form) w with
  | (PipelineVisualize success out logs _ _ _ _ _, w') =>
      success = forallb log_success logs
      ∧ forallb log_success (removelast logs) = true
      ∧ attempted w logs w'
  | _ => True
  end
  ∧ (∀ proc fs,
       let neg := form_get form "neg_input" "" in
       let pos := form_get form "pos_input" "" in
       let out := form_get form "output_dir" "" in
       let argv := filter_argv E neg out (form_bool form "verbose")
                     (form_bool form "timestamp") in
       neg ≠ "" -> out ≠ "" ->
       missing_parameters E w (VStr neg) (VStr pos) = [] ->
       subprocess_run E argv None w = inr (proc, fs) ->
       returncode proc ≠ 0 ->
       respond (run_pipeline_full E form) w =
         (halted out [log_entry "PeakFilter (negative)" argv proc],
          mkWorld fs (fd_regular w) (spawned w ++ [argv])))
  ∧ match respond (run_pipeline_full E form) w with
    | (PipelineVisualize success out logs _ _ _ _ _, w') =>
        ∃ runs,
          logs = map run_entry runs
          ∧ pipeline_trace E w runs w'
          ∧ Forall (fun r => returncode (run_proc r) = 0) (removelast runs)
          ∧ success = forallb exited_zero runs
          ∧ (success = false ->
             ∃ r, last runs = Some r ∧ returncode (run_proc r) ≠ 0)
    | (Crash _, w') =>
        ∃ runs, pipeline_trace E w runs w'
                ∧ Forall (fun r => returncode (run_proc r) = 0) runs
    | (Redirect _ _, w') => w' = w
    | (RunResult _ _ _ _ _ _, _) => False
    end
  ∧ (∀ proc1 fs1 proc2 fs2,
       let neg := form_get form "neg_input" "" in
       let pos := form_get form "pos_input" "" in
       let out := form_get form "output_dir" "" in
       let argv1 := filter_argv E neg out (form_bool form "verbose")
                      (form_bool form "timestamp") in
       let argv2 := filter_argv E pos out (form_bool form "verbose")
                      (form_bool form "timestamp") in
       let argv3 := amalgamate_argv E out in
       let argv4 := search_argv E (os_path_join out "amalgamated.csv") out in
       let l1 := log_entry "PeakFilter (negative)" argv1 proc1 in
       let l2 := log_entry "PeakFilter (positive)" argv2 proc2 in
       neg ≠ "" -> pos ≠ "" -> out ≠ "" ->
       missing_parameters E w (VStr neg) (VStr pos) = [] ->
       subprocess_run E argv1 None w = inr (proc1, fs1) ->
       returncode proc1 = 0 ->
       subprocess_run E argv2 None
         (mkWorld fs1 (fd_regular w) (spawned w ++ [argv1])) = inr (proc2, fs2) ->
       (returncode proc2 ≠ 0 ->
        respond (run_pipeline_full E form) w =
          (halted out [l1; l2],
           mkWorld fs2 (fd_regular w) (spawned w ++ [argv1; argv2])))
       ∧ (returncode proc2 = 0 ->
          ∀ proc3 fs3,
            let l3 := log_entry "Amalgamator" argv3 proc3 in
            subprocess_run E argv3 None
              (mkWorld fs2 (fd_regular w) (spawned w ++ [argv1; argv2]))
            = inr (proc3, fs3) ->
            (returncode proc3 ≠ 0 ->
             respond (run_pipeline_full E form) w =
               (halted out [l1; l2; l3],
                mkWorld fs3 (fd_regular w) (spawned w ++ [argv1; argv2; argv3])))
            ∧ (returncode proc3 = 0 ->
               ∀ d proc4 fs4,
                 stored (fs3 !! config_file E "mssearch.json") = VDict d ->
                 fs3 !! config_file E "mssearch_web_pipeline.json" ≠ Some Directory ->
                 subprocess_run E argv4 None
                   (mkWorld (<[config_file E "mssearch_web_pipeline.json" :=
                                Json (VDict (overlay_of d))]> fs3)
                      (fd_regular w) (spawned w ++ [argv1; argv2; argv3]))
                 = inr (proc4, fs4) ->
                 returncode proc4 ≠ 0 ->
                 respond (run_pipeline_full E form) w =
                   (halted out [l1; l2; l3; log_entry "MSSearch" argv4 proc4],
                    mkWorld fs4 (fd_regular w)
                      (spawned w ++ [argv1; argv2; argv3; argv4]))))).
Proof.
  split; [|split; [|split]].
  - pose proof (pipeline_log_sound E form w) as H.
    by destruct (respond (run_pipeline_full E form) w) as [[] w'].
  - cbv zeta. intros proc fs Hneg Hout Hmiss Hrun Hrc.
    unfold respond, run_pipeline_full. cbv zeta.
    rewrite (nonempty_true _ Hout). simpl.
    unfold bind at 1. unfold resolve_top_inputs. simpl.
    rewrite (nonempty_true _ Hneg : negb (String.eqb _ "") = true). simpl.
    unfold bind at 1. simpl. rewrite Hmiss.
    unfold bind at 1.
    rewrite (filter_stage_run _ _ _ _ _ _ _ _ _ _ Hneg Hrun).
    destruct (returncode proc =? 0) eqn:Hz; [lia|done].
  - apply pipeline_exit_codes.
  - cbv zeta. intros proc1 fs1 proc2 fs2 Hneg Hpos Hout Hmiss Hrun1 Hrc1 Hrun2.
    assert (Hin : ∀ x y,
              py_or (VStr (os_path_join (form_get form "output_dir" "") "amalgamated.csv"))
                (py_or x y)
              = VStr (os_path_join (form_get form "output_dir" "") "amalgamated.csv")).
    { intros x y. unfold py_or at 1. cbn [truthy].
      by rewrite (os_path_join_nonempty _ "amalgamated.csv" eq_refl
                  : negb (String.eqb _ "") = true). }
    assert (Hz : ∀ p, returncode p ≠ 0 -> (returncode p =? 0) = false)
      by (intros; lia).
    split; [intros Hrc2
           |intros Hrc2 proc3 fs3 Hrun3;
            split; [intros Hrc3|intros Hrc3 d proc4 fs4 Hst Hdir Hrun4 Hrc4]].
    all: unfold respond, run_pipeline_full; cbv zeta;
      rewrite (nonempty_true _ Hout); cbn [negb];
      unfold bind at 1; unfold resolve_top_inputs; cbn [truthy];
      rewrite (nonempty_true _ Hneg : negb (String.eqb _ "") = true);
      cbn [orb negb]; unfold ret at 1; cbn [fst snd];
      unfold bind at 1; unfold get_world at 1; rewrite Hmiss;
      unfold bind at 1;
      rewrite (filter_stage_run _ _ _ _ _ _ _ _ _ _ Hneg Hrun1);
      rewrite Hrc1; cbn [Z.eqb fst snd];
      unfold bind at 1;
      rewrite (filter_stage_run _ _ _ _ _ _ _ _ _ _ Hpos Hrun2);
      cbn [fd_regular spawned app]; rewrite <- app_assoc; cbn [app].
    + by rewrite (Hz _ Hrc2).
    + rewrite Hrc2. cbn [Z.eqb fst snd].
      unfold bind at 1.
      rewrite (amalgamate_stage_run _ _ _ _ _ Hrun3).
      cbn [fd_regular spawned app]. rewrite <- app_assoc. cbn [app].
      by rewrite (Hz _ Hrc3).
    + rewrite Hrc2. cbn [Z.eqb fst snd].
      unfold bind at 1.
      rewrite (amalgamate_stage_run _ _ _ _ _ Hrun3).
      cbn [fd_regular spawned app]. rewrite <- app_assoc. cbn [app].
      rewrite Hrc3. cbn [Z.eqb fst snd].
      rewrite Hin. unfold bind at 1.
      rewrite (search_stage_run d (mkWorld fs3 _ _) _ _ _ proc4 fs4 Hst Hdir Hrun4).
      cbn [fd_regular spawned app]. rewrite <- app_assoc. cbn [app].
      by rewrite (Hz _ Hrc4).
Qed.

(** X25. A full pipeline run never writes the run state store.  As long as
    the stage executables leave the state document alone, it is the same
    after the request as before, whatever the form held and however the
    run ended, and reading the store after the request gives what reading
    it before gave. *)
Theorem pipeline_never_writes_state (form : gmap string string) (w : World) :
  leaves E (STATE_PATH E) ->
  let w' := snd (respond (run_pipeline_full E form) w) in
  files w' !! STATE_PATH E = files w !! STATE_PATH E
  ∧ fst (read_state E w') = fst (read_state E w).
Proof.
  intros Hl. cbv zeta.
  assert (H : files (snd (respond (run_pipeline_full E form) w)) !! STATE_PATH E
              = files w !! STATE_PATH E).
  { rewrite respond_snd.
    apply (respects_run_pipeline_full E (STATE_PATH E) Hl form).
    intros H. by apply config_file_inj in H. }
  split; [exact H|]. by rewrite !read_state_stored, H.
Qed.

End Pipeline.

(** ** The search overlay *)

Lemma dict_find_setdefault_eq (k : string) (v : value) (d : dict) :
  dict_find k (dict_setdefault k v d)
  = Some (match dict_find k d with Some v' => v' | None => v end).
Proof.
  unfold dict_setdefault. destruct (dict_find k d) eqn:H; [done|].
  apply dict_find_set_eq.
Qed.

Lemma dict_find_setdefault_ne (k k' : string) (v : value) (d : dict) :
  k ≠ k' -> dict_find k' (dict_setdefault k v d) = dict_find k' d.
Proof.
  intros Hne. unfold dict_setdefault. destruct (dict_find k d); [done|].
  by apply dict_find_set_ne.
Qed.

Section Overlay.

Variable E : Env.

(** C8 (as the code has it).  Before the search of a full pipeline run the
    saved search parameters are copied into the overlay file
    [mssearch_web_pipeline.json]: there the chart format is [png] whatever
    was saved, category plotting and the summary are switched on only when
    the saved set says nothing about them (a saved value is kept), and
    every other setting is as saved.  The search executable is started on
    that overlay.  The saved file [mssearch.json] is not written: it is
    the same once the overlay is in place, and -- as long as the stage
    executables leave it alone -- the same after the whole run. *)
Theorem search_overlay_keeps_saved_choices (d : dict) (w : World)
    (ms_input out : string) (logs : list LogEntry) :
  stored (files w !! config_file E "mssearch.json") = VDict d ->
  files w !! config_file E "mssearch_web_pipeline.json" ≠ Some Directory ->
  let d' := overlay_of d in
  let w_overlay :=
    mkWorld (<[config_file E "mssearch_web_pipeline.json" := Json (VDict d')]> (files w))
            (fd_regular w) (spawned w) in
  let argv := [sys_executable E; "-m"; "LipidFinder.run_mssearch"; "-i"; ms_input;
               "-p"; config_file E "mssearch_web_pipeline.json"; "-o"; out] in
  write_search_overlay E w = (Next (VDict d'), w_overlay)
  ∧ dict_find "figFormat" d' = Some (VStr "png")
  ∧ dict_find "plotCategories" d'
    = Some (match dict_find "plotCategories" d with Some v => v | None => VBool true end)
  ∧ dict_find "summary" d'
    = Some (match dict_find "summary" d with Some v => v | None => VBool true end)
  ∧ (∀ k, k ≠ "figFormat" -> k ≠ "plotCategories" -> k ≠ "summary" ->
          dict_find k d' = dict_find k d)
  ∧ (∀ proc fs,
       subprocess_run E argv None w_overlay = inr (proc, fs) ->
       search_stage E (VStr ms_input) out logs w =
         (if returncode proc =? 0
          then Next (VDict d', logs ++ [log_entry "MSSearch" argv proc])
          else Return (halted out (logs ++ [log_entry "MSSearch" argv proc])),
          mkWorld fs (fd_regular w) (spawned w ++ [argv])))
  ∧ files w_overlay !! config_file E "mssearch.json"
    = files w !! config_file E "mssearch.json"
  ∧ (leaves E (config_file E "mssearch.json") ->
     ∀ form w0,
       files (snd (respond (run_pipeline_full E form) w0)) !! config_file E "mssearch.json"
       = files w0 !! config_file E "mssearch.json").
Proof.
  intros Hst Hdir. cbv zeta.
  assert (Hov : write_search_overlay E w =
    (Next (VDict (overlay_of d)),
     mkWorld (<[config_file E "mssearch_web_pipeline.json" :=
                 Json (VDict (overlay_of d))]> (files w)) (fd_regular w) (spawned w))).
  { rewrite write_search_overlay_eq, Hst.
    by destruct (files w !! config_file E "mssearch_web_pipeline.json") as [[| |]|]. }
  split; [exact Hov|].
  unfold overlay_of.
  split; [apply dict_find_set_eq|].
  split.
  { rewrite dict_find_set_ne by done.
    rewrite (dict_find_setdefault_ne "summary" "plotCategories") by done.
    apply dict_find_setdefault_eq. }
  split.
  { rewrite dict_find_set_ne by done.
    rewrite dict_find_setdefault_eq.
    by rewrite (dict_find_setdefault_ne "plotCategories" "summary"). }
  split.
  { intros k H1 H2 H3.
    rewrite dict_find_set_ne by done.
    by rewrite !dict_find_setdefault_ne. }
  split.
  { intros proc fs Hrun. fold (overlay_of d) in *.
    unfold search_stage, bind at 1. rewrite Hov.
    unfold bind, run_python_module, subprocess_call.
    cbn [app as_strings]. rewrite Hrun.
    cbn [fst snd]. by destruct (returncode proc =? 0). }
  split.
  { simpl. apply lookup_insert_ne. intros H. by apply config_file_inj in H. }
  intros Hl form w0. rewrite respond_snd.
  apply (respects_run_pipeline_full E _ Hl form).
  intros H. by apply config_file_inj in H.
Qed.

End Overlay.

(** ** The stage requests one at a time *)

Section Standalone.

Variable E : Env.

Lemma ran_one_leaves (p : string) (w w' : World) :
  leaves E p -> w' = w ∨ ran_one E w w' -> files w' !! p = files w !! p.
Proof.
  intros Hl [->|(argv & input & proc & fs & Hrun & ->)]; [done|].
  simpl. by apply (Hl _ _ _ _ _ Hrun).
Qed.

Lemma subprocess_call_cases (cmd : list value) (input : option string) (w : World) :
  match subprocess_call E cmd input w with
  | (Next run, w') =>
      ∃ fs, subprocess_run E (fst run) input w = inr (snd run, fs)
            ∧ w' = mkWorld fs (fd_regular w) (spawned w ++ [fst run])
  | (Return _, _) => False
  | (Raise _, w') => w' = w
  end.
Proof.
  unfold subprocess_call.
  destruct (as_strings cmd) as [argv|]; [|done].
  destruct (subprocess_run E argv input w) as [e|[proc fs]] eqn:Hrun; [done|].
  by exists fs.
Qed.

Lemma run_python_module_ran (name : string) (args : list value) (w : World) :
  match run_python_module E name args w with
  | (Next _, w') => ran_one E w w'
  | (Return _, _) => False
  | (Raise _, w') => w' = w
  end.
Proof.
  pose proof (run_python_module_cases E name args w) as H.
  destruct (run_python_module E name args w) as [[run| |] w']; auto.
  destruct H as (fs & _ & Hrun & ->). by exists (fst run), None, (snd run), fs.
Qed.

(** [update_state] raises only before it writes. *)
Lemma update_state_cases (kwargs : dict) (w : World) :
  match update_state E kwargs w with
  | (Next _, _) => True
  | (Return _, _) => False
  | (Raise _, w') => w' = w
  end.
Proof.
  unfold update_state, bind. rewrite read_state_stored.
  pose proof (merge_kwargs_world kwargs (stored (files w !! STATE_PATH E)) w) as Hw.
  assert (Hq : ∀ st w0 r, fst (merge_kwargs kwargs st w0) ≠ Return r).
  { clear. induction kwargs as [|[k v] r IH]; intros st w0 resp; simpl; [done|].
    unfold bind. destruct (is_not_None v); simpl; [|apply IH].
    destruct st; simpl; solve [done | apply IH]. }
  specialize (Hq (stored (files w !! STATE_PATH E)) w).
  destruct (merge_kwargs _ _ w) as [[st|r|e] w1]; simpl in *; subst.
  - unfold try_except, json_dump_to. by destruct (files w !! _) as [[]|].
  - by destruct (Hq r).
  - done.
Qed.

(** The resolver of the filter stage: among candidates that are paths, the
    first that is non-empty and names a file on disk; the given input when
    there is none. *)
Lemma first_candidate_paths (cs : list string) (input_path : value) (w : World) :
  first_candidate (map VStr cs) input_path w =
    (Next (match find (fun c => nonempty c && isfile w c) cs with
           | Some c => VStr c
           | None => input_path
           end), w).
Proof.
  induction cs as [|c r IH]; simpl; [done|].
  unfold bind, nonempty. destruct (negb (String.eqb c "")); simpl; [|exact IH].
  destruct (isfile w c); [done|exact IH].
Qed.

Lemma run_peakfilter_without_output_dir (form : gmap string string) (w : World)
    (resp : Response) (w' : World) :
  form_get form "output_dir" "" = "" ->
  respond (run_peakfilter E form) w = (resp, w') ->
  w' = w ∨ ran_one E w w'.
Proof.
  intros Hout. unfold respond, run_peakfilter. cbv zeta. rewrite Hout.
  unfold bind at 1.
  match goal with |- context [match ?m w with _ => _ end] =>
    assert (Hq : respects eq m) by (repeat respects_step);
    specialize (Hq w); destruct (m w) as [[input_path|r|e] w1]
  end; simpl in Hq; subst w1; simpl.
  2, 3: intros [= <- <-]; by left.
  quiet_bind has_params; try (intros [= <- <-]; by left).
  destruct (negb has_params); [intros [= <- <-]; by left|].
  unfold bind at 1.
  match goal with |- context [run_python_module E ?n ?a w] =>
    pose proof (run_python_module_ran n a w) as Hrun;
    destruct (run_python_module E n a w) as [[run| |] w1]
  end; simpl in *; try done; [|intros [= <- <-]; left; by subst].
  quiet_bind done_; intros [= <- <-]; by right.
Qed.

Lemma run_amalgamator_without_record (form : gmap string string) (w : World)
    (resp : Response) (w' : World) :
  respond (run_amalgamator E form) w = (resp, w') ->
  form_get form "output_dir" "" = "" ∨ reports_success resp = false ->
  w' = w ∨ ran_one E w w'.
Proof.
  unfold respond, run_amalgamator. cbv zeta.
  unfold bind at 1.
  match goal with |- context [match ?m w with _ => _ end] =>
    assert (Hq : respects eq m) by (repeat respects_step);
    specialize (Hq w); destruct (m w) as [[inputs|r|e] w1]
  end; simpl in Hq; subst w1; simpl.
  2, 3: intros [= <- <-] _; by left.
  quiet_bind has_params; try (intros [= <- <-] _; by left).
  destruct (negb has_params); [intros [= <- <-] _; by left|].
  unfold bind at 1.
  match goal with |- context [run_python_module E ?n ?a w] =>
    pose proof (run_python_module_ran n a w) as Hrun;
    destruct (run_python_module E n a w) as [[run| |] w1]
  end; simpl in *; try done; [|intros [= <- <-] _; left; by subst].
  destruct (returncode run.2 =? 0) eqn:Hrc; simpl.
  2: { intros [= <- <-] _. by right. }
  destruct (nonempty (form_get form "output_dir" "")) eqn:Hout; simpl.
  2: { intros [= <- <-] _. by right. }
  unfold bind at 1.
  match goal with |- context [update_state E ?kw w1] =>
    pose proof (update_state_cases kw w1) as Hup;
    destruct (update_state E kw w1) as [[[]| |] w2]
  end; simpl in *; try done.
  - intros [= <- <-] [Hempty|Hfail]; [|done].
    rewrite Hempty in Hout. done.
  - intros [= <- <-] _. subst. by right.
Qed.

Lemma run_mssearch_never_records (form : gmap string string) (w : World)
    (resp : Response) (w' : World) :
  respond (run_mssearch E form) w = (resp, w') ->
  w' = w ∨ ran_one E w w'.
Proof.
  unfold respond, run_mssearch. cbv zeta.
  unfold bind at 1.
  match goal with |- context [match ?m w with _ => _ end] =>
    assert (Hq : respects eq m) by (repeat respects_step);
    specialize (Hq w); destruct (m w) as [[input_file|r|e] w1]
  end; simpl in Hq; subst w1; simpl.
  2, 3: intros [= <- <-]; by left.
  quiet_bind has_params; try (intros [= <- <-]; by left).
  destruct (negb has_params); [intros [= <- <-]; by left|].
  unfold bind at 1.
  match goal with |- context [run_python_module E ?n ?a w] =>
    pose proof (run_python_module_ran n a w) as Hrun;
    destruct (run_python_module E n a w) as [[run| |] w1]
  end; simpl in *; try done; intros [= <- <-]; [by right|left; by subst].
Qed.

(** The alignment stage records its output only when the output is there. *)
Lemma xcms_without_record (form : gmap string string) (w : World)
    (resp : Response) (w' : World) :
  respond (xcms E form) w = (resp, w') ->
  reports_success resp = false ->
  w' = w ∨ ran_one E w w'.
Proof.
  unfold respond, xcms. cbv zeta.
  destruct (negb (nonempty _)); [intros [= <- <-] _; by left|].
  unfold bind at 1. unfold try_except_FileNotFound, try_except.
  match goal with |- context [subprocess_call E ?c ?i w] =>
    pose proof (subprocess_call_cases c i w) as Hrun;
    destruct (subprocess_call E c i w) as [[run| |] w1]
  end; simpl in *; try done.
  2: { subst w1. destruct e; simpl; intros [= <- <-] _; by left. }
  destruct Hrun as (fs & Hrun & ->).
  unfold bind at 1. simpl. unfold bind at 1.
  match goal with |- context [exists_path ?w1 ?p] =>
    destruct (exists_path w1 p) eqn:Hex
  end.
  - match goal with |- context [update_state E ?kw ?w1] =>
      pose proof (update_state_cases kw w1) as Hup;
      destruct (update_state E kw w1) as [[[]| |] w2]
    end; simpl in *; try done.
    + by intros [= <- <-] Hs.
    + intros [= <- <-] _. subst. right.
      by exists (fst run), (Some (form_get form "mzxml_dir" "" +:+ newline +:+
                                  form_get form "report_name" "xcms_report" +:+ newline)),
                (snd run), fs.
  - simpl. intros [= <- <-] _. right.
    by exists (fst run), (Some (form_get form "mzxml_dir" "" +:+ newline +:+
                                form_get form "report_name" "xcms_report" +:+ newline)),
              (snd run), fs.
Qed.

(** What an amalgamation request does to the world, by the exit code of
    its process. *)
Lemma run_amalgamator_by_exit_code (form : gmap string string) (w : World)
    (resp : Response) (w' : World) :
  respond (run_amalgamator E form) w = (resp, w') ->
  w' = w
  ∨ ∃ argv proc fs,
      subprocess_run E argv None w = inr (proc, fs)
      ∧ let w1 := mkWorld fs (fd_regular w) (spawned w ++ [argv]) in
        if (returncode proc =? 0) && nonempty (form_get form "output_dir" "")
        then w' = snd (update_state E
                         [("amalgamator_last_csv",
                           VStr (os_path_join (form_get form "output_dir" "")
                                   "amalgamated.csv"))] w1)
        else w' = w1 ∧ reports_success resp = (returncode proc =? 0).
Proof.
  unfold respond, run_amalgamator. cbv zeta.
  unfold bind at 1.
  match goal with |- context [match ?m w with _ => _ end] =>
    assert (Hq : respects eq m) by (repeat respects_step);
    specialize (Hq w); destruct (m w) as [[inputs|r|e] w1]
  end; simpl in Hq; subst w1; simpl.
  2, 3: intros [= <- <-]; by left.
  quiet_bind has_params; try (intros [= <- <-]; by left).
  destruct (negb has_params); [intros [= <- <-]; by left|].
  unfold bind at 1.
  match goal with |- context [run_python_module E ?n ?a w] =>
    pose proof (run_python_module_cases E n a w) as Hrun;
    destruct (run_python_module E n a w) as [[[argv proc]| |] w1]
  end; simpl in *; try done; [|intros [= <- <-]; left; by subst].
  destruct Hrun as (fs & _ & Hrun & ->).
  intros Hresp. right. exists argv, proc, fs. split; [exact Hrun|].
  destruct ((returncode proc =? 0) && nonempty (form_get form "output_dir" "")) eqn:Hc.
  - revert Hresp. unfold bind at 1.
    match goal with |- context [update_state E ?kw ?w1] =>
      pose proof (update_state_cases kw w1) as Hup;
      destruct (update_state E kw w1) as [[[]| |] w2]
    end; simpl in *; try done; by intros [= <- <-].
  - revert Hresp. simpl. by intros [= <- <-].
Qed.

(** C10. A stage request without an output directory writes nothing to the
    run state store.  For the filter: all that happens to the world is the
    filter process, if it gets that far.  For the amalgamator: the same
    holds whenever the output directory is empty or the answer does not
    report success -- so [amalgamator_last_csv] is recorded only after an
    exit code of zero with an output directory given.  In both cases the
    state document is as before, as long as the executable leaves it
    alone.  By the exit code of its process: when the amalgamator exits
    with a code other than zero, or no output directory was given, the
    world after the request is exactly the world the process left and the
    answer reports success just when the code is zero; only after an exit
    code of zero with an output directory is the world that of
    [update_state(amalgamator_last_csv=...)]. *)
Theorem standalone_runs_record_only_with_output_dir
    (form : gmap string string) (w : World) :
  let out := form_get form "output_dir" "" in
  (out = "" ->
   let w' := snd (respond (run_peakfilter E form) w) in
   (w' = w ∨ ran_one E w w')
   ∧ (leaves E (STATE_PATH E) -> files w' !! STATE_PATH E = files w !! STATE_PATH E))
  ∧ (∀ resp w',
       respond (run_amalgamator E form) w = (resp, w') ->
       out = "" ∨ reports_success resp = false ->
       (w' = w ∨ ran_one E w w')
       ∧ (leaves E (STATE_PATH E) -> files w' !! STATE_PATH E = files w !! STATE_PATH E))
  ∧ (∀ resp w',
       respond (run_amalgamator E form) w = (resp, w') ->
       w' = w
       ∨ ∃ argv proc fs,
           subprocess_run E argv None w = inr (proc, fs)
           ∧ let w1 := mkWorld fs (fd_regular w) (spawned w ++ [argv]) in
             (returncode proc ≠ 0 ∨ out = "" ->
              w' = w1 ∧ reports_success resp = (returncode proc =? 0))
             ∧ (returncode proc = 0 -> out ≠ "" ->
                w' = snd (update_state E
                            [("amalgamator_last_csv",
                              VStr (os_path_join out "amalgamated.csv"))] w1))).
Proof.
  cbv zeta. split; [|split].
  - intros Hout.
    destruct (respond (run_peakfilter E form) w) as [resp w'] eqn:Hrun.
    pose proof (run_peakfilter_without_output_dir form w resp w' Hout Hrun) as H.
    split; [exact H|]. intros Hl. by apply ran_one_leaves.
  - intros resp w' Hrun Hcond.
    pose proof (run_amalgamator_without_record form w resp w' Hrun Hcond) as H.
    split; [exact H|]. intros Hl. by apply ran_one_leaves.
  - intros resp w' Hrun.
    destruct (run_amalgamator_by_exit_code form w resp w' Hrun)
      as [->|(argv & proc & fs & Hsub & H)]; [by left|].
    right. exists argv, proc, fs. split; [exact Hsub|]. cbv zeta in H. split.
    + intros [Hrc|Hout].
      * destruct (returncode proc =? 0) eqn:Hz; [lia|]. exact H.
      * rewrite Hout in H. simpl in H. by rewrite andb_false_r in H.
    + intros Hrc Hout. rewrite Hrc, (nonempty_true _ Hout) in H. exact H.
Qed.

End Standalone.

(** ** Polarity *)

Lemma prefix_append (a b s : string) :
  String.prefix (a +:+ b) s = true -> String.prefix a s = true.
Proof.
  revert s. induction a as [|c a IH]; intros s; [by destruct s|].
  destruct s as [|c' s]; simpl; [done|].
  destruct (ascii_dec c c'); [apply IH|done].
Qed.

Lemma contains_append (a b s : string) :
  contains (a +:+ b) s = true -> contains a s = true.
Proof.
  induction s as [|c s IH].
  - by destruct a.
  - cbn [contains]. intros H. apply orb_true_iff in H as [H|H]; apply orb_true_iff.
    + left. by apply (prefix_append a b).
    + right. by apply IH.
Qed.

Lemma contains_neg (l : string) :
  contains "neg" l || contains "negative" l = contains "neg" l.
Proof.
  destruct (contains "neg" l) eqn:Hn; [done|]. simpl.
  destruct (contains "negative" l) eqn:Hl; [|done].
  apply (contains_append "neg" "ative") in Hl. congruence.
Qed.

Lemma contains_pos (l : string) :
  contains "pos" l || contains "positive" l = contains "pos" l.
Proof.
  destruct (contains "pos" l) eqn:Hn; [done|]. simpl.
  destruct (contains "positive" l) eqn:Hl; [|done].
  apply (contains_append "pos" "itive") in Hl. congruence.
Qed.

Section PolarityInference.

Variable E : Env.

Lemma xcms_records (form : gmap string string) (w : World) proc fs :
  let rscript_path := form_get form "rscript_path" "Rscript" in
  let mzxml_dir := form_get form "mzxml_dir" "" in
  let report_name := form_get form "report_name" "xcms_report" in
  let rp := path_div E mzxml_dir (report_name +:+ ".csv") in
  let w1 := mkWorld fs (fd_regular w)
              (spawned w ++ [[rscript_path; DOCS_DIR E +:+ "/xcms.R"]]) in
  mzxml_dir ≠ "" ->
  subprocess_run E [rscript_path; DOCS_DIR E +:+ "/xcms.R"]
    (Some (mzxml_dir +:+ newline +:+ report_name +:+ newline)) w = inr (proc, fs) ->
  exists_path w1 rp = true ->
  snd (respond (xcms E form) w) =
  snd (update_state E
         (("xcms_last_csv", VStr rp) ::
          match inferPolarity rp with
          | Negative => [("xcms_last_negative_csv", VStr rp)]
          | Positive => [("xcms_last_positive_csv", VStr rp)]
          | Unknown => []
          end) w1).
Proof.
  cbv zeta. intros Hdir Hrun Hex.
  rewrite respond_snd. unfold xcms. cbv zeta.
  rewrite (nonempty_true _ Hdir). cbn [negb].
  unfold bind at 1. unfold try_except_FileNotFound, try_except, subprocess_call.
  cbn [as_strings]. rewrite Hrun.
  unfold bind at 1. unfold get_world. cbn [fst snd].
  rewrite Hex. unfold inferPolarity. cbv zeta.
  unfold bind at 1.
  destruct (contains "neg" _ || contains "negative" _);
    [|destruct (contains "pos" _ || contains "positive" _)];
    match goal with |- context [update_state E ?kw ?w1] =>
      by destruct (update_state E kw w1) as [[[]| |] w2]
    end.
Qed.

(** X26. How polarity is read, and where.  [inferPolarity] reads a text
    without regard to case, [neg]/[negative] before [pos]/[positive]: texts
    equal up to case get the same polarity, one with [neg] in it is
    negative whatever else it holds, one with [pos] but no [neg] is
    positive, and one with neither is of unknown polarity.  The alignment
    request applies it to the whole path of its report, directory
    included, and files the report under the key of that polarity next to
    the generic key.  The input resolution of a full pipeline run given
    neither input takes the polarity-specific entries of the state when
    there is one; only otherwise does it turn to the generic entry, which
    it puts on the branch the last component of its path indicates -- and
    on the negative branch when that indicates none.  Accordingly such a
    run, the parameter files in place, starts the filter on the generic
    entry, logged as the negative filter unless the name is positive; when
    that process exits with a code other than zero, it is all that is
    run. *)
Theorem polarity_inference (w : World) (d : dict) :
  (∀ a b, lower a = lower b -> inferPolarity a = inferPolarity b)
  ∧ (∀ f, contains "neg" (lower f) = true -> inferPolarity f = Negative)
  ∧ (∀ f, contains "neg" (lower f) = false -> contains "pos" (lower f) = true ->
          inferPolarity f = Positive)
  ∧ (∀ f, contains "neg" (lower f) = false -> contains "pos" (lower f) = false ->
          inferPolarity f = Unknown)
  ∧ (∀ form proc fs,
       let rscript_path := form_get form "rscript_path" "Rscript" in
       let mzxml_dir := form_get form "mzxml_dir" "" in
       let report_name := form_get form "report_name" "xcms_report" in
       let rp := path_div E mzxml_dir (report_name +:+ ".csv") in
       let w1 := mkWorld fs (fd_regular w)
                   (spawned w ++ [[rscript_path; DOCS_DIR E +:+ "/xcms.R"]]) in
       mzxml_dir ≠ "" ->
       subprocess_run E [rscript_path; DOCS_DIR E +:+ "/xcms.R"]
         (Some (mzxml_dir +:+ newline +:+ report_name +:+ newline)) w = inr (proc, fs) ->
       exists_path w1 rp = true ->
       snd (respond (xcms E form) w) =
       snd (update_state E
              (("xcms_last_csv", VStr rp) ::
               match inferPolarity rp with
               | Negative => [("xcms_last_negative_csv", VStr rp)]
               | Positive => [("xcms_last_positive_csv", VStr rp)]
               | Unknown => []
               end) w1))
  ∧ (stored (files w !! STATE_PATH E) = VDict d ->
     let n := dict_get "xcms_last_negative_csv" d in
     let p := dict_get "xcms_last_positive_csv" d in
     (truthy n || truthy p = true ->
      resolve_top_inputs E (VStr "") (VStr "") w
      = (Next (py_or n (VStr ""), py_or p (VStr "")), w))
     ∧ (truthy n || truthy p = false ->
        ∀ generic,
          dict_get "xcms_last_csv" d = VStr generic ->
          generic ≠ "" -> isfile w generic = true ->
          resolve_top_inputs E (VStr "") (VStr "") w
          = (Next (match inferPolarity (path_name E generic) with
                   | Negative | Unknown => (VStr generic, py_or p (VStr ""))
                   | Positive => (py_or n (VStr ""), VStr generic)
                   end), w)))
  ∧ (stored (files w !! STATE_PATH E) = VDict d ->
     ∀ form generic proc fs,
       let out := form_get form "output_dir" "" in
       let argv := filter_argv E generic out (form_bool form "verbose")
                     (form_bool form "timestamp") in
       let title := match inferPolarity (path_name E generic) with
                    | Positive => "PeakFilter (positive)"
                    | Negative | Unknown => "PeakFilter (negative)"
                    end in
       form_get form "neg_input" "" = "" -> form_get form "pos_input" "" = "" ->
       out ≠ "" ->
       truthy (dict_get "xcms_last_negative_csv" d)
       || truthy (dict_get "xcms_last_positive_csv" d) = false ->
       dict_get "xcms_last_csv" d = VStr generic ->
       generic ≠ "" -> isfile w generic = true ->
       isfile w (config_file E "peakfilter.json") = true ->
       isfile w (config_file E "amalgamator.json") = true ->
       isfile w (config_file E "mssearch.json") = true ->
       subprocess_run E argv None w = inr (proc, fs) ->
       returncode proc ≠ 0 ->
       respond (run_pipeline_full E form) w =
         (halted out [log_entry title argv proc],
          mkWorld fs (fd_regular w) (spawned w ++ [argv]))).
Proof.
  assert (Hres : stored (files w !! STATE_PATH E) = VDict d ->
    truthy (dict_get "xcms_last_negative_csv" d)
    || truthy (dict_get "xcms_last_positive_csv" d) = false ->
    ∀ generic,
      dict_get "xcms_last_csv" d = VStr generic ->
      generic ≠ "" -> isfile w generic = true ->
      resolve_top_inputs E (VStr "") (VStr "") w
      = (Next (match inferPolarity (path_name E generic) with
               | Negative | Unknown =>
                   (VStr generic, py_or (dict_get "xcms_last_positive_csv" d) (VStr ""))
               | Positive =>
                   (py_or (dict_get "xcms_last_negative_csv" d) (VStr ""), VStr generic)
               end), w)).
  { intros Hst Hfalsy generic Hg Hne Hfile.
    apply orb_false_iff in Hfalsy as [Hn Hp].
    unfold resolve_top_inputs. cbn [truthy String.eqb negb orb].
    unfold bind at 1. rewrite read_state_stored, Hst.
    unfold bind at 1. unfold py_get at 1. cbn [ret].
    unfold bind at 1. unfold py_get at 1. cbn [ret].
    unfold bind at 1.
    unfold py_or. rewrite Hn, Hp. cbn [truthy String.eqb negb orb].
    unfold bind at 1. unfold py_get at 1. cbn [ret]. rewrite Hg.
    unfold bind at 1.
    rewrite (nonempty_true _ Hne : truthy (VStr generic) = true).
    unfold os_path_isfile. rewrite Hfile.
    unfold bind at 1. unfold path_name_lower, ret.
    unfold inferPolarity. cbv zeta.
    destruct (contains "neg" _ || contains "negative" _);
      [|destruct (contains "pos" _ || contains "positive" _)];
      cbn [fst snd truthy]; by rewrite (nonempty_true _ Hne : negb (String.eqb generic "") = true). }
  split; [|split; [|split; [|split; [|split; [|split]]]]].
  - intros a b Hab. unfold inferPolarity. by rewrite Hab.
  - intros f Hf. unfold inferPolarity. cbv zeta. by rewrite Hf.
  - intros f Hn Hp. unfold inferPolarity. cbv zeta.
    by rewrite contains_neg, Hn, Hp.
  - intros f Hn Hp. unfold inferPolarity. cbv zeta.
    by rewrite contains_neg, contains_pos, Hn, Hp.
  - intros form proc fs. apply xcms_records.
  - intros Hst. cbv zeta. split.
    + intros Htruthy. unfold resolve_top_inputs. cbn [truthy String.eqb negb orb].
      unfold bind at 1. rewrite read_state_stored, Hst.
      unfold bind at 1. unfold py_get at 1. cbn [ret].
      unfold bind at 1. unfold py_get at 1. cbn [ret].
      unfold bind at 1.
      assert (Hor : truthy (py_or (dict_get "xcms_last_negative_csv" d) (VStr ""))
                    || truthy (py_or (dict_get "xcms_last_positive_csv" d) (VStr ""))
                    = true).
      { unfold py_or.
        destruct (truthy (dict_get "xcms_last_negative_csv" d)) eqn:Hn;
          [by rewrite Hn|].
        simpl in Htruthy. by rewrite Htruthy, Htruthy, orb_true_r. }
      rewrite Hor. simpl. by rewrite Hor.
    + by apply Hres.
  - intros Hst form generic proc fs. cbv zeta.
    intros Hnegin Hposin Hout Hfalsy Hg Hne Hfile Hpf Ham Hms Hrun Hrc.
    specialize (Hres Hst Hfalsy generic Hg Hne Hfile).
    apply orb_false_iff in Hfalsy as [Hn Hp].
    unfold py_or in Hres. rewrite Hn, Hp in Hres.
    assert (Hz : (returncode proc =? 0) = false) by lia.
    assert (Htr : truthy (VStr generic) = true) by exact (nonempty_true _ Hne).
    unfold respond, run_pipeline_full. cbv zeta.
    rewrite (nonempty_true _ Hout), Hnegin, Hposin. cbn [negb].
    unfold bind at 1. rewrite Hres.
    destruct (inferPolarity (path_name E generic)); cbn [fst snd];
      unfold bind at 1; unfold get_world at 1;
      rewrite missing_parameters_eq by (by rewrite Htr, ?orb_true_r);
      rewrite Hpf, Ham, Hms; cbn [app];
      unfold bind at 1.
    + rewrite (filter_stage_run E _ _ _ _ _ _ _ _ _ _ Hne Hrun). by rewrite Hz.
    + unfold filter_stage at 1. cbn [truthy String.eqb negb].
      unfold ret at 1. cbn [fst snd]. unfold bind at 1.
      rewrite (filter_stage_run E _ _ _ _ _ _ _ _ _ _ Hne Hrun). by rewrite Hz.
    + rewrite (filter_stage_run E _ _ _ _ _ _ _ _ _ _ Hne Hrun). by rewrite Hz.
Qed.

End PolarityInference.

(** ** On the sample installation *)

(** C1, the failing input.  Scenario A of the specification: both inputs
    given, the three parameter sets saved, all four stages succeed.  The
    claim has [amalgamator_last_csv] recorded afterwards; the state store
    is as empty as before.  The same two stages requested on their own, on
    the same installation, do record where they wrote: the amalgamation
    leaves [amalgamator_last_csv] and the filter leaves
    [peakfilter_last_negative_summary] in the store. *)
Lemma pipeline_records_nothing :
  let E := sample_env 0 in
  let r := respond (run_pipeline_full E scenario_A) (on_disk configured) in
  match fst r with
  | PipelineVisualize true "/out" logs _ _ _ _ _ =>
      map log_title logs
      = ["PeakFilter (negative)"; "PeakFilter (positive)"; "Amalgamator"; "MSSearch"]
  | _ => False
  end
  ∧ last (spawned (snd r))
    = Some ["/usr/bin/python3"; "-m"; "LipidFinder.run_mssearch";
            "-i"; "/out/amalgamated.csv";
            "-p"; "/app/webapp/config/mssearch_web_pipeline.json"; "-o"; "/out"]
  ∧ files (snd r) !! STATE_PATH E = None
  ∧ fst (read_state E (snd r)) = Next (VDict [])
  ∧ fst (read_state E (snd r))
    ≠ Next (VDict [("amalgamator_last_csv", VStr "/out/amalgamated.csv")])
  ∧ files (snd (respond (run_amalgamator E
                           (form_of [("neg_file", "/out/peakfilter_negative_summary.csv");
                                     ("pos_file", "/out/peakfilter_positive_summary.csv");
                                     ("output_dir", "/out")]))
                  (on_disk configured))) !! STATE_PATH E
    = Some (Json (VDict [("amalgamator_last_csv", VStr "/out/amalgamated.csv")]))
  ∧ files (snd (respond (run_peakfilter E
                           (form_of [("input_path", "/data/neg.csv");
                                     ("output_dir", "/out")]))
                  (on_disk configured))) !! STATE_PATH E
    = Some (Json (VDict [("peakfilter_last_negative_summary",
                          VStr "/out/peakfilter_negative_summary.csv")])).
Proof. vm_compute. repeat split; congruence. Qed.

(** C2, the failing input.  The state names an amalgamated file that is no
    longer on disk and a negative summary that is.  A search request
    without input is run on the deleted file; an amalgamation request
    without inputs is run on two deleted summaries. *)
Lemma search_takes_stale_entry :
  let E := sample_env 0 in
  isfile (on_disk stale_state) "/old/amalgamated.csv" = false
  ∧ isfile (on_disk stale_state) "/out/peakfilter_negative_summary.csv" = true
  ∧ spawned (snd (respond (run_mssearch E (form_of [])) (on_disk stale_state)))
    = [["/usr/bin/python3"; "-m"; "LipidFinder.run_mssearch";
        "-i"; "/old/amalgamated.csv"; "-p"; "/app/webapp/config/mssearch.json"]]
  ∧ isfile (on_disk deleted_summaries) "/gone/neg_summary.csv" = false
  ∧ isfile (on_disk deleted_summaries) "/gone/pos_summary.csv" = false
  ∧ spawned (snd (respond (run_amalgamator E (form_of [])) (on_disk deleted_summaries)))
    = [["/usr/bin/python3"; "-m"; "LipidFinder.run_amalgamator";
        "-neg"; "/gone/neg_summary.csv"; "-pos"; "/gone/pos_summary.csv";
        "-p"; "/app/webapp/config/amalgamator.json"]].
Proof. vm_compute. repeat split. Qed.

(** C3, instances: with executables that exit with code 1, scenario A ends
    after the negative filter; with an amalgamator that exits with code 1
    and filters that exit with code 0, it ends after the amalgamator. *)
Lemma pipeline_stops_at_first_failure_witness :
  respond (run_pipeline_full (sample_env 1) scenario_A) (on_disk configured)
  = (halted "/out"
       [log_entry "PeakFilter (negative)"
          (filter_argv (sample_env 1) "/data/neg.csv" "/out" false false)
          (mkProc "" "" 1)],
     mkWorld (files (on_disk configured)) ∅
       [filter_argv (sample_env 1) "/data/neg.csv" "/out" false false])
  ∧ (let E := failing_env "LipidFinder.run_amalgamator" in
     respond (run_pipeline_full E scenario_A) (on_disk configured)
     = (halted "/out"
          [log_entry "PeakFilter (negative)"
             (filter_argv E "/data/neg.csv" "/out" false false) (mkProc "" "" 0);
           log_entry "PeakFilter (positive)"
             (filter_argv E "/data/pos.csv" "/out" false false) (mkProc "" "" 0);
           log_entry "Amalgamator" (amalgamate_argv E "/out") (mkProc "" "" 1)],
        mkWorld (files (on_disk configured)) ∅
          [filter_argv E "/data/neg.csv" "/out" false false;
           filter_argv E "/data/pos.csv" "/out" false false;
           amalgamate_argv E "/out"])).
Proof.
  split.
  - apply (proj1 (proj2 (pipeline_stops_at_first_failure (sample_env 1) scenario_A
                    (on_disk configured))) (mkProc "" "" 1) (files (on_disk configured)));
      vm_compute; congruence.
  - cbv zeta.
    apply (proj1 (proj2 (proj2 (proj2 (proj2 (pipeline_stops_at_first_failure
                    (failing_env "LipidFinder.run_amalgamator") scenario_A
                    (on_disk configured))))
                    (mkProc "" "" 0) (files (on_disk configured))
                    (mkProc "" "" 0) (files (on_disk configured))
                    ltac:(vm_compute; congruence) ltac:(vm_compute; congruence)
                    ltac:(vm_compute; congruence) ltac:(vm_compute; reflexivity)
                    ltac:(reflexivity) ltac:(reflexivity) ltac:(reflexivity))
                    ltac:(reflexivity) (mkProc "" "" 1) (files (on_disk configured))
                    ltac:(reflexivity)));
      vm_compute; congruence.
Defined.

(** C4, instances: no output directory; no parameter file at all. *)
Lemma pipeline_preconditions_witness :
  respond (run_pipeline_full (sample_env 0) (form_of [("neg_input", "/data/neg.csv")]))
    (on_disk configured)
  = (Redirect "pipeline" "Please provide an output directory for the pipeline.",
     on_disk configured)
  ∧ respond (run_pipeline_full (sample_env 0) scenario_A) (on_disk [])
    = (Redirect "pipeline"
         "Missing parameters for: PeakFilter, Amalgamator, MSSearch. Configure them under Params.",
       on_disk []).
Proof.
  split.
  - apply (proj1 (pipeline_preconditions (sample_env 0)
                    (form_of [("neg_input", "/data/neg.csv")]) (on_disk configured))).
    vm_compute. reflexivity.
  - apply (proj1 (proj2 (pipeline_preconditions (sample_env 0) scenario_A (on_disk []))
                    ltac:(vm_compute; congruence) ltac:(vm_compute; congruence))
             (VStr "/data/neg.csv", VStr "/data/pos.csv")).
    vm_compute. reflexivity.
Defined.

(** C5, the failing input.  A filter request with an output directory whose
    process exits with code 1: the answer reports the failure, and the
    state store, empty before, now names a summary of that run. *)
Lemma peakfilter_records_after_failure :
  let E := sample_env 1 in
  let form := form_of [("input_path", "/data/neg.csv"); ("output_dir", "/out")] in
  let r := respond (run_peakfilter E form) (on_disk configured) in
  reports_success (fst r) = false
  ∧ files (on_disk configured) !! STATE_PATH E = None
  ∧ files (snd r) !! STATE_PATH E
    = Some (Json (VDict [("peakfilter_last_negative_summary",
                          VStr "/out/peakfilter_negative_summary.csv")])).
Proof. vm_compute. repeat split. Qed.

(** C6, instance: no state file yet. *)
Lemma read_state_unreadable_is_empty_witness :
  read_state (sample_env 0) (on_disk configured)
  = (Next (VDict []), on_disk configured).
Proof.
  apply read_state_unreadable_is_empty. left. vm_compute. reflexivity.
Defined.

(** C7, instance: [update_state(a="x")] twice on a fresh installation. *)
Lemma update_state_merges_and_is_idempotent_witness :
  let E := sample_env 0 in
  let w1 := snd (update_state E [("a", VStr "x")] (on_disk configured)) in
  snd (update_state E [("a", VStr "x")] w1) = w1
  ∧ files w1 !! STATE_PATH E = Some (Json (VDict [("a", VStr "x")])).
Proof.
  cbv zeta.
  pose proof (update_state_merges_and_is_idempotent (sample_env 0)
                [("a", VStr "x")] (on_disk configured)) as (H1 & H2 & _).
  split; [exact H1|].
  apply (H2 []); vm_compute; congruence.
Defined.

(** C8, counterexample.  Category plotting was saved as off; the pipeline
    run succeeds and its overlay still has it off. *)
Lemma overlay_keeps_plotting_off :
  let E := sample_env 0 in
  let r := respond (run_pipeline_full E scenario_A) (on_disk plotting_off) in
  reports_success (fst r) = true
  ∧ ∃ d, files (snd r) !! config_file E "mssearch_web_pipeline.json"
         = Some (Json (VDict d))
         ∧ dict_get "plotCategories" d = VBool false
         ∧ dict_get "plotCategories" d ≠ VBool true.
Proof.
  vm_compute. split; [reflexivity|].
  eexists. split; [reflexivity|]. vm_compute. split; congruence.
Qed.

(** C8, instance: the overlay of the parameters saved with plotting off. *)
Lemma search_overlay_keeps_saved_choices_witness :
  write_search_overlay (sample_env 0) (on_disk plotting_off)
  = (Next (VDict [("plotCategories", VBool false); ("database", VStr "COMP_DB");
                  ("summary", VBool true); ("figFormat", VStr "png")]),
     mkWorld (<["/app/webapp/config/mssearch_web_pipeline.json" :=
                 Json (VDict [("plotCategories", VBool false);
                              ("database", VStr "COMP_DB");
                              ("summary", VBool true); ("figFormat", VStr "png")])]>
                (files (on_disk plotting_off))) ∅ []).
Proof.
  apply (proj1 (search_overlay_keeps_saved_choices (sample_env 0)
                  [("plotCategories", VBool false); ("database", VStr "COMP_DB")]
                  (on_disk plotting_off) "/out/amalgamated.csv" "/out" []
                  ltac:(vm_compute; reflexivity) ltac:(vm_compute; congruence))).
Defined.

(** C9, the failing input.  An alignment of the directory [/data/neg]
    whose report is named [pos_run].  By its name the report is positive;
    the alignment request, which reads the whole path, files it as
    negative, and a full pipeline run without inputs then runs it as the
    negative input.  The two other places that infer a polarity read the
    name: the filter requested on that very file records a positive
    summary, and the pipeline's own resolution, finding the file under the
    generic key only, makes it the positive input. *)
Lemma xcms_takes_polarity_from_directory :
  let E := sample_env 0 in
  let rp := "/data/neg/pos_run.csv" in
  let w1 := snd (respond (xcms E align_pos_run) (on_disk pos_report)) in
  path_name E rp = "pos_run.csv"
  ∧ inferPolarity (path_name E rp) = Positive
  ∧ inferPolarity rp = Negative
  ∧ files w1 !! STATE_PATH E
    = Some (Json (VDict [("xcms_last_csv", VStr rp);
                         ("xcms_last_negative_csv", VStr rp)]))
  ∧ fst (resolve_top_inputs E (VStr "") (VStr "") w1) = Next (VStr rp, VStr "")
  ∧ match fst (respond (run_pipeline_full E (form_of [("output_dir", "/out")])) w1) with
    | PipelineVisualize true "/out" logs _ _ _ _ _ =>
        map log_title logs = ["PeakFilter (negative)"; "MSSearch"]
    | _ => False
    end
  ∧ files (snd (respond (run_peakfilter E
                           (form_of [("input_path", rp); ("output_dir", "/out")]))
                  (on_disk pos_report))) !! STATE_PATH E
    = Some (Json (VDict [("peakfilter_last_positive_summary",
                          VStr "/out/peakfilter_positive_summary.csv")]))
  ∧ fst (resolve_top_inputs E (VStr "") (VStr "") (on_disk pos_report_generic))
    = Next (VStr "", VStr rp).
Proof. vm_compute. repeat split. Qed.

(** X26, instances: the only alignment output recorded is [run7.csv]; the
    pipeline runs it as the negative input, and with a filter that exits
    with code 1 that is all it runs. *)
Lemma polarity_inference_witness :
  resolve_top_inputs (sample_env 0) (VStr "") (VStr "") (on_disk generic_only)
  = (Next (VStr "/data/run7.csv", VStr ""), on_disk generic_only)
  ∧ respond (run_pipeline_full (sample_env 1) (form_of [("output_dir", "/out")]))
      (on_disk generic_only)
    = (halted "/out"
         [log_entry "PeakFilter (negative)"
            (filter_argv (sample_env 1) "/data/run7.csv" "/out" false false)
            (mkProc "" "" 1)],
       mkWorld (files (on_disk generic_only)) ∅
         [filter_argv (sample_env 1) "/data/run7.csv" "/out" false false]).
Proof.
  split.
  - pose proof (polarity_inference (sample_env 0) (on_disk generic_only)
                  [("xcms_last_csv", VStr "/data/run7.csv")])
      as (_ & _ & _ & _ & _ & H & _).
    destruct H as [_ H]; [vm_compute; reflexivity|].
    apply (H eq_refl "/data/run7.csv"); vm_compute; congruence.
  - pose proof (polarity_inference (sample_env 1) (on_disk generic_only)
                  [("xcms_last_csv", VStr "/data/run7.csv")])
      as (_ & _ & _ & _ & _ & _ & H).
    apply (H ltac:(vm_compute; reflexivity) (form_of [("output_dir", "/out")])
             "/data/run7.csv" (mkProc "" "" 1) (files (on_disk generic_only)));
      vm_compute; congruence.
Defined.

(** C10, instances: a filter request without output directory on a fresh
    installation leaves no state file; neither does an amalgamation with
    an output directory whose process exits with code 1; the same
    amalgamation exiting with code 0 records the amalgamated file. *)
Lemma standalone_runs_record_only_with_output_dir_witness :
  let form := form_of [("input_path", "/data/neg.csv")] in
  let both := form_of [("neg_file", "/out/peakfilter_negative_summary.csv");
                       ("pos_file", "/out/peakfilter_positive_summary.csv");
                       ("output_dir", "/out")] in
  files (snd (respond (run_peakfilter (sample_env 0) form) (on_disk configured)))
    !! STATE_PATH (sample_env 0)
  = files (on_disk configured) !! STATE_PATH (sample_env 0)
  ∧ files (snd (respond (run_amalgamator (sample_env 1) both) (on_disk configured)))
      !! STATE_PATH (sample_env 1)
    = files (on_disk configured) !! STATE_PATH (sample_env 1)
  ∧ files (snd (respond (run_amalgamator (sample_env 0) both) (on_disk configured)))
      !! STATE_PATH (sample_env 0)
    = Some (Json (VDict [("amalgamator_last_csv", VStr "/out/amalgamated.csv")])).
Proof.
  cbv zeta. split; [|split].
  - apply (proj1 (standalone_runs_record_only_with_output_dir (sample_env 0)
                    (form_of [("input_path", "/data/neg.csv")]) (on_disk configured))
             ltac:(vm_compute; reflexivity)).
    intros argv input w proc fs H. vm_compute in H. by inversion H.
  - destruct (respond (run_amalgamator (sample_env 1) _) (on_disk configured))
      as [resp w'] eqn:Hrun.
    apply (proj1 (proj2 (standalone_runs_record_only_with_output_dir (sample_env 1) _
                           (on_disk configured))) resp w' Hrun).
    + right. vm_compute in Hrun. by injection Hrun as <- <-.
    + intros argv input w proc fs H. vm_compute in H. by inversion H.
  - destruct (respond (run_amalgamator (sample_env 0) _) (on_disk configured))
      as [resp w'] eqn:Hrun.
    destruct (proj2 (proj2 (standalone_runs_record_only_with_output_dir (sample_env 0) _
                              (on_disk configured))) resp w' Hrun)
      as [Hw|(argv & proc & fs & Hsub & _ & Hrec)].
    + vm_compute in Hrun. injection Hrun as <- <-. by vm_compute in Hw.
    + vm_compute in Hsub. injection Hsub as <- <-.
      rewrite (Hrec eq_refl ltac:(vm_compute; congruence)). by vm_compute.
Defined.

(** * Further properties of the requests *)

(** ** The state store read back *)

Section StoreRoundTrip.

Variable E : Env.

(** X1. What [update_state] writes is what [read_state] returns next: after
    an update of a state document that is a map (or unreadable, hence
    empty), reading gives that map with the entries of [kwargs] other than
    [None] merged in, and a key given a value by [kwargs] reads as that
    value. *)
Theorem state_written_is_state_read (kwargs : dict) (d : dict) (w : World) :
  stored (files w !! STATE_PATH E) = VDict d ->
  files w !! STATE_PATH E ≠ Some Directory ->
  let w1 := snd (update_state E kwargs w) in
  read_state E w1 = (Next (VDict (merged kwargs d)), w1)
  ∧ (∀ k v, NoDup (keys kwargs) -> In (k, v) kwargs -> v ≠ VNone ->
            py_get (VDict (merged kwargs d)) k w1 = (Next v, w1)).
Proof.
  intros Hst Hdir. cbv zeta. split.
  - rewrite read_state_stored.
    rewrite (update_state_dict E kwargs d w Hst Hdir). simpl.
    by rewrite lookup_insert_eq.
  - intros k v Hnd Hin Hv. unfold py_get, ret, dict_get.
    rewrite (merged_find_mentioned kwargs k v d Hnd Hin); [done|].
    by destruct v.
Qed.

End StoreRoundTrip.

(** ** The alignment request *)

Section Alignment.

Variable E : Env.

Lemma xcms_run (form : gmap string string) (w : World) proc fs :
  form_get form "mzxml_dir" "" ≠ "" ->
  subprocess_run E (xcms_argv E form) (Some (xcms_input form)) w = inr (proc, fs) ->
  let w1 := mkWorld fs (fd_regular w) (spawned w ++ [xcms_argv E form]) in
  let rp := xcms_result_path E form in
  let page success :=
    RunResult "XCMS Run"
      (form_get form "rscript_path" "Rscript" +:+ " " +:+ DOCS_DIR E +:+ "/xcms.R")
      success rp (stdout proc) (stderr proc) in
  respond (xcms E form) w =
    if exists_path w1 rp then
      match update_state E
              (("xcms_last_csv", VStr rp) ::
               match inferPolarity rp with
               | Negative => [("xcms_last_negative_csv", VStr rp)]
               | Positive => [("xcms_last_positive_csv", VStr rp)]
               | Unknown => []
               end) w1 with
      | (Raise e, w2) => (Crash e, w2)
      | (_, w2) => (page true, w2)
      end
    else (page false, w1).
Proof.
  cbv zeta. intros Hdir Hrun.
  unfold respond, xcms. cbv zeta.
  rewrite (nonempty_true _ Hdir). cbn [negb].
  unfold bind at 1. unfold try_except_FileNotFound, try_except, subprocess_call.
  cbn [as_strings]. fold (xcms_argv E form). fold (xcms_input form). rewrite Hrun.
  unfold bind at 1. unfold get_world. cbn [fst snd].
  fold (xcms_result_path E form).
  destruct (exists_path _ (xcms_result_path E form)) eqn:Hex; [|done].
  unfold inferPolarity. cbv zeta. unfold bind at 1.
  destruct (contains "neg" _ || contains "negative" _);
    [|destruct (contains "pos" _ || contains "positive" _)];
    match goal with |- context [update_state E ?kw ?w1] =>
      pose proof (update_state_cases E kw w1) as Hup;
      by destruct (update_state E kw w1) as [[[]| |] w2]
    end.
Qed.

(** X2. The alignment request judges success by its output alone: when the
    process could be started and the state document is a map (or
    unreadable), the answer reports success exactly when the expected
    report exists after the run -- whatever the exit code of the process --
    and shows the process's output streams. *)
Theorem xcms_success_is_output_existence (form : gmap string string) (w : World)
    proc fs (d : dict) :
  form_get form "mzxml_dir" "" ≠ "" ->
  subprocess_run E (xcms_argv E form) (Some (xcms_input form)) w = inr (proc, fs) ->
  stored (fs !! STATE_PATH E) = VDict d ->
  fs !! STATE_PATH E ≠ Some Directory ->
  fst (respond (xcms E form) w) =
    RunResult "XCMS Run"
      (form_get form "rscript_path" "Rscript" +:+ " " +:+ DOCS_DIR E +:+ "/xcms.R")
      (exists_path (mkWorld fs (fd_regular w) (spawned w ++ [xcms_argv E form]))
         (xcms_result_path E form))
      (xcms_result_path E form) (stdout proc) (stderr proc).
Proof.
  intros Hdir Hrun Hst Hnd.
  rewrite (xcms_run form w proc fs Hdir Hrun). cbv zeta.
  destruct (exists_path _ _); [|done].
  match goal with |- context [update_state E ?kw ?w1] =>
    rewrite (update_state_dict E kw d w1 Hst Hnd)
  end.
  done.
Qed.

(** X3. The alignment request gives up before any process when no
    directory is given, and answers a missing [Rscript] with a notice; in
    both cases the world is untouched.  Any other failure to start the
    process leaves the view function as an exception, the world again
    untouched. *)
Theorem xcms_launch_failures (form : gmap string string) (w : World) :
  (form_get form "mzxml_dir" "" = "" ->
   respond (xcms E form) w =
     (Redirect "xcms" "Please provide the mzXML directory path.", w))
  ∧ (form_get form "mzxml_dir" "" ≠ "" ->
     ∀ e, subprocess_run E (xcms_argv E form) (Some (xcms_input form)) w = inl e ->
          respond (xcms E form) w =
            (match e with
             | FileNotFoundError =>
                 Redirect "xcms" "Rscript not found. Please set the correct Rscript path."
             | _ => Crash e
             end, w)).
Proof.
  split.
  - intros Hdir. unfold respond, xcms. cbv zeta. by rewrite Hdir.
  - intros Hdir e Hrun. unfold respond, xcms. cbv zeta.
    rewrite (nonempty_true _ Hdir). cbn [negb].
    unfold bind at 1. unfold try_except_FileNotFound, try_except, subprocess_call.
    cbn [as_strings]. fold (xcms_argv E form). fold (xcms_input form). rewrite Hrun.
    by destruct e.
Qed.

(** X4. An alignment request whose answer does not report success has
    recorded nothing: all that happened to the world is the process, if one
    was started, and the state document is as before as long as the process
    leaves it alone. *)
Theorem xcms_records_only_with_output (form : gmap string string) (w : World)
    (resp : Response) (w' : World) :
  respond (xcms E form) w = (resp, w') ->
  reports_success resp = false ->
  (w' = w ∨ ran_one E w w')
  ∧ (leaves E (STATE_PATH E) -> files w' !! STATE_PATH E = files w !! STATE_PATH E).
Proof.
  intros Hrun Hfail.
  pose proof (xcms_without_record E form w resp w' Hrun Hfail) as H.
  split; [exact H|]. intros Hl. by apply (ran_one_leaves E).
Qed.

End Alignment.

(** ** The stage requests: inputs, parameters, records *)

Lemma respond_bind_next {A} (m : M A) (k : A -> M Response) (w w1 : World) (a : A) :
  m w = (Next a, w1) -> respond (bind m k) w = respond (k a) w1.
Proof. intros H. unfold respond, bind. by rewrite H. Qed.

Lemma respond_bind_return {A} (m : M A) (k : A -> M Response) (w w1 : World) r :
  m w = (Return r, w1) -> respond (bind m k) w = (r, w1).
Proof. intros H. unfold respond, bind. by rewrite H. Qed.

Lemma as_strings_app (l1 l2 : list value) (s1 s2 : list string) :
  as_strings l1 = Some s1 -> as_strings l2 = Some s2 ->
  as_strings (l1 ++ l2) = Some (s1 ++ s2).
Proof.
  revert s1. induction l1 as [|v r IH]; intros s1; simpl.
  - by intros [= <-].
  - destruct v; try done. destruct (as_strings r) as [r'|] eqn:Hr; [|done].
    intros [= <-] H2. by rewrite (IH r' eq_refl H2).
Qed.

Section StageRequests.

Variable E : Env.

(** An update inside [try: ... except Exception: pass]. *)
Lemma try_update_state (kwargs : dict) (w : World) :
  try_except (update_state E kwargs) (fun _ => ret tt) w
  = (Next tt, snd (update_state E kwargs w)).
Proof.
  unfold try_except. pose proof (update_state_cases E kwargs w) as H.
  destruct (update_state E kwargs w) as [[[]| |] w1]; simpl in *; subst; done.
Qed.

Lemma run_python_module_strs (name : string) (args : list string) (w : World) proc fs :
  subprocess_run E (module_argv E name args) None w = inr (proc, fs) ->
  run_python_module E name (map VStr args) w =
    (Next (module_argv E name args, proc),
     mkWorld fs (fd_regular w) (spawned w ++ [module_argv E name args])).
Proof.
  intros Hrun. unfold run_python_module, subprocess_call.
  change ([VStr (sys_executable E); VStr "-m"; VStr name] ++ map VStr args)
    with (map VStr (module_argv E name args)).
  by rewrite as_strings_strs, Hrun.
Qed.

Lemma peakfilter_args_strs (form : gmap string string) (p : string) :
  [VStr "-i"; VStr p; VStr "-p";
   VStr (form_get form "params_path" (config_file E "peakfilter.json"))]
  ++ (if nonempty (form_get form "output_dir" "")
      then [VStr "-o"; VStr (form_get form "output_dir" "")] else [])
  ++ (if form_bool form "verbose" then [VStr "--verbose"] else [])
  ++ (if form_bool form "timestamp" then [VStr "--timestamp"] else [])
  = map VStr
      (["-i"; p; "-p"; form_get form "params_path" (config_file E "peakfilter.json")]
       ++ output_args (form_get form "output_dir" "")
       ++ (if form_bool form "verbose" then ["--verbose"] else [])
       ++ (if form_bool form "timestamp" then ["--timestamp"] else [])).
Proof.
  unfold output_args.
  by destruct (nonempty _), (form_bool form "verbose"), (form_bool form "timestamp").
Qed.

(** The filter request from the point where its input is settled. *)
Lemma run_peakfilter_settled (form : gmap string string) (w : World)
    (p : string) proc fs (k : value -> M Response) :
  (∀ ip, k ip =
     (has_params <- os_path_isfile
        (VStr (form_get form "params_path" (config_file E "peakfilter.json"))) ;;
      if negb has_params then
        return_ (Redirect "pipeline"
          "PeakFilter parameters not found. Configure them under Params.")
      else
      run <- run_python_module E "LipidFinder.run_peakfilter"
               ([VStr "-i"; ip; VStr "-p";
                 VStr (form_get form "params_path" (config_file E "peakfilter.json"))]
                ++ (if nonempty (form_get form "output_dir" "")
                    then [VStr "-o"; VStr (form_get form "output_dir" "")] else [])
                ++ (if form_bool form "verbose" then [VStr "--verbose"] else [])
                ++ (if form_bool form "timestamp" then [VStr "--timestamp"] else [])) ;;
      try_except
        (lower_in <- path_name_lower E ip ;;
         if nonempty (form_get form "output_dir" "") then
           if contains "neg" lower_in || contains "negative" lower_in then
             update_state E [("peakfilter_last_negative_summary",
               VStr (os_path_join (form_get form "output_dir" "")
                       "peakfilter_negative_summary.csv"))]
           else if contains "pos" lower_in || contains "positive" lower_in then
             update_state E [("peakfilter_last_positive_summary",
               VStr (os_path_join (form_get form "output_dir" "")
                       "peakfilter_positive_summary.csv"))]
           else
             update_state E [("peakfilter_last_summary",
               VStr (os_path_join (form_get form "output_dir" "")
                       "peakfilter_summary.csv"))]
         else ret tt)
        (fun _ => ret tt) ;;;
      ret (RunResult "PeakFilter Run" (str_join " " (fst run))
             (returncode (snd run) =? 0) (form_get form "output_dir" "")
             (stdout (snd run)) (stderr (snd run))))) ->
  isfile w (form_get form "params_path" (config_file E "peakfilter.json")) = true ->
  subprocess_run E (peakfilter_argv E form p) None w = inr (proc, fs) ->
  let w1 := mkWorld fs (fd_regular w) (spawned w ++ [peakfilter_argv E form p]) in
  respond (k (VStr p)) w =
    (RunResult "PeakFilter Run" (str_join " " (peakfilter_argv E form p))
       (returncode proc =? 0) (form_get form "output_dir" "")
       (stdout proc) (stderr proc),
     if nonempty (form_get form "output_dir" "")
     then snd (update_state E
                 [peakfilter_record (inferPolarity (path_name E p))
                    (form_get form "output_dir" "")] w1)
     else w1).
Proof.
  intros Hk Hparams Hrun. cbv zeta. rewrite Hk.
  unfold respond. unfold bind at 1. unfold os_path_isfile. rewrite Hparams. cbn [negb].
  unfold bind at 1. rewrite peakfilter_args_strs.
  unfold peakfilter_argv in Hrun. rewrite (run_python_module_strs _ _ _ _ _ Hrun).
  fold (peakfilter_argv E form p). cbn [fst snd].
  set (w1 := mkWorld fs (fd_regular w) (spawned w ++ [peakfilter_argv E form p])).
  unfold bind at 1.
  match goal with |- context [try_except ?b ?h w1] =>
    assert (Htry : try_except b h w1 =
      (Next tt,
       if nonempty (form_get form "output_dir" "")
       then snd (update_state E
                   [peakfilter_record (inferPolarity (path_name E p))
                      (form_get form "output_dir" "")] w1)
       else w1))
  end.
  { unfold path_name_lower. unfold inferPolarity, peakfilter_record. cbv zeta.
    destruct (nonempty (form_get form "output_dir" "")); [|done].
    unfold try_except at 1, bind at 1, ret at 1. cbn beta iota.
    destruct (contains "neg" _ || contains "negative" _);
      [|destruct (contains "pos" _ || contains "positive" _)];
      apply try_update_state. }
  rewrite Htry. done.
Qed.

Lemma first_candidate_usable (cs : list value) (input_path : value) (w : World) :
  forallb path_or_none cs = true ->
  first_candidate cs input_path w =
    (Next (match find (usable_path w) cs with Some c => c | None => input_path end), w).
Proof.
  induction cs as [|c r IH]; simpl; [done|].
  intros H. apply andb_true_iff in H as [Hc Hr]. unfold bind.
  destruct c; try done; simpl.
  - by apply IH.
  - unfold nonempty. destruct (negb (String.eqb s "")); simpl; [|by apply IH].
    destruct (isfile w s); [done|by apply IH].
Qed.

Lemma usable_path_inv (w : World) (c : value) :
  usable_path w c = true -> ∃ p, c = VStr p ∧ p ≠ "" ∧ isfile w p = true.
Proof.
  destruct c; try done. simpl. intros H. apply andb_true_iff in H as [Hn Hf].
  exists s. repeat split; [|done]. intros ->. done.
Qed.

(** The input a filter request without input settles on. *)
Lemma peakfilter_resolver (d : dict) (w : World) :
  stored (files w !! STATE_PATH E) = VDict d ->
  forallb path_or_none
    [dict_get "xcms_last_negative_csv" d; dict_get "xcms_last_positive_csv" d;
     dict_get "xcms_last_csv" d] = true ->
  (st <- read_state E ;;
   c1 <- py_get st "xcms_last_negative_csv" ;;
   c2 <- py_get st "xcms_last_positive_csv" ;;
   c3 <- py_get st "xcms_last_csv" ;;
   input_path <- first_candidate [c1; c2; c3] (VStr "") ;;
   if negb (truthy input_path) then
     return_ (Redirect "pipeline"
       "No input provided and no XCMS output found. Run XCMS first.")
   else ret input_path) w
  = match find (usable_path w)
            [dict_get "xcms_last_negative_csv" d; dict_get "xcms_last_positive_csv" d;
             dict_get "xcms_last_csv" d] with
    | Some c => (Next c, w)
    | None => (Return (Redirect "pipeline"
                 "No input provided and no XCMS output found. Run XCMS first."), w)
    end.
Proof.
  intros Hst Hcs. unfold bind at 1. rewrite read_state_stored, Hst.
  unfold py_get. unfold bind at 1, ret at 1. unfold bind at 1, ret at 1.
  unfold bind at 1, ret at 1. unfold bind at 1.
  rewrite (first_candidate_usable _ _ _ Hcs).
  destruct (find _ _) as [c|] eqn:Hfind; [|done].
  apply find_some in Hfind as [_ Hc].
  apply usable_path_inv in Hc as (p & -> & Hp & _).
  simpl. by rewrite (nonempty_true _ Hp : negb (String.eqb p "") = true).
Qed.

(** X5. A filter request without input runs on the first alignment output
    recorded in the state -- negative, then positive, then generic -- that
    is a non-empty path of a file still on disk; records whose file is gone
    are passed over.  With no such record the request is answered with a
    notice and nothing is run. *)
Theorem peakfilter_resolves_first_existing (form : gmap string string) (d : dict)
    (w : World) :
  let candidates :=
    [dict_get "xcms_last_negative_csv" d; dict_get "xcms_last_positive_csv" d;
     dict_get "xcms_last_csv" d] in
  form_get form "input_path" "" = "" ->
  stored (files w !! STATE_PATH E) = VDict d ->
  forallb path_or_none candidates = true ->
  (find (usable_path w) candidates = None ->
   respond (run_peakfilter E form) w =
     (Redirect "pipeline" "No input provided and no XCMS output found. Run XCMS first.",
      w))
  ∧ (∀ p proc fs,
       find (usable_path w) candidates = Some (VStr p) ->
       isfile w (form_get form "params_path" (config_file E "peakfilter.json")) = true ->
       subprocess_run E (peakfilter_argv E form p) None w = inr (proc, fs) ->
       isfile w p = true
       ∧ fst (respond (run_peakfilter E form) w) =
           RunResult "PeakFilter Run" (str_join " " (peakfilter_argv E form p))
             (returncode proc =? 0) (form_get form "output_dir" "")
             (stdout proc) (stderr proc)).
Proof.
  cbv zeta. intros Hin Hst Hcs.
  pose proof (peakfilter_resolver d w Hst Hcs) as Hres.
  split.
  - intros Hnone. rewrite Hnone in Hres.
    unfold run_peakfilter. cbv zeta. rewrite Hin. cbn [truthy String.eqb negb].
    by apply respond_bind_return.
  - intros p proc fs Hsome Hparams Hrun. rewrite Hsome in Hres.
    split.
    { apply find_some in Hsome as [_ Hc].
      by apply usable_path_inv in Hc as (p' & [= <-] & _ & Hf). }
    unfold run_peakfilter. cbv zeta. rewrite Hin. cbn [truthy String.eqb negb].
    rewrite (respond_bind_next _ _ _ _ _ Hres).
    by rewrite (run_peakfilter_settled form w p proc fs _ (fun _ => eq_refl) Hparams Hrun).
Qed.

(** X6. A filter request with an output directory records where the
    summary of the run is expected, under the key of the polarity read off
    the name of its input, whatever the exit code of the process: the state
    document after the request is the one the process left, with that one
    entry set. *)
Theorem peakfilter_records_by_polarity (form : gmap string string) (w : World)
    proc fs (d : dict) :
  let p := form_get form "input_path" "" in
  let out := form_get form "output_dir" "" in
  let argv := peakfilter_argv E form p in
  let record := peakfilter_record (inferPolarity (path_name E p)) out in
  p ≠ "" -> out ≠ "" ->
  isfile w (form_get form "params_path" (config_file E "peakfilter.json")) = true ->
  subprocess_run E argv None w = inr (proc, fs) ->
  stored (fs !! STATE_PATH E) = VDict d ->
  fs !! STATE_PATH E ≠ Some Directory ->
  respond (run_peakfilter E form) w =
    (RunResult "PeakFilter Run" (str_join " " argv) (returncode proc =? 0) out
       (stdout proc) (stderr proc),
     mkWorld (<[STATE_PATH E := Json (VDict (dict_set (fst record) (snd record) d))]> fs)
       (fd_regular w) (spawned w ++ [argv])).
Proof.
  cbv zeta. intros Hp Hout Hparams Hrun Hst Hnd.
  unfold run_peakfilter. cbv zeta. cbn [truthy].
  rewrite (nonempty_true _ Hp : negb (String.eqb _ "") = true). cbn [negb].
  rewrite (respond_bind_next _ _ w w (VStr (form_get form "input_path" "")) eq_refl).
  rewrite (run_peakfilter_settled form w _ proc fs _ (fun _ => eq_refl) Hparams Hrun).
  rewrite (nonempty_true _ Hout).
  rewrite (update_state_dict E _ d (mkWorld fs _ _) Hst Hnd).
  by destruct (inferPolarity _).
Qed.

Lemma run_peakfilter_no_params (form : gmap string string) (w : World) :
  isfile w (form_get form "params_path" (config_file E "peakfilter.json")) = false ->
  snd (respond (run_peakfilter E form) w) = w.
Proof.
  intros Hp. rewrite respond_snd. unfold run_peakfilter. cbv zeta.
  unfold bind at 1.
  match goal with |- context [match ?m w with _ => _ end] =>
    assert (Hq : respects eq m) by (repeat respects_step);
    specialize (Hq w); destruct (m w) as [[input_path|r|e] w1]
  end; simpl in Hq; subst w1; simpl; try done.
  unfold bind at 1. unfold os_path_isfile. by rewrite Hp.
Qed.

Lemma run_amalgamator_no_params (form : gmap string string) (w : World) :
  isfile w (form_get form "params_path" (config_file E "amalgamator.json")) = false ->
  snd (respond (run_amalgamator E form) w) = w.
Proof.
  intros Hp. rewrite respond_snd. unfold run_amalgamator. cbv zeta.
  unfold bind at 1.
  match goal with |- context [match ?m w with _ => _ end] =>
    assert (Hq : respects eq m) by (repeat respects_step);
    specialize (Hq w); destruct (m w) as [[inputs|r|e] w1]
  end; simpl in Hq; subst w1; simpl; try done.
  unfold bind at 1. unfold os_path_isfile. by rewrite Hp.
Qed.

Lemma run_mssearch_no_params (form : gmap string string) (w : World) :
  isfile w (form_get form "params_path" (config_file E "mssearch.json")) = false ->
  snd (respond (run_mssearch E form) w) = w.
Proof.
  intros Hp. rewrite respond_snd. unfold run_mssearch. cbv zeta.
  unfold bind at 1.
  match goal with |- context [match ?m w with _ => _ end] =>
    assert (Hq : respects eq m) by (repeat respects_step);
    specialize (Hq w); destruct (m w) as [[input_file|r|e] w1]
  end; simpl in Hq; subst w1; simpl; try done.
  unfold bind at 1. unfold os_path_isfile. by rewrite Hp.
Qed.

(** X7. No stage request starts its process without its parameter file:
    when the file named by [params_path] (by default the saved set of the
    stage) is not a file on disk, the request leaves the world as it was --
    nothing is run, nothing is recorded -- and, its inputs given, it is
    answered with the notice that names the stage. *)
Theorem stage_needs_parameter_file (form : gmap string string) (w : World) :
  (isfile w (form_get form "params_path" (config_file E "peakfilter.json")) = false ->
   snd (respond (run_peakfilter E form) w) = w
   ∧ (form_get form "input_path" "" ≠ "" ->
      fst (respond (run_peakfilter E form) w) =
        Redirect "pipeline"
          "PeakFilter parameters not found. Configure them under Params."))
  ∧ (isfile w (form_get form "params_path" (config_file E "amalgamator.json")) = false ->
     snd (respond (run_amalgamator E form) w) = w
     ∧ (form_get form "neg_file" "" ≠ "" -> form_get form "pos_file" "" ≠ "" ->
        fst (respond (run_amalgamator E form) w) =
          Redirect "pipeline"
            "Amalgamator parameters not found. Configure them under Params."))
  ∧ (isfile w (form_get form "params_path" (config_file E "mssearch.json")) = false ->
     snd (respond (run_mssearch E form) w) = w
     ∧ (form_get form "input_file" "" ≠ "" ->
        fst (respond (run_mssearch E form) w) =
          Redirect "pipeline"
            "MSSearch parameters not found. Configure them under Params.")).
Proof.
  split; [|split]; intros Hp; (split; [by auto using run_peakfilter_no_params,
    run_amalgamator_no_params, run_mssearch_no_params|]).
  - intros Hin. unfold respond, run_peakfilter. cbv zeta. cbn [truthy].
    rewrite (nonempty_true _ Hin : negb (String.eqb _ "") = true). cbn [negb].
    unfold bind, ret, os_path_isfile. by rewrite Hp.
  - intros Hn Hpos. unfold respond, run_amalgamator. cbv zeta. cbn [truthy].
    rewrite (nonempty_true _ Hn : negb (String.eqb _ "") = true).
    rewrite (nonempty_true _ Hpos : negb (String.eqb _ "") = true). cbn [negb andb].
    unfold bind, ret, os_path_isfile. cbn [fst snd]. by rewrite Hp.
  - intros Hin. unfold respond, run_mssearch. cbv zeta. cbn [truthy].
    rewrite (nonempty_true _ Hin : negb (String.eqb _ "") = true). cbn [negb].
    unfold bind, ret, os_path_isfile. by rewrite Hp.
Qed.

(** X8. A search request records nothing, not even after a successful run
    with an output directory: all that happens to the world is the search
    process, if it gets that far, and the state document is as before as
    long as the process leaves it alone. *)
Theorem search_never_records (form : gmap string string) (w : World)
    (resp : Response) (w' : World) :
  respond (run_mssearch E form) w = (resp, w') ->
  (w' = w ∨ ran_one E w w')
  ∧ (leaves E (STATE_PATH E) -> files w' !! STATE_PATH E = files w !! STATE_PATH E).
Proof.
  intros Hrun.
  pose proof (run_mssearch_never_records E form w resp w' Hrun) as H.
  split; [exact H|]. intros Hl. by apply (ran_one_leaves E).
Qed.

Lemma amalgamator_args_strs (form : gmap string string) (n p : string) :
  [VStr "-neg"; VStr n; VStr "-pos"; VStr p; VStr "-p";
   VStr (form_get form "params_path" (config_file E "amalgamator.json"))]
  ++ (if nonempty (form_get form "output_dir" "")
      then [VStr "-o"; VStr (form_get form "output_dir" "")] else [])
  = map VStr
      (["-neg"; n; "-pos"; p; "-p";
        form_get form "params_path" (config_file E "amalgamator.json")]
       ++ output_args (form_get form "output_dir" "")).
Proof. unfold output_args. by destruct (nonempty _). Qed.

Lemma mssearch_args_strs (form : gmap string string) (i : string) :
  [VStr "-i"; VStr i; VStr "-p";
   VStr (form_get form "params_path" (config_file E "mssearch.json"))]
  ++ (if nonempty (form_get form "output_dir" "")
      then [VStr "-o"; VStr (form_get form "output_dir" "")] else [])
  = map VStr
      (["-i"; i; "-p"; form_get form "params_path" (config_file E "mssearch.json")]
       ++ output_args (form_get form "output_dir" "")).
Proof. unfold output_args. by destruct (nonempty _). Qed.

(** The amalgamation request from the point where its inputs are settled. *)
Lemma run_amalgamator_settled (form : gmap string string) (w : World)
    (n p : string) proc fs (k : value * value -> M Response) :
  (∀ inputs, k inputs =
     (has_params <- os_path_isfile
        (VStr (form_get form "params_path" (config_file E "amalgamator.json"))) ;;
      if negb has_params then
        return_ (Redirect "pipeline"
          "Amalgamator parameters not found. Configure them under Params.")
      else
      run <- run_python_module E "LipidFinder.run_amalgamator"
               ([VStr "-neg"; fst inputs; VStr "-pos"; snd inputs; VStr "-p";
                 VStr (form_get form "params_path" (config_file E "amalgamator.json"))]
                ++ (if nonempty (form_get form "output_dir" "")
                    then [VStr "-o"; VStr (form_get form "output_dir" "")] else [])) ;;
      (if (returncode (snd run) =? 0) && nonempty (form_get form "output_dir" "") then
         update_state E [("amalgamator_last_csv",
           VStr (os_path_join (form_get form "output_dir" "") "amalgamated.csv"))]
       else ret tt) ;;;
      ret (RunResult "Amalgamator Run" (str_join " " (fst run))
             (returncode (snd run) =? 0) (form_get form "output_dir" "")
             (stdout (snd run)) (stderr (snd run))))) ->
  isfile w (form_get form "params_path" (config_file E "amalgamator.json")) = true ->
  subprocess_run E (amalgamator_argv E form n p) None w = inr (proc, fs) ->
  let w1 := mkWorld fs (fd_regular w) (spawned w ++ [amalgamator_argv E form n p]) in
  let page :=
    RunResult "Amalgamator Run" (str_join " " (amalgamator_argv E form n p))
      (returncode proc =? 0) (form_get form "output_dir" "")
      (stdout proc) (stderr proc) in
  respond (k (VStr n, VStr p)) w =
    if (returncode proc =? 0) && nonempty (form_get form "output_dir" "") then
      match update_state E
              [("amalgamator_last_csv",
                VStr (os_path_join (form_get form "output_dir" "") "amalgamated.csv"))]
              w1 with
      | (Raise e, w2) => (Crash e, w2)
      | (_, w2) => (page, w2)
      end
    else (page, w1).
Proof.
  intros Hk Hparams Hrun. cbv zeta. rewrite Hk.
  unfold respond. unfold bind at 1. unfold os_path_isfile. rewrite Hparams. cbn [negb].
  unfold bind at 1. cbn [fst snd]. rewrite amalgamator_args_strs.
  unfold amalgamator_argv in Hrun. rewrite (run_python_module_strs _ _ _ _ _ Hrun).
  fold (amalgamator_argv E form n p). cbn [fst snd].
  destruct ((returncode proc =? 0) && nonempty _); [|done].
  unfold bind at 1.
  match goal with |- context [update_state E ?kw ?w1] =>
    pose proof (update_state_cases E kw w1) as Hup;
    by destruct (update_state E kw w1) as [[[]| |] w2]
  end.
Qed.

(** The search request from the point where its input is settled. *)
Lemma run_mssearch_settled (form : gmap string string) (w : World)
    (i : string) proc fs (k : value -> M Response) :
  (∀ input_file, k input_file =
     (has_params <- os_path_isfile
        (VStr (form_get form "params_path" (config_file E "mssearch.json"))) ;;
      if negb has_params then
        return_ (Redirect "pipeline"
          "MSSearch parameters not found. Configure them under Params.")
      else
      run <- run_python_module E "LipidFinder.run_mssearch"
               ([VStr "-i"; input_file; VStr "-p";
                 VStr (form_get form "params_path" (config_file E "mssearch.json"))]
                ++ (if nonempty (form_get form "output_dir" "")
                    then [VStr "-o"; VStr (form_get form "output_dir" "")] else [])) ;;
      ret (RunResult "MSSearch Run" (str_join " " (fst run))
             (returncode (snd run) =? 0) (form_get form "output_dir" "")
             (stdout (snd run)) (stderr (snd run))))) ->
  isfile w (form_get form "params_path" (config_file E "mssearch.json")) = true ->
  subprocess_run E (mssearch_argv E form i) None w = inr (proc, fs) ->
  respond (k (VStr i)) w =
    (RunResult "MSSearch Run" (str_join " " (mssearch_argv E form i))
       (returncode proc =? 0) (form_get form "output_dir" "")
       (stdout proc) (stderr proc),
     mkWorld fs (fd_regular w) (spawned w ++ [mssearch_argv E form i])).
Proof.
  intros Hk Hparams Hrun. rewrite Hk.
  unfold respond. unfold bind at 1. unfold os_path_isfile. rewrite Hparams. cbn [negb].
  unfold bind at 1. rewrite mssearch_args_strs.
  unfold mssearch_argv in Hrun. by rewrite (run_python_module_strs _ _ _ _ _ Hrun).
Qed.

(** The inputs an amalgamation request settles on. *)
Lemma amalgamator_resolver (n p : string) (d : dict) (w : World) :
  stored (files w !! STATE_PATH E) = VDict d ->
  (if negb (truthy (VStr n) && truthy (VStr p)) then
     st <- read_state E ;;
     neg_file <- (if truthy (VStr n) then ret (VStr n)
                  else py_get st "peakfilter_last_negative_summary") ;;
     pos_file <- (if truthy (VStr p) then ret (VStr p)
                  else py_get st "peakfilter_last_positive_summary") ;;
     if negb (truthy neg_file && truthy pos_file) then
       return_ (Redirect "pipeline"
         "Missing Amalgamator inputs. Run PeakFilter for both polarities first.")
     else ret (neg_file, pos_file)
   else ret (VStr n, VStr p)) w
  = let neg := py_or (VStr n) (dict_get "peakfilter_last_negative_summary" d) in
    let pos := py_or (VStr p) (dict_get "peakfilter_last_positive_summary" d) in
    if truthy neg && truthy pos then (Next (neg, pos), w)
    else (Return (Redirect "pipeline"
            "Missing Amalgamator inputs. Run PeakFilter for both polarities first."), w).
Proof.
  intros Hst. cbv zeta. unfold py_or.
  destruct (truthy (VStr n)) eqn:Hn, (truthy (VStr p)) eqn:Hp; cbn [andb negb];
    rewrite ?Hn, ?Hp; [done|..];
    unfold bind at 1; rewrite read_state_stored, Hst; unfold py_get;
    unfold bind, ret, return_; rewrite ?Hn, ?Hp; cbn [andb].
  - by destruct (truthy (dict_get "peakfilter_last_positive_summary" d)).
  - by destruct (truthy (dict_get "peakfilter_last_negative_summary" d)).
  - by destruct (truthy (dict_get "peakfilter_last_negative_summary" d)),
         (truthy (dict_get "peakfilter_last_positive_summary" d)).
Qed.

(** X9. An amalgamation request takes each input from its form when the
    form gives it, and otherwise from the summary the last filter request
    of that polarity recorded.  When an input is still missing the request
    is answered with a notice and nothing is run; otherwise the amalgamator
    is started on those two inputs. *)
Theorem amalgamator_fills_inputs_from_state (form : gmap string string) (d : dict)
    (w : World) :
  let neg := py_or (VStr (form_get form "neg_file" ""))
               (dict_get "peakfilter_last_negative_summary" d) in
  let pos := py_or (VStr (form_get form "pos_file" ""))
               (dict_get "peakfilter_last_positive_summary" d) in
  stored (files w !! STATE_PATH E) = VDict d ->
  (truthy neg && truthy pos = false ->
   respond (run_amalgamator E form) w =
     (Redirect "pipeline"
        "Missing Amalgamator inputs. Run PeakFilter for both polarities first.", w))
  ∧ (∀ n p proc fs,
       neg = VStr n -> pos = VStr p -> n ≠ "" -> p ≠ "" ->
       isfile w (form_get form "params_path" (config_file E "amalgamator.json")) = true ->
       subprocess_run E (amalgamator_argv E form n p) None w = inr (proc, fs) ->
       spawned (snd (respond (run_amalgamator E form) w))
       = spawned w ++ [amalgamator_argv E form n p]).
Proof.
  cbv zeta. intros Hst.
  pose proof (amalgamator_resolver (form_get form "neg_file" "")
                (form_get form "pos_file" "") d w Hst) as Hres.
  cbv zeta in Hres. split.
  - intros Hmiss. rewrite Hmiss in Hres.
    unfold run_amalgamator. cbv zeta. by apply respond_bind_return.
  - intros n p proc fs Hn Hp Hne Hpe Hparams Hrun.
    rewrite Hn, Hp in Hres. cbn [truthy] in Hres.
    rewrite (nonempty_true _ Hne : negb (String.eqb _ "") = true) in Hres.
    rewrite (nonempty_true _ Hpe : negb (String.eqb _ "") = true) in Hres.
    cbn [andb] in Hres.
    unfold run_amalgamator. cbv zeta.
    rewrite (respond_bind_next _ _ _ _ _ Hres).
    rewrite (run_amalgamator_settled form w n p proc fs _ (fun _ => eq_refl) Hparams Hrun).
    destruct ((returncode proc =? 0) && nonempty _); [|done].
    match goal with |- context [update_state E ?kw ?w1] =>
      pose proof (update_state_spawned E kw w1) as Hsp;
      by destruct (update_state E kw w1) as [[[]| |] w2]
    end.
Qed.

(** The input a search request without input settles on. *)
Lemma mssearch_resolver (d : dict) (w : World) :
  stored (files w !! STATE_PATH E) = VDict d ->
  (st <- read_state E ;;
   input_file <- get_first_truthy st
     ["amalgamator_last_csv"; "peakfilter_last_negative_summary";
      "peakfilter_last_positive_summary"; "peakfilter_last_summary"] VNone ;;
   if negb (truthy input_file) then
     return_ (Redirect "pipeline"
       "Missing MSSearch input. Run Amalgamator or PeakFilter first.")
   else ret input_file) w
  = let recorded :=
      py_or (dict_get "amalgamator_last_csv" d)
        (py_or (dict_get "peakfilter_last_negative_summary" d)
           (py_or (dict_get "peakfilter_last_positive_summary" d)
              (dict_get "peakfilter_last_summary" d))) in
    if truthy recorded then (Next recorded, w)
    else (Return (Redirect "pipeline"
            "Missing MSSearch input. Run Amalgamator or PeakFilter first."), w).
Proof.
  intros Hst. cbv zeta. unfold bind at 1. rewrite read_state_stored, Hst.
  unfold get_first_truthy, py_get, py_or, bind, ret, return_.
  destruct (truthy (dict_get "amalgamator_last_csv" d)) eqn:H1; [by rewrite H1|].
  destruct (truthy (dict_get "peakfilter_last_negative_summary" d)) eqn:H2;
    [by rewrite H2|].
  destruct (truthy (dict_get "peakfilter_last_positive_summary" d)) eqn:H3;
    [by rewrite H3|].
  destruct (truthy (dict_get "peakfilter_last_summary" d)) eqn:H4; by rewrite H4.
Qed.

(** X10. A search request without input runs on what the state records,
    in this order of preference: the amalgamated file, the negative
    summary, the positive summary, the summary of unknown polarity -- the
    first of these that is set and not empty.  With none recorded the
    request is answered with a notice and nothing is run. *)
Theorem search_resolves_first_recorded (form : gmap string string) (d : dict)
    (w : World) :
  let recorded :=
    py_or (dict_get "amalgamator_last_csv" d)
      (py_or (dict_get "peakfilter_last_negative_summary" d)
         (py_or (dict_get "peakfilter_last_positive_summary" d)
            (dict_get "peakfilter_last_summary" d))) in
  form_get form "input_file" "" = "" ->
  stored (files w !! STATE_PATH E) = VDict d ->
  (truthy recorded = false ->
   respond (run_mssearch E form) w =
     (Redirect "pipeline" "Missing MSSearch input. Run Amalgamator or PeakFilter first.",
      w))
  ∧ (∀ i proc fs,
       recorded = VStr i -> i ≠ "" ->
       isfile w (form_get form "params_path" (config_file E "mssearch.json")) = true ->
       subprocess_run E (mssearch_argv E form i) None w = inr (proc, fs) ->
       respond (run_mssearch E form) w =
         (RunResult "MSSearch Run" (str_join " " (mssearch_argv E form i))
            (returncode proc =? 0) (form_get form "output_dir" "")
            (stdout proc) (stderr proc),
          mkWorld fs (fd_regular w) (spawned w ++ [mssearch_argv E form i]))).
Proof.
  cbv zeta. intros Hin Hst.
  pose proof (mssearch_resolver d w Hst) as Hres. cbv zeta in Hres.
  split.
  - intros Hnone. rewrite Hnone in Hres.
    unfold run_mssearch. cbv zeta. rewrite Hin. cbn [truthy String.eqb negb].
    by apply respond_bind_return.
  - intros i proc fs Hrec Hi Hparams Hrun. rewrite Hrec in Hres.
    cbn [truthy] in Hres.
    rewrite (nonempty_true _ Hi : negb (String.eqb _ "") = true) in Hres.
    unfold run_mssearch. cbv zeta. rewrite Hin. cbn [truthy String.eqb negb].
    rewrite (respond_bind_next _ _ _ _ _ Hres).
    by rewrite (run_mssearch_settled form w i proc fs _ (fun _ => eq_refl) Hparams Hrun).
Qed.

(** X11. Amalgamation and search chain through the state.  After an
    amalgamation request with an output directory whose process exits with
    code zero, the state names [amalgamated.csv] under that directory; a
    search request without input that follows is run on exactly that
    file, whatever summaries the state also records. *)
Theorem amalgamate_then_search (form form' : gmap string string) (w : World)
    proc fs (d : dict) proc' fs' :
  let n := form_get form "neg_file" "" in
  let p := form_get form "pos_file" "" in
  let out := form_get form "output_dir" "" in
  let amalgamated := os_path_join out "amalgamated.csv" in
  let w1 := snd (respond (run_amalgamator E form) w) in
  n ≠ "" -> p ≠ "" -> out ≠ "" ->
  isfile w (form_get form "params_path" (config_file E "amalgamator.json")) = true ->
  subprocess_run E (amalgamator_argv E form n p) None w = inr (proc, fs) ->
  returncode proc = 0 ->
  stored (fs !! STATE_PATH E) = VDict d ->
  fs !! STATE_PATH E ≠ Some Directory ->
  form_get form' "input_file" "" = "" ->
  isfile w1 (form_get form' "params_path" (config_file E "mssearch.json")) = true ->
  subprocess_run E (mssearch_argv E form' amalgamated) None w1 = inr (proc', fs') ->
  files w1 !! STATE_PATH E
  = Some (Json (VDict (dict_set "amalgamator_last_csv" (VStr amalgamated) d)))
  ∧ respond (run_mssearch E form') w1 =
      (RunResult "MSSearch Run" (str_join " " (mssearch_argv E form' amalgamated))
         (returncode proc' =? 0) (form_get form' "output_dir" "")
         (stdout proc') (stderr proc'),
       mkWorld fs' (fd_regular w)
         (spawned w ++ [amalgamator_argv E form n p; mssearch_argv E form' amalgamated])).
Proof.
  cbv zeta. intros Hn Hp Hout Hparams Hrun Hrc Hst Hnd.
  assert (Hw1 : snd (respond (run_amalgamator E form) w) =
    mkWorld (<[STATE_PATH E := Json (VDict
               (dict_set "amalgamator_last_csv"
                  (VStr (os_path_join (form_get form "output_dir" "") "amalgamated.csv"))
                  d))]> fs)
      (fd_regular w)
      (spawned w ++ [amalgamator_argv E form (form_get form "neg_file" "")
                       (form_get form "pos_file" "")])).
  { unfold run_amalgamator. cbv zeta. cbn [truthy].
    rewrite (nonempty_true _ Hn : negb (String.eqb _ "") = true).
    rewrite (nonempty_true _ Hp : negb (String.eqb _ "") = true). cbn [andb negb].
    rewrite (respond_bind_next _ _ w w
               (VStr (form_get form "neg_file" ""), VStr (form_get form "pos_file" ""))
               eq_refl).
    rewrite (run_amalgamator_settled form w _ _ proc fs _ (fun _ => eq_refl) Hparams Hrun).
    rewrite Hrc, (nonempty_true _ Hout). cbn [Z.eqb andb].
    by rewrite (update_state_dict E _ d (mkWorld fs _ _) Hst Hnd). }
  rewrite Hw1. clear Hw1. intros Hin Hparams' Hrun'.
  split; [simpl; by rewrite lookup_insert_eq|].
  match type of Hrun' with subprocess_run E _ None ?x = _ => set (w1 := x) in * end.
  assert (Hst1 : stored (files w1 !! STATE_PATH E) =
    VDict (dict_set "amalgamator_last_csv"
             (VStr (os_path_join (form_get form "output_dir" "") "amalgamated.csv")) d)).
  { subst w1. simpl. by rewrite lookup_insert_eq. }
  pose proof (mssearch_resolver _ w1 Hst1) as Hres. cbv zeta in Hres.
  match type of Hres with _ = (if truthy ?r then _ else _) =>
    assert (Hrec : r = VStr (os_path_join (form_get form "output_dir" "")
                               "amalgamated.csv"))
  end.
  { unfold py_or at 1, dict_get at 1 2. rewrite dict_find_set_eq. cbn [truthy].
    by rewrite (os_path_join_nonempty _ "amalgamated.csv" eq_refl
                : negb (String.eqb _ "") = true). }
  rewrite Hrec in Hres. cbn [truthy] in Hres.
  rewrite (os_path_join_nonempty _ "amalgamated.csv" eq_refl
           : negb (String.eqb _ "") = true) in Hres.
  unfold run_mssearch. cbv zeta. rewrite Hin. cbn [truthy String.eqb negb].
  rewrite (respond_bind_next _ _ _ _ _ Hres).
  rewrite (run_mssearch_settled form' w1 _ proc' fs' _ (fun _ => eq_refl) Hparams' Hrun').
  subst w1. simpl. by rewrite <- app_assoc.
Qed.

Lemma dict_get_set_eq (k : string) (v : value) (d : dict) :
  dict_get k (dict_set k v d) = v.
Proof. unfold dict_get. by rewrite dict_find_set_eq. Qed.

Lemma dict_get_set_ne (k k' : string) (v : value) (d : dict) :
  k ≠ k' -> dict_get k' (dict_set k v d) = dict_get k' d.
Proof. intros H. unfold dict_get. by rewrite dict_find_set_ne. Qed.

Lemma first_candidate_hit (c : value) (rest : list value) (ip : value) (w : World) :
  usable_path w c = true -> first_candidate (c :: rest) ip w = (Next c, w).
Proof.
  intros H. apply usable_path_inv in H as (p & -> & Hp & Hf). simpl.
  rewrite (nonempty_true _ Hp : negb (String.eqb _ "") = true).
  unfold bind, os_path_isfile. by rewrite Hf.
Qed.

Lemma first_candidate_skip (c : value) (rest : list value) (ip : value) (w : World) :
  path_or_none c = true -> usable_path w c = false ->
  first_candidate (c :: rest) ip w = first_candidate rest ip w.
Proof.
  destruct c; try done; simpl; intros _.
  unfold nonempty, bind, os_path_isfile.
  destruct (negb (String.eqb s "")); simpl; [|done]. by intros ->.
Qed.

Lemma peakfilter_resolver_eq (d : dict) (w : World) :
  stored (files w !! STATE_PATH E) = VDict d ->
  (st <- read_state E ;;
   c1 <- py_get st "xcms_last_negative_csv" ;;
   c2 <- py_get st "xcms_last_positive_csv" ;;
   c3 <- py_get st "xcms_last_csv" ;;
   input_path <- first_candidate [c1; c2; c3] (VStr "") ;;
   if negb (truthy input_path) then
     return_ (Redirect "pipeline"
       "No input provided and no XCMS output found. Run XCMS first.")
   else ret input_path) w
  = (input_path <- first_candidate
       [dict_get "xcms_last_negative_csv" d; dict_get "xcms_last_positive_csv" d;
        dict_get "xcms_last_csv" d] (VStr "") ;;
     if negb (truthy input_path) then
       return_ (Redirect "pipeline"
         "No input provided and no XCMS output found. Run XCMS first.")
     else ret input_path) w.
Proof.
  intros Hst. unfold bind at 1. rewrite read_state_stored, Hst.
  unfold py_get. unfold bind at 1, ret at 1. unfold bind at 1, ret at 1.
  by unfold bind at 1, ret at 1.
Qed.

(** X12. Alignment and filtering chain through the state.  After an
    alignment request whose report is a file on disk, a filter request
    without input is run on that report -- unless the state still names an
    existing file for a polarity that comes first: an older negative output
    when the report is not negative, an older positive one when it is of
    unknown polarity. *)
Theorem align_then_filter (form form' : gmap string string) (w : World)
    proc fs (d : dict) proc' fs' :
  let rp := xcms_result_path E form in
  let w0 := mkWorld fs (fd_regular w) (spawned w ++ [xcms_argv E form]) in
  let w1 := snd (respond (xcms E form) w) in
  let older :=
    match inferPolarity rp with
    | Negative => []
    | Positive => [dict_get "xcms_last_negative_csv" d]
    | Unknown => [dict_get "xcms_last_negative_csv" d;
                  dict_get "xcms_last_positive_csv" d]
    end in
  form_get form "mzxml_dir" "" ≠ "" ->
  subprocess_run E (xcms_argv E form) (Some (xcms_input form)) w = inr (proc, fs) ->
  rp ≠ "" -> isfile w0 rp = true ->
  stored (fs !! STATE_PATH E) = VDict d ->
  fs !! STATE_PATH E ≠ Some Directory ->
  forallb path_or_none older = true ->
  find (usable_path w1) older = None ->
  form_get form' "input_path" "" = "" ->
  isfile w1 (form_get form' "params_path" (config_file E "peakfilter.json")) = true ->
  subprocess_run E (peakfilter_argv E form' rp) None w1 = inr (proc', fs') ->
  fst (respond (run_peakfilter E form') w1) =
    RunResult "PeakFilter Run" (str_join " " (peakfilter_argv E form' rp))
      (returncode proc' =? 0) (form_get form' "output_dir" "")
      (stdout proc') (stderr proc').
Proof.
  cbv zeta. intros Hdir Hrun Hrp Hfile Hst Hnd.
  set (rp := xcms_result_path E form) in *.
  assert (Hw1 : snd (respond (xcms E form) w) =
    mkWorld (<[STATE_PATH E := Json (VDict
               (merged (("xcms_last_csv", VStr rp) ::
                        match inferPolarity rp with
                        | Negative => [("xcms_last_negative_csv", VStr rp)]
                        | Positive => [("xcms_last_positive_csv", VStr rp)]
                        | Unknown => []
                        end) d))]> fs)
      (fd_regular w) (spawned w ++ [xcms_argv E form])).
  { rewrite (xcms_run E form w proc fs Hdir Hrun). cbv zeta. fold rp.
    assert (Hex : exists_path (mkWorld fs (fd_regular w) (spawned w ++ [xcms_argv E form]))
                    rp = true).
    { unfold exists_path. unfold isfile in Hfile. by destruct (files _ !! rp). }
    rewrite Hex.
    by rewrite (update_state_dict E _ d (mkWorld fs _ _) Hst Hnd). }
  rewrite Hw1. clear Hw1.
  match goal with |- context [usable_path ?x] => set (w1 := x) in * end.
  intros Hold Hnone Hin Hparams Hrun'.
  assert (Hst1 : stored (files w1 !! STATE_PATH E) =
    VDict (merged (("xcms_last_csv", VStr rp) ::
                   match inferPolarity rp with
                   | Negative => [("xcms_last_negative_csv", VStr rp)]
                   | Positive => [("xcms_last_positive_csv", VStr rp)]
                   | Unknown => []
                   end) d)).
  { subst w1. simpl. by rewrite lookup_insert_eq. }
  assert (Huse : usable_path w1 (VStr rp) = true).
  { simpl. rewrite (nonempty_true _ Hrp). simpl.
    unfold isfile in *. subst w1. simpl in *.
    destruct (decide (STATE_PATH E = rp)) as [<-|Hne].
    - by rewrite lookup_insert_eq.
    - by rewrite lookup_insert_ne. }
  assert (Hres :
    (input_path <- first_candidate
       [dict_get "xcms_last_negative_csv"
          (merged (("xcms_last_csv", VStr rp) ::
                   match inferPolarity rp with
                   | Negative => [("xcms_last_negative_csv", VStr rp)]
                   | Positive => [("xcms_last_positive_csv", VStr rp)]
                   | Unknown => []
                   end) d);
        dict_get "xcms_last_positive_csv"
          (merged (("xcms_last_csv", VStr rp) ::
                   match inferPolarity rp with
                   | Negative => [("xcms_last_negative_csv", VStr rp)]
                   | Positive => [("xcms_last_positive_csv", VStr rp)]
                   | Unknown => []
                   end) d);
        dict_get "xcms_last_csv"
          (merged (("xcms_last_csv", VStr rp) ::
                   match inferPolarity rp with
                   | Negative => [("xcms_last_negative_csv", VStr rp)]
                   | Positive => [("xcms_last_positive_csv", VStr rp)]
                   | Unknown => []
                   end) d)] (VStr "") ;;
     if negb (truthy input_path) then
       return_ (Redirect "pipeline"
         "No input provided and no XCMS output found. Run XCMS first.")
     else ret input_path) w1 = (Next (VStr rp), w1)).
  { assert (Htr : negb (truthy (VStr rp)) = false).
    { simpl. by rewrite (nonempty_true _ Hrp : negb (String.eqb _ "") = true). }
    destruct (inferPolarity rp); cbn [merged is_not_None].
    - rewrite dict_get_set_eq. unfold bind at 1.
      rewrite (first_candidate_hit _ _ _ _ Huse). by rewrite Htr.
    - rewrite dict_get_set_eq.
      rewrite !(dict_get_set_ne _ "xcms_last_negative_csv") by done.
      simpl in Hold, Hnone. apply andb_true_iff in Hold as [Ho _].
      destruct (usable_path w1 (dict_get "xcms_last_negative_csv" d)) eqn:Hu; [done|].
      unfold bind at 1. rewrite (first_candidate_skip _ _ _ _ Ho Hu).
      rewrite (first_candidate_hit _ _ _ _ Huse). by rewrite Htr.
    - rewrite dict_get_set_eq.
      rewrite (dict_get_set_ne _ "xcms_last_negative_csv") by done.
      rewrite (dict_get_set_ne _ "xcms_last_positive_csv") by done.
      simpl in Hold, Hnone. apply andb_true_iff in Hold as [Ho1 Ho2].
      apply andb_true_iff in Ho2 as [Ho2 _].
      destruct (usable_path w1 (dict_get "xcms_last_negative_csv" d)) eqn:Hu1; [done|].
      destruct (usable_path w1 (dict_get "xcms_last_positive_csv" d)) eqn:Hu2; [done|].
      unfold bind at 1. rewrite (first_candidate_skip _ _ _ _ Ho1 Hu1).
      rewrite (first_candidate_skip _ _ _ _ Ho2 Hu2).
      rewrite (first_candidate_hit _ _ _ _ Huse). by rewrite Htr. }
  rewrite <- (peakfilter_resolver_eq _ w1 Hst1) in Hres.
  unfold run_peakfilter. cbv zeta. rewrite Hin. cbn [truthy String.eqb negb].
  rewrite (respond_bind_next _ _ _ _ _ Hres).
  by rewrite (run_peakfilter_settled form' w1 rp proc' fs' _ (fun _ => eq_refl)
                Hparams Hrun').
Qed.

End StageRequests.

(** ** Runs of the full pipeline *)

Section PipelineRuns.

Variable E : Env.


Lemma if_file_some (w : World) (p q : string) :
  if_file w p = Some q -> isfile w q = true.
Proof. unfold if_file. destruct (isfile w p) eqn:H; [by intros [= <-]|done]. Qed.

(** X14. The page of a full pipeline run links only to what is there: each
    artifact it names -- scatter plot, summary sheet, full sheet,
    amalgamated file -- is a file on disk when the page is made, the
    category counts are empty unless the summary sheet is among them, and a
    page that reports failure names no artifact at all. *)
Theorem pipeline_reports_existing_artifacts (form : gmap string string) (w : World) :
  match respond (run_pipeline_full E form) w with
  | (PipelineVisualize success out logs scatter summary full amalgamated counts, w') =>
      (∀ p, scatter = Some p ∨ summary = Some p ∨ full = Some p ∨ amalgamated = Some p ->
            isfile w' p = true)
      ∧ (summary = None -> counts = [])
      ∧ (success = false ->
         scatter = None ∧ summary = None ∧ full = None ∧ amalgamated = None
         ∧ counts = [])
  | _ => True
  end.
Proof.
  assert (Hhalt : ∀ w' : World,
    (∀ p : string, @None string = Some p ∨ @None string = Some p
                   ∨ @None string = Some p ∨ @None string = Some p ->
                   isfile w' p = true)
    ∧ (@None string = None -> @nil (string * Z) = [])
    ∧ (false = false ->
       @None string = None ∧ @None string = None ∧ @None string = None
       ∧ @None string = None ∧ @nil (string * Z) = [])).
  { intros w'. split; [|done]. by intros p [|[|[|]]]. }
  unfold respond, run_pipeline_full. cbv zeta.
  destruct (negb (nonempty _)); [done|].
  set (out := form_get form "output_dir" "").
  unfold bind at 1.
  match goal with |- context [resolve_top_inputs E ?a ?b w] =>
    pose proof (resolve_top_inputs_cases E a b w) as Hres;
    destruct (resolve_top_inputs E a b w) as [[[neg pos]|r|e] w1]
  end; simpl in Hres.
  2: { by destruct Hres as [-> ->]. }
  2: { done. }
  destruct Hres as [-> _]. simpl.
  unfold bind at 1. simpl.
  destruct (missing_parameters E w neg pos); [|done].
  unfold bind at 1.
  match goal with |- context [filter_stage E ?t ?n ?i ?o ?v ?ts ?l w] =>
    pose proof (filter_stage_cases E t n i o v ts l w) as H1;
    destruct (filter_stage E t n i o v ts l w) as [[[neg_summary logs1]|r|e] w1]
  end; simpl in H1.
  2: { destruct H1 as (_ & argv & proc & fs & _ & _ & -> & ->). apply Hhalt. }
  2: { done. }
  clear H1. simpl.
  unfold bind at 1.
  match goal with |- context [filter_stage E ?t ?n ?i ?o ?v ?ts ?l w1] =>
    pose proof (filter_stage_cases E t n i o v ts l w1) as H2;
    destruct (filter_stage E t n i o v ts l w1) as [[[pos_summary logs2]|r|e] w2]
  end; simpl in H2.
  2: { destruct H2 as (_ & argv & proc & fs & _ & _ & -> & ->). apply Hhalt. }
  2: { done. }
  clear H2. simpl.
  unfold bind at 1.
  match goal with |- context [amalgamate_stage E ?n ?p ?o ?l w2] =>
    pose proof (amalgamate_stage_cases E n p o l w2) as H3;
    destruct (amalgamate_stage E n p o l w2) as [[[amalgamated logs3]|r|e] w3]
  end; simpl in H3.
  2: { destruct H3 as (_ & argv & proc & fs & _ & _ & -> & ->). apply Hhalt. }
  2: { done. }
  clear H3. simpl.
  unfold bind at 1.
  match goal with |- context [search_stage E ?i ?o ?l w3] =>
    pose proof (search_stage_cases E i o l w3) as H4;
    destruct (search_stage E i o l w3) as [[[obj logs4]|r|e] w4]
  end; simpl in H4.
  2: { destruct H4 as (w3' & argv & proc & fs & _ & _ & _ & -> & ->).
       apply Hhalt. }
  2: { done. }
  clear H4. simpl. quiet_bind db. quiet_bind db_name. simpl.
  split; [|split].
  - intros p [H|[H|[H|H]]]; try by apply if_file_some in H.
    destruct amalgamated; try done.
    destruct (truthy (VStr s)); [|done]. by apply if_file_some in H.
  - unfold if_file. by destruct (isfile w4 _).
  - done.
Qed.

(** X15. What a full pipeline run does with saved search parameters it
    cannot use, for a run given a negative input alone.  When
    [mssearch.json] is not a file as the request arrives -- missing, or a
    directory -- the run is refused before any process is started, naming
    the search among the stages to configure.  When the file passed that
    check and the filter has exited with code zero, but what is then under
    [mssearch.json] is not JSON, the run goes on: the overlay holds just
    the three web settings, the search is run with it, and the page names
    its artifacts after [all_lmsd].  Saved parameters that are JSON but not
    an object are not survived: after the filter no overlay is written, no
    search is started, and the request ends in an [AttributeError]. *)
Theorem search_parameters_unreadable_or_not_object (form : gmap string string)
    (w : World) proc1 fs1 :
  let neg := form_get form "neg_input" "" in
  let out := form_get form "output_dir" "" in
  let saved := config_file E "mssearch.json" in
  let overlay := config_file E "mssearch_web_pipeline.json" in
  let argv1 := filter_argv E neg out (form_bool form "verbose")
                 (form_bool form "timestamp") in
  let argv2 := search_argv E (os_path_join out "peakfilter_negative_summary.csv") out in
  let w1 := mkWorld fs1 (fd_regular w) (spawned w ++ [argv1]) in
  let w2 := mkWorld (<[overlay := Json (VDict overlay_defaults)]> fs1)
              (fd_regular w) (spawned w ++ [argv1]) in
  let l1 := log_entry "PeakFilter (negative)" argv1 proc1 in
  neg ≠ "" -> form_get form "pos_input" "" = "" -> out ≠ "" ->
  (isfile w saved = false ->
   respond (run_pipeline_full E form) w =
     (Redirect "pipeline"
        ("Missing parameters for: "
         +:+ str_join ", " (missing_parameters E w (VStr neg) (VStr ""))
         +:+ ". Configure them under Params."), w)
   ∧ In "MSSearch" (missing_parameters E w (VStr neg) (VStr "")))
  ∧ (missing_parameters E w (VStr neg) (VStr "") = [] ->
     subprocess_run E argv1 None w = inr (proc1, fs1) ->
     returncode proc1 = 0 ->
     ((∀ v, fs1 !! saved ≠ Some (Json v)) ->
      fs1 !! overlay ≠ Some Directory ->
      ∀ proc2 fs2,
        let w3 := mkWorld fs2 (fd_regular w) (spawned w ++ [argv1; argv2]) in
        subprocess_run E argv2 None w2 = inr (proc2, fs2) ->
        returncode proc2 = 0 ->
        respond (run_pipeline_full E form) w =
          (pipeline_page E w3 out "all_lmsd" [l1; log_entry "MSSearch" argv2 proc2] None,
           w3))
     ∧ (∀ v, fs1 !! saved = Some (Json v) -> (∀ d, v ≠ VDict d) ->
          respond (run_pipeline_full E form) w = (Crash AttributeError, w1))).
Proof.
  cbv zeta. intros Hneg Hpos Hout.
  split.
  - intros Hfile.
    assert (Hin : In "MSSearch"
                    (missing_parameters E w (VStr (form_get form "neg_input" ""))
                       (VStr ""))).
    { unfold missing_parameters. rewrite Hfile. cbn [negb].
      apply in_or_app. right. apply in_or_app. right. by left. }
    split; [|exact Hin].
    unfold respond, run_pipeline_full. cbv zeta.
    rewrite (nonempty_true _ Hout). rewrite Hpos in *. cbn [negb].
    unfold bind at 1. unfold resolve_top_inputs. cbn [truthy].
    rewrite (nonempty_true _ Hneg : negb (String.eqb _ "") = true).
    cbn [orb negb]. unfold ret at 1. cbn [fst snd].
    unfold bind at 1. unfold get_world at 1.
    by destruct (missing_parameters E w (VStr (form_get form "neg_input" "")) (VStr "")).
  - intros Hmiss Hrun1 Hrc1.
    assert (Hin : py_or VNone
                    (py_or (VStr (os_path_join (form_get form "output_dir" "")
                                    "peakfilter_negative_summary.csv")) VNone)
                  = VStr (os_path_join (form_get form "output_dir" "")
                            "peakfilter_negative_summary.csv")).
    { unfold py_or. cbn [truthy].
      by rewrite (os_path_join_nonempty _ "peakfilter_negative_summary.csv" eq_refl
                  : negb (String.eqb _ "") = true). }
    split; [intros Hsaved Hdir proc2 fs2 Hrun2 Hrc2|intros v Hsaved Hv].
    all: unfold respond, run_pipeline_full; cbv zeta;
      rewrite (nonempty_true _ Hout); rewrite Hpos in *; cbn [negb];
      unfold bind at 1; unfold resolve_top_inputs; cbn [truthy];
      rewrite (nonempty_true _ Hneg : negb (String.eqb _ "") = true);
      cbn [orb negb]; unfold ret at 1; cbn [fst snd];
      unfold bind at 1; unfold get_world at 1; rewrite Hmiss;
      unfold bind at 1;
      rewrite (filter_stage_run E _ _ _ _ _ _ _ _ _ _ Hneg Hrun1);
      rewrite Hrc1; cbn [Z.eqb fst snd];
      unfold bind at 1; unfold filter_stage at 1; cbn [truthy String.eqb negb];
      unfold ret at 1; cbn [fst snd];
      unfold bind at 1; unfold amalgamate_stage at 1; cbn [truthy];
      rewrite andb_false_r; unfold ret at 1; cbn [fst snd];
      rewrite Hin; unfold bind at 1.
    + assert (Hst : stored (fs1 !! config_file E "mssearch.json") = VDict []).
      { destruct (fs1 !! config_file E "mssearch.json") as [[| |v]|] eqn:H; try done.
        by destruct (Hsaved v). }
      rewrite (search_stage_run E [] (mkWorld fs1 _ _) _ _ _ proc2 fs2 Hst Hdir Hrun2).
      rewrite Hrc2. cbn [Z.eqb fst snd app].
      unfold bind, py_get, py_or, py_lower, ret, get_world, pipeline_page.
      cbn [fst snd fd_regular spawned]. by rewrite <- app_assoc.
    + unfold search_stage, bind at 1.
      rewrite (write_search_overlay_eq E). cbn [files].
      rewrite Hsaved. cbn [stored].
      destruct v; try done. by destruct (Hv d).
Qed.

(** X23. A full pipeline run given both inputs, all of whose stages exit
    with code zero, is four runs in this order: the filter on the negative
    input, the filter on the positive input, the amalgamator on the two
    summaries the filters left under the output directory, and the search
    on [amalgamated.csv] there.  The page logs the four runs and links to
    the amalgamated file when it is on disk. *)
Theorem pipeline_both_polarities (form : gmap string string) (w : World)
    proc1 fs1 proc2 fs2 proc3 fs3 (d : dict) proc4 fs4 :
  let neg := form_get form "neg_input" "" in
  let pos := form_get form "pos_input" "" in
  let out := form_get form "output_dir" "" in
  let argv1 := filter_argv E neg out (form_bool form "verbose")
                 (form_bool form "timestamp") in
  let argv2 := filter_argv E pos out (form_bool form "verbose")
                 (form_bool form "timestamp") in
  let argv3 := amalgamate_argv E out in
  let argv4 := search_argv E (os_path_join out "amalgamated.csv") out in
  let w1 := mkWorld fs1 (fd_regular w) (spawned w ++ [argv1]) in
  let w2 := mkWorld fs2 (fd_regular w) (spawned w ++ [argv1; argv2]) in
  let w3 := mkWorld (<[config_file E "mssearch_web_pipeline.json" :=
                        Json (VDict (overlay_of d))]> fs3)
              (fd_regular w) (spawned w ++ [argv1; argv2; argv3]) in
  let w4 := mkWorld fs4 (fd_regular w) (spawned w ++ [argv1; argv2; argv3; argv4]) in
  let logs := [log_entry "PeakFilter (negative)" argv1 proc1;
               log_entry "PeakFilter (positive)" argv2 proc2;
               log_entry "Amalgamator" argv3 proc3;
               log_entry "MSSearch" argv4 proc4] in
  neg ≠ "" -> pos ≠ "" -> out ≠ "" ->
  missing_parameters E w (VStr neg) (VStr pos) = [] ->
  subprocess_run E argv1 None w = inr (proc1, fs1) -> returncode proc1 = 0 ->
  subprocess_run E argv2 None w1 = inr (proc2, fs2) -> returncode proc2 = 0 ->
  subprocess_run E argv3 None w2 = inr (proc3, fs3) -> returncode proc3 = 0 ->
  stored (fs3 !! config_file E "mssearch.json") = VDict d ->
  fs3 !! config_file E "mssearch_web_pipeline.json" ≠ Some Directory ->
  subprocess_run E argv4 None w3 = inr (proc4, fs4) -> returncode proc4 = 0 ->
  respond (run_pipeline_full E form) w =
    (match database_name (overlay_of d) with
     | Some db =>
         pipeline_page E w4 out db logs (if_file w4 (os_path_join out "amalgamated.csv"))
     | None => Crash AttributeError
     end, w4).
Proof.
  cbv zeta.
  intros Hneg Hpos Hout Hmiss Hrun1 Hrc1 Hrun2 Hrc2 Hrun3 Hrc3 Hst Hdir Hrun4 Hrc4.
  unfold respond, run_pipeline_full. cbv zeta.
  rewrite (nonempty_true _ Hout). cbn [negb].
  unfold bind at 1. unfold resolve_top_inputs. cbn [truthy].
  rewrite (nonempty_true _ Hneg : negb (String.eqb _ "") = true).
  cbn [orb negb]. unfold ret at 1. cbn [fst snd].
  unfold bind at 1. unfold get_world at 1. rewrite Hmiss.
  unfold bind at 1.
  rewrite (filter_stage_run E _ _ _ _ _ _ _ _ _ _ Hneg Hrun1).
  rewrite Hrc1. cbn [Z.eqb fst snd].
  unfold bind at 1.
  rewrite (filter_stage_run E _ _ _ _ _ _ _ _ _ _ Hpos Hrun2).
  rewrite Hrc2. cbn [Z.eqb fst snd app].
  unfold bind at 1. cbn [fd_regular spawned]. rewrite <- app_assoc. cbn [app].
  rewrite (amalgamate_stage_run E _ _ _ _ _ Hrun3).
  rewrite Hrc3. cbn [Z.eqb fst snd app fd_regular spawned].
  rewrite <- app_assoc. cbn [app].
  assert (Hin : ∀ x y,
            py_or (VStr (os_path_join (form_get form "output_dir" "") "amalgamated.csv"))
              (py_or x y)
            = VStr (os_path_join (form_get form "output_dir" "") "amalgamated.csv")).
  { intros x y. unfold py_or at 1. cbn [truthy].
    by rewrite (os_path_join_nonempty _ "amalgamated.csv" eq_refl
                : negb (String.eqb _ "") = true). }
  rewrite Hin. unfold bind at 1.
  rewrite (search_stage_run E d (mkWorld fs3 _ _) _ _ _ proc4 fs4 Hst Hdir Hrun4).
  rewrite Hrc4. cbn [Z.eqb fst snd app fd_regular spawned].
  rewrite <- app_assoc. cbn [app].
  unfold bind at 1. unfold py_get, ret at 1.
  unfold database_name.
  destruct (py_or (dict_get "database" (overlay_of d)) (VStr "all_lmsd"));
    unfold bind, py_lower, raise, ret, get_world, pipeline_page;
    cbn [fst snd fd_regular spawned truthy]; try done.
  by rewrite (os_path_join_nonempty _ "amalgamated.csv" eq_refl
              : negb (String.eqb _ "") = true).
Qed.

End PipelineRuns.

(** ** A state document that is no object *)

Section StateShape.

Variable E : Env.

Lemma merge_kwargs_raises (kwargs : dict) (st : value) (w : World) :
  (∀ d, st ≠ VDict d) ->
  existsb (fun kv => is_not_None (snd kv)) kwargs = true ->
  merge_kwargs kwargs st w = (Raise TypeError, w).
Proof.
  intros Hst. induction kwargs as [|[k v] r IH]; simpl; [done|].
  unfold bind. destruct (is_not_None v); simpl; [intros _|exact IH].
  destruct st; try done. by destruct (Hst d).
Qed.

Lemma update_state_raises (kwargs : dict) (v : value) (w : World) :
  (∀ d, v ≠ VDict d) ->
  files w !! STATE_PATH E = Some (Json v) ->
  existsb (fun kv => is_not_None (snd kv)) kwargs = true ->
  update_state E kwargs w = (Raise TypeError, w).
Proof.
  intros Hv Hst Hk. unfold update_state, bind at 1.
  rewrite read_state_stored, Hst. simpl.
  unfold bind. by rewrite (merge_kwargs_raises kwargs v w Hv Hk).
Qed.

(** X16. A state document that is JSON but not an object cannot be
    updated: [update_state] with anything to record raises a [TypeError]
    and writes nothing.  A filter request swallows this and answers as
    usual, the state left as the process left it; an amalgamation request
    that has just succeeded does not, and ends in the exception after its
    process has run. *)
Theorem state_must_be_an_object (v : value) (form : gmap string string) (w : World)
    proc fs :
  let out := form_get form "output_dir" "" in
  let w_after argv := mkWorld fs (fd_regular w) (spawned w ++ [argv]) in
  (∀ d, v ≠ VDict d) ->
  (∀ kwargs w0,
     files w0 !! STATE_PATH E = Some (Json v) ->
     existsb (fun kv => is_not_None (snd kv)) kwargs = true ->
     update_state E kwargs w0 = (Raise TypeError, w0))
  ∧ (let p := form_get form "input_path" "" in
     p ≠ "" -> out ≠ "" ->
     isfile w (form_get form "params_path" (config_file E "peakfilter.json")) = true ->
     subprocess_run E (peakfilter_argv E form p) None w = inr (proc, fs) ->
     fs !! STATE_PATH E = Some (Json v) ->
     respond (run_peakfilter E form) w =
       (RunResult "PeakFilter Run" (str_join " " (peakfilter_argv E form p))
          (returncode proc =? 0) out (stdout proc) (stderr proc),
        w_after (peakfilter_argv E form p)))
  ∧ (let n := form_get form "neg_file" "" in
     let p := form_get form "pos_file" "" in
     n ≠ "" -> p ≠ "" -> out ≠ "" ->
     isfile w (form_get form "params_path" (config_file E "amalgamator.json")) = true ->
     subprocess_run E (amalgamator_argv E form n p) None w = inr (proc, fs) ->
     returncode proc = 0 ->
     fs !! STATE_PATH E = Some (Json v) ->
     respond (run_amalgamator E form) w =
       (Crash TypeError, w_after (amalgamator_argv E form n p))).
Proof.
  cbv zeta. intros Hv. split; [|split].
  - intros kwargs w0 Hst Hk. by apply (update_state_raises kwargs v).
  - intros Hp Hout Hparams Hrun Hst.
    unfold run_peakfilter. cbv zeta. cbn [truthy].
    rewrite (nonempty_true _ Hp : negb (String.eqb _ "") = true). cbn [negb].
    rewrite (respond_bind_next _ _ w w (VStr (form_get form "input_path" "")) eq_refl).
    rewrite (run_peakfilter_settled E form w _ proc fs _ (fun _ => eq_refl) Hparams Hrun).
    rewrite (nonempty_true _ Hout).
    rewrite (update_state_raises _ v (mkWorld fs _ _) Hv Hst); [done|].
    by destruct (inferPolarity _).
  - intros Hn Hp Hout Hparams Hrun Hrc Hst.
    unfold run_amalgamator. cbv zeta. cbn [truthy].
    rewrite (nonempty_true _ Hn : negb (String.eqb _ "") = true).
    rewrite (nonempty_true _ Hp : negb (String.eqb _ "") = true). cbn [andb negb].
    rewrite (respond_bind_next _ _ w w
               (VStr (form_get form "neg_file" ""), VStr (form_get form "pos_file" ""))
               eq_refl).
    rewrite (run_amalgamator_settled E form w _ _ proc fs _ (fun _ => eq_refl)
               Hparams Hrun).
    rewrite Hrc, (nonempty_true _ Hout). cbn [Z.eqb andb].
    by rewrite (update_state_raises _ v (mkWorld fs _ _) Hv Hst).
Qed.

End StateShape.

(** ** The parameter forms *)

(** *** Text of the pairs *)




















(** *** Dictionaries built key by key *)

Lemma keys_dict_set (k : string) (v : value) (d : dict) :
  keys (dict_set k v d)
  = if existsb (String.eqb k) (keys d) then keys d else keys d ++ [k].
Proof.
  induction d as [|[k' v'] r IH]; simpl; [done|].
  destruct (String.eqb k k') eqn:Hk; simpl.
  - apply String.eqb_eq in Hk. by subst.
  - unfold keys in *. rewrite IH. by destruct (existsb _ _).
Qed.

Lemma existsb_eqb_In (k : string) (l : list string) :
  existsb (String.eqb k) l = true <-> In k l.
Proof.
  rewrite existsb_exists. split.
  - intros (x & Hx & Heq). apply String.eqb_eq in Heq. by subst.
  - intros H. exists k. by rewrite String.eqb_refl.
Qed.

Lemma dict_set_fresh (k : string) (v : value) (d : dict) :
  ¬ In k (keys d) -> dict_set k v d = d ++ [(k, v)].
Proof.
  induction d as [|[k' v'] r IH]; simpl; [done|].
  intros H. destruct (String.eqb k k') eqn:Hk.
  - apply String.eqb_eq in Hk. destruct H. by left.
  - rewrite IH; [done|]. intros Hin. apply H. by right.
Qed.

Lemma NoDup_keys_dict_set (k : string) (v : value) (d : dict) :
  NoDup (keys d) -> NoDup (keys (dict_set k v d)).
Proof.
  intros H. rewrite keys_dict_set.
  destruct (existsb (String.eqb k) (keys d)) eqn:Hex; [done|].
  apply NoDup_app. split; [done|]. split; [|apply NoDup_singleton].
  intros x Hx Hk. apply list_elem_of_singleton in Hk. subst x.
  apply list_elem_of_In, existsb_eqb_In in Hx. congruence.
Qed.

Lemma Forall_dict_set (P : string * value -> Prop) (k : string) (v : value) (d : dict) :
  P (k, v) -> Forall P d -> Forall P (dict_set k v d).
Proof.
  intros Hk. induction d as [|[k' v'] r IH]; simpl; intros H.
  - by constructor.
  - inversion H; subst. destruct (String.eqb k k'); constructor; auto.
Qed.

Lemma dict_find_In (k : string) (v : value) (d : dict) :
  NoDup (keys d) -> In (k, v) d -> dict_find k d = Some v.
Proof.
  induction d as [|[k' v'] r IH]; simpl; [done|].
  intros Hnd Hin. apply NoDup_cons in Hnd as [Hk' Hr].
  destruct Hin as [[= -> ->]|Hin].
  - by rewrite String.eqb_refl.
  - destruct (String.eqb k k') eqn:Hk; [|by apply IH].
    apply String.eqb_eq in Hk. subst. destruct Hk'.
    apply list_elem_of_In, in_map_iff. by exists (k', v).
Qed.

(** *** Reading and writing JSON files *)

(** [read_json] and [write_json] are the library calls of the stage
    handlers, without the step through the file object. *)
Lemma read_json_open_r (w : World) (path : string) :
  (f <- open_r path ;; json_load f) w
  = match read_json w path with
    | inr v => (Next v, w)
    | inl e => (Raise e, w)
    end.
Proof.
  unfold bind, open_r, read_json, json_load.
  by destruct (files w !! path) as [[| |]|].
Qed.

Lemma write_json_dump_to (path : string) (obj : value) (w : World) :
  json_dump_to path obj w
  = match write_json path obj w with
    | inr w' => (Next tt, w')
    | inl e => (Raise e, w)
    end.
Proof.
  unfold json_dump_to, write_json.
  by destruct (files w !! path) as [[| |]|].
Qed.

(** *** The requests *)

Section ParamsForms.

Variable E : Env.
Variable LF_DATA_DIR : string.
Variable py_int py_float : string -> option value.

Lemma get_or_is_dict (spec : value) (k : string) (d0 v : value) :
  get_or spec k d0 = inr v -> is_dict spec = true.
Proof. by destruct spec. Qed.

Lemma default_value_for_dict (d : dict) : ∃ v, default_value_for (VDict d) = inr v.
Proof.
  unfold default_value_for, get_or.
  destruct (value_is _ "bool"); [eauto|].
  destruct (value_is _ "path"); [eauto|].
  destruct (existsb _ ["str"; "int"; "float"; "selection"]); [eauto|].
  destruct (existsb _ ["int range"; "float range"]); [eauto|].
  destruct (existsb _ ["multiselection"; "pairs"]); eauto.
Qed.

Lemma filter_specs_inv (module : string) (items acc specs : dict) :
  filter_specs module items acc = inr specs ->
  NoDup (keys acc) -> Forall (fun kv => is_dict (snd kv) = true) acc ->
  NoDup (keys specs) ∧ Forall (fun kv => is_dict (snd kv) = true) specs.
Proof.
  revert acc. induction items as [|[key spec] rest IH]; intros acc; simpl.
  - by intros [= <-].
  - destruct (get_or spec "modules" (VList [])) as [e|modules] eqn:Hget; [done|].
    destruct (py_in module modules) as [e|active]; [done|].
    intros H Hnd Hall. apply (IH _ H).
    + destruct active; [by apply NoDup_keys_dict_set|done].
    + destruct active; [|done].
      apply Forall_dict_set; [|done]. simpl. by apply get_or_is_dict in Hget.
Qed.

Lemma filter_specs_filter (module : string) (items acc specs : dict) :
  NoDup (keys items) -> (∀ k, In k (keys items) -> ¬ In k (keys acc)) ->
  filter_specs module items acc = inr specs ->
  specs = acc ++ List.filter (fun kv => is_active module (snd kv)) items.
Proof.
  revert acc. induction items as [|[key spec] rest IH]; intros acc Hnd Hdisj; simpl.
  - intros [= <-]. by rewrite app_nil_r.
  - apply NoDup_cons in Hnd as [Hkey Hnd]. unfold is_active at 1.
    destruct (get_or spec "modules" (VList [])) as [e|modules]; [done|].
    destruct (py_in module modules) as [e|active]; [done|].
    intros H. destruct active.
    + rewrite (dict_set_fresh key spec acc) in H by (apply Hdisj; by left).
      apply IH in H; [|done|].
      * by rewrite <- app_assoc in H.
      * intros k Hk Hin. unfold keys in Hin. rewrite map_app in Hin.
        apply in_app_iff in Hin as [Hin|[<-|[]]].
        -- apply (Hdisj k); [by right|done].
        -- apply Hkey. by apply list_elem_of_In.
    + apply IH in H; [done|done|]. intros k Hk. apply Hdisj. by right.
Qed.

Lemma filter_specs_fails (module : string) (items acc : dict) (k : string) (spec : value) :
  In (k, spec) items -> is_dict spec = false ->
  ∃ e, filter_specs module items acc = inl e.
Proof.
  revert acc. induction items as [|[key spec'] rest IH]; intros acc; simpl; [done|].
  intros [[= -> ->]|Hin] Hspec.
  - destruct spec; try done; simpl; eauto.
  - destruct (get_or spec' "modules" (VList [])) as [e|modules]; [eauto|].
    destruct (py_in module modules) as [e|active]; [eauto|].
    by apply IH.
Qed.

Lemma posted_value_dict (form : gmap string string) (key : string) (d : dict) e :
  posted_value py_int py_float form key (VDict d) = inl e -> e = ValueError.
Proof.
  unfold posted_value, get_or, raised, cast.
  destruct (value_is _ "bool"); [done|].
  destruct (existsb _ ["int"; "float"]).
  { destruct (form !! key) as [s|]; [|done]. destruct (String.eqb s ""); [done|].
    destruct (if value_is _ "int" then _ else _); [done|]. by intros [= <-]. }
  destruct (value_is _ "selection"); [done|].
  destruct (value_is _ "path"); [done|].
  destruct (existsb _ ["str"]); [done|].
  destruct (existsb _ ["int range"; "float range"]).
  { destruct (form !! (key +:+ "_a")) as [s|].
    - destruct (String.eqb s "").
      + destruct (form !! (key +:+ "_b")) as [s'|]; [|done].
        destruct (String.eqb s' ""); [done|].
        destruct (if value_is _ "int range" then _ else _); [done|]. by intros [= <-].
      + destruct (if value_is _ "int range" then py_int s else _); [|by intros [= <-]].
        destruct (form !! (key +:+ "_b")) as [s'|]; [|done].
        destruct (String.eqb s' ""); [done|].
        destruct (if value_is _ "int range" then _ else _); [done|]. by intros [= <-].
    - destruct (form !! (key +:+ "_b")) as [s'|]; [|done].
      destruct (String.eqb s' ""); [done|].
      destruct (if value_is _ "int range" then _ else _); [done|]. by intros [= <-]. }
  by destruct (value_is _ "pairs").
Qed.

Lemma collect_values_fails (form : gmap string string) (items acc : dict) e :
  Forall (fun kv => is_dict (snd kv) = true) items ->
  collect_values py_int py_float form items acc = inl e -> e = ValueError.
Proof.
  revert acc. induction items as [|[key spec] rest IH]; intros acc Hall; simpl; [done|].
  inversion Hall as [|? ? Hspec Hrest]; subst. simpl in Hspec.
  destruct spec; try done.
  destruct (posted_value py_int py_float form key (VDict d)) as [e'|v] eqn:Hp.
  - intros [= <-]. by apply posted_value_dict in Hp.
  - by apply IH.
Qed.

Lemma collect_values_bad (form : gmap string string) (items acc : dict)
    (key : string) (spec : value) e :
  In (key, spec) items ->
  posted_value py_int py_float form key spec = inl e ->
  ∃ e', collect_values py_int py_float form items acc = inl e'.
Proof.
  revert acc. induction items as [|[key' spec'] rest IH]; intros acc; simpl; [done|].
  intros [[= -> ->]|Hin] Hbad.
  - rewrite Hbad. eauto.
  - destruct (posted_value py_int py_float form key' spec'); [eauto|]. by apply IH.
Qed.

Lemma collect_values_posted (form : gmap string string) (items acc vals : dict) :
  NoDup (keys items) -> (∀ k, In k (keys items) -> ¬ In k (keys acc)) ->
  collect_values py_int py_float form items acc = inr vals ->
  ∃ posted,
    vals = acc ++ posted
    ∧ Forall2 (fun ks kv => fst kv = fst ks
                 ∧ posted_value py_int py_float form (fst ks) (snd ks) = inr (snd kv))
        items posted.
Proof.
  revert acc. induction items as [|[key spec] rest IH]; intros acc Hnd Hdisj; simpl.
  - intros [= <-]. exists []. by rewrite app_nil_r.
  - apply NoDup_cons in Hnd as [Hkey Hnd].
    destruct (posted_value py_int py_float form key spec) as [e|v] eqn:Hp; [done|].
    rewrite (dict_set_fresh key v acc) by (apply Hdisj; by left).
    intros H. apply IH in H as (posted & -> & Hall); [|done|].
    + exists ((key, v) :: posted). split; [by rewrite <- app_assoc|].
      constructor; [done|exact Hall].
    + intros k Hk Hin. unfold keys in Hin. rewrite map_app in Hin.
      apply in_app_iff in Hin as [Hin|[<-|[]]].
      * apply (Hdisj k); [by right|done].
      * apply Hkey. by apply list_elem_of_In.
Qed.

Lemma prefill_shown (saved items acc : dict) :
  NoDup (keys items) -> (∀ k, In k (keys items) -> ¬ In k (keys acc)) ->
  Forall (fun kv => is_dict (snd kv) = true) items ->
  prefill (VDict saved) items acc
  = inr (acc ++ map (fun ks => (fst ks, shown saved (fst ks) (snd ks))) items).
Proof.
  revert acc. induction items as [|[key spec] rest IH]; intros acc Hnd Hdisj Hall; simpl.
  - by rewrite app_nil_r.
  - apply NoDup_cons in Hnd as [Hkey Hnd].
    inversion Hall as [|? ? Hspec Hrest]; subst. simpl in Hspec.
    destruct spec; try done.
    destruct (default_value_for_dict d) as [dv Hdv]. unfold shown at 1. rewrite Hdv.
    rewrite (dict_set_fresh key _ acc) by (apply Hdisj; by left).
    rewrite IH; [by rewrite <- app_assoc|done| |done].
    intros k Hk Hin. unfold keys in Hin. rewrite map_app in Hin.
    apply in_app_iff in Hin as [Hin|[<-|[]]].
    + apply (Hdisj k); [by right|done].
    + apply Hkey. by apply list_elem_of_In.
Qed.

Lemma Forall2_map_eq {A B} (R : A -> B -> Prop) (f : A -> B) (l1 : list A) (l2 : list B) :
  Forall2 R l1 l2 -> (∀ x y, In y l2 -> R x y -> f x = y) -> map f l1 = l2.
Proof.
  induction 1 as [|x y l1 l2 Hxy _ IH]; intros Hf; simpl; [done|].
  rewrite (Hf x y); [|by left|done]. f_equal. apply IH.
  intros x' y' Hin. apply Hf. by right.
Qed.

Lemma Forall2_keys {A} (R : string * A -> string * value -> Prop)
    (l1 : list (string * A)) (l2 : dict) :
  Forall2 R l1 l2 -> (∀ x y, R x y -> fst y = fst x) -> keys l2 = map fst l1.
Proof.
  induction 1 as [|x y l1 l2 Hxy _ IH]; intros Hf; simpl; [done|].
  rewrite (Hf x y Hxy). f_equal. by apply IH.
Qed.

Lemma module_params_inv (w : World) (module : string) (specs : dict) :
  module_params LF_DATA_DIR w module = inr specs ->
  NoDup (keys specs) ∧ Forall (fun kv => is_dict (snd kv) = true) specs.
Proof.
  unfold module_params.
  destruct (load_template LF_DATA_DIR w) as [e|[]]; try done.
  intros H. apply (filter_specs_inv _ _ _ _ H); [apply NoDup_nil_2|done].
Qed.

(** X18. Saving and reopening a parameter form is a round trip.  After a
    POST for a known module that went through, the module's file holds a
    value for exactly the parameters of the template that are active for
    the module, and a GET for the module then shows each of these with the
    value just saved. *)
Theorem params_save_then_prefill (module : string) (form form' : gmap string string)
    (w w1 : World) (resp : ParamsResponse) :
  let m := lower module in
  let saved_path := config_file E (m +:+ ".json") in
  existsb (String.eqb m) ["peakfilter"; "amalgamator"; "mssearch"] = true ->
  LF_DATA_DIR +:+ "/parameters_template.json" ≠ saved_path ->
  params E LF_DATA_DIR py_int py_float POST module form w = (inr resp, w1) ->
  ∃ specs values,
    module_params LF_DATA_DIR w m = inr specs
    ∧ resp = ParamsRedirect "index"
               ("Saved parameters for " +:+ m +:+ " to " +:+ saved_path)
    ∧ files w1 !! saved_path = Some (Json (VDict values))
    ∧ keys values = keys specs
    ∧ params E LF_DATA_DIR py_int py_float GET module form' w1
      = (inr (ParamsPage m specs values), w1).
Proof.
  cbv zeta. intros Hknown Hne Hpost.
  unfold params in Hpost. cbv zeta in Hpost. rewrite Hknown in Hpost. cbn [negb] in Hpost.
  destruct (module_params LF_DATA_DIR w (lower module)) as [e|specs] eqn:Hspecs; [done|].
  destruct (collect_values py_int py_float form specs []) as [e|values] eqn:Hvals; [done|].
  destruct (module_params_inv _ _ _ Hspecs) as [Hnd Hdicts].
  apply collect_values_posted in Hvals as (posted & -> & Hposted); [|done|by intros k _ []].
  cbn [app] in *.
  assert (Hkeys : keys posted = keys specs).
  { apply (Forall2_keys _ _ _ Hposted). by intros x y [H _]. }
  assert (Hw1 : w1 = mkWorld (<[config_file E (lower module +:+ ".json") :=
                                 Json (VDict posted)]> (files w))
                       (fd_regular w) (spawned w)
                ∧ resp = ParamsRedirect "index"
                           ("Saved parameters for " +:+ lower module +:+ " to "
                            +:+ config_file E (lower module +:+ ".json"))).
  { unfold write_json in Hpost.
    by destruct (files w !! config_file E (lower module +:+ ".json")) as [[| |]|];
      inversion Hpost. }
  destruct Hw1 as [-> ->]. clear Hpost.
  exists specs, posted. split; [done|]. split; [done|].
  split; [simpl; by rewrite lookup_insert_eq|]. split; [done|].
  unfold params. cbv zeta. rewrite Hknown. cbn [negb].
  assert (Hspecs1 : module_params LF_DATA_DIR
            (mkWorld (<[config_file E (lower module +:+ ".json") :=
                         Json (VDict posted)]> (files w)) (fd_regular w) (spawned w))
            (lower module) = inr specs).
  { rewrite <- Hspecs. unfold module_params, load_template, read_json. simpl.
    by rewrite lookup_insert_ne. }
  rewrite Hspecs1.
  unfold exists_path, read_json. simpl. rewrite lookup_insert_eq.
  rewrite (prefill_shown posted specs []); [|done|by intros k _ []|done].
  simpl. do 3 f_equal.
  apply (Forall2_map_eq _ _ _ _ Hposted).
  intros [k spec] [k' v] Hin [Hk _]. simpl in *. subst k'.
  unfold shown. rewrite (dict_find_In k v posted); [done| |done].
  by rewrite Hkeys.
Qed.

(** X19. A parameter request touches nothing but the file of its module,
    and that only when it saves: a GET, a request for an unknown module and
    a request that ends in an exception all leave the world as it was; no
    request starts a process. *)
Theorem params_writes_only_its_file (method : Method) (module : string)
    (form : gmap string string) (w : World) :
  let r := params E LF_DATA_DIR py_int py_float method module form w in
  spawned (snd r) = spawned w
  ∧ (∀ p, p ≠ config_file E (lower module +:+ ".json") ->
          files (snd r) !! p = files w !! p)
  ∧ (method = GET -> snd r = w)
  ∧ (∀ e, fst r = inl e -> snd r = w)
  ∧ (existsb (String.eqb (lower module)) ["peakfilter"; "amalgamator"; "mssearch"]
     = false ->
     r = (inr (ParamsRedirect "index" "Unknown module"), w)).
Proof.
  cbv zeta. unfold params. cbv zeta.
  destruct (existsb _ _); cbn [negb]; [|done].
  destruct (module_params _ _ _) as [e|specs]; [done|].
  destruct method.
  - by destruct (prefill _ _ _).
  - destruct (collect_values _ _ _ _ _) as [e|values]; [done|].
    unfold write_json.
    destruct (files w !! config_file E (lower module +:+ ".json")) as [[| |]|] eqn:Hf;
      simpl; repeat split; try done; intros p Hp; by rewrite lookup_insert_ne.
Qed.

(** X20. One number that cannot be read rejects the whole form: when the
    text posted for an active parameter of type [int] or [float] is not
    empty and not a number, the request ends in a [ValueError] and nothing
    is saved -- the module's file keeps what it held. *)
Theorem bad_number_rejects_whole_form (module : string) (form : gmap string string)
    (w : World) (specs : dict) (key : string) (spec : value) (s : string) :
  let m := lower module in
  existsb (String.eqb m) ["peakfilter"; "amalgamator"; "mssearch"] = true ->
  module_params LF_DATA_DIR w m = inr specs ->
  In (key, spec) specs ->
  (get_or spec "type" VNone = inr (VStr "int") ∧ py_int s = None)
  ∨ (get_or spec "type" VNone = inr (VStr "float") ∧ py_float s = None) ->
  form !! key = Some s -> s ≠ "" ->
  params E LF_DATA_DIR py_int py_float POST module form w = (inl ValueError, w).
Proof.
  cbv zeta. intros Hknown Hspecs Hin Htype Hform Hs.
  destruct (module_params_inv _ _ _ Hspecs) as [_ Hdicts].
  assert (Hbad : posted_value py_int py_float form key spec = inl ValueError).
  { unfold posted_value, cast. rewrite Hform.
    rewrite (proj2 (String.eqb_neq s "") Hs).
    by destruct Htype as [[-> ->]|[-> ->]]. }
  destruct (collect_values_bad form specs [] key spec _ Hin Hbad) as [e He].
  pose proof (collect_values_fails form specs [] e Hdicts He) as ->.
  unfold params. cbv zeta. rewrite Hknown. cbn [negb]. by rewrite Hspecs, He.
Qed.

(** X21. The form of a known module shows, for each active parameter, the
    value saved for it when the module's file holds one and the default of
    the template otherwise; a file that is missing, a directory or not JSON
    counts as holding nothing, and the default always exists.  A saved file
    that is JSON but not an object ends the request in an
    [AttributeError] as soon as there is a parameter to show. *)
Theorem params_page_shows_saved_or_default (module : string)
    (form : gmap string string) (w : World) (specs : dict) :
  let m := lower module in
  let saved_path := config_file E (m +:+ ".json") in
  existsb (String.eqb m) ["peakfilter"; "amalgamator"; "mssearch"] = true ->
  module_params LF_DATA_DIR w m = inr specs ->
  (∀ saved,
     stored (files w !! saved_path) = VDict saved ->
     params E LF_DATA_DIR py_int py_float GET module form w
     = (inr (ParamsPage m specs
               (map (fun ks => (fst ks, shown saved (fst ks) (snd ks))) specs)), w)
     ∧ ∀ key spec, In (key, spec) specs ->
         ∃ d, default_value_for spec = inr d
              ∧ (dict_find key saved = None -> shown saved key spec = d)
              ∧ (∀ v, dict_find key saved = Some v -> shown saved key spec = v))
  ∧ (∀ v, files w !! saved_path = Some (Json v) -> is_dict v = false -> specs ≠ [] ->
       params E LF_DATA_DIR py_int py_float GET module form w
       = (inl (Raised AttributeError), w)).
Proof.
  cbv zeta. intros Hknown Hspecs.
  destruct (module_params_inv _ _ _ Hspecs) as [Hnd Hdicts].
  split.
  - intros saved Hsaved. split.
    + unfold params. cbv zeta. rewrite Hknown. cbn [negb]. rewrite Hspecs.
      assert (Hsv : (if exists_path w (config_file E (lower module +:+ ".json"))
                     then match read_json w (config_file E (lower module +:+ ".json")) with
                          | inr v => v
                          | inl _ => VDict []
                          end
                     else VDict []) = VDict saved).
      { rewrite <- Hsaved. unfold exists_path, read_json, stored.
        by destruct (files w !! config_file E (lower module +:+ ".json")) as [[| |]|]. }
      rewrite Hsv.
      by rewrite (prefill_shown saved specs []); [|done|by intros k _ []|done].
    + intros key spec Hin. rewrite Forall_forall in Hdicts.
      apply list_elem_of_In in Hin. specialize (Hdicts _ Hin). simpl in Hdicts.
      destruct spec; try done.
      destruct (default_value_for_dict d) as [dv Hdv].
      exists dv. split; [done|]. unfold shown. rewrite Hdv.
      split; [by intros ->|by intros v ->].
  - intros v Hfile Hv Hne.
    unfold params. cbv zeta. rewrite Hknown. cbn [negb]. rewrite Hspecs.
    unfold exists_path, read_json. rewrite Hfile.
    destruct specs as [|[key spec] rest]; [done|]. simpl.
    by destruct v.
Qed.

(** X22. The parameters of a module are the entries of the template that
    list the module, in the order of the template.  The template is read
    as a whole: one entry that is not an object -- whether or not it would
    concern the module -- ends [module_params] in an exception for every
    module. *)
Theorem module_params_are_the_active_entries (w : World) (module : string)
    (tpl : dict) :
  load_template LF_DATA_DIR w = inr (VDict tpl) ->
  (NoDup (keys tpl) ->
   ∀ specs, module_params LF_DATA_DIR w module = inr specs ->
            specs = List.filter (fun kv => is_active module (snd kv)) tpl)
  ∧ (∀ k spec, In (k, spec) tpl -> is_dict spec = false ->
               ∃ e, module_params LF_DATA_DIR w module = inl e).
Proof.
  intros Htpl. unfold module_params. rewrite Htpl. split.
  - intros Hnd specs H.
    by apply (filter_specs_filter module tpl [] specs Hnd) in H; [|by intros k _ []].
  - intros k spec Hin Hspec. by apply (filter_specs_fails module tpl [] k spec).
Qed.

(** X24. Parameters saved through the form are found by the rest of the
    application: after a POST for a known module that went through, the
    module's file is a file on disk, the start page shows the module as
    saved, and a full pipeline run no longer lists the module among those
    whose parameters are missing. *)
Theorem saved_parameters_are_found (module : string) (form : gmap string string)
    (w w1 : World) (resp : ParamsResponse) :
  let m := lower module in
  existsb (String.eqb m) ["peakfilter"; "amalgamator"; "mssearch"] = true ->
  params E LF_DATA_DIR py_int py_float POST module form w = (inr resp, w1) ->
  isfile w1 (config_file E (m +:+ ".json")) = true
  ∧ In (m, true) (index E w1)
  ∧ ∀ neg pos, ¬ In (stage_title m) (missing_parameters E w1 neg pos).
Proof.
  cbv zeta. intros Hknown Hpost.
  assert (Hfile : isfile w1 (config_file E (lower module +:+ ".json")) = true).
  { unfold params in Hpost. cbv zeta in Hpost. rewrite Hknown in Hpost.
    cbn [negb] in Hpost.
    destruct (module_params _ _ _) as [e|specs]; [done|].
    destruct (collect_values _ _ _ _ _) as [e|values]; [done|].
    unfold write_json in Hpost. unfold isfile.
    destruct (files w !! config_file E (lower module +:+ ".json")) as [[| |]|];
      inversion Hpost; subst; simpl; by rewrite lookup_insert_eq. }
  split; [exact Hfile|].
  assert (Hex : exists_path w1 (config_file E (lower module +:+ ".json")) = true).
  { unfold isfile in Hfile. unfold exists_path. by destruct (files w1 !! _) as [[| |]|]. }
  cbn [existsb] in Hknown.
  destruct (String.eqb (lower module) "peakfilter") eqn:H1;
    [|destruct (String.eqb (lower module) "amalgamator") eqn:H2;
      [|destruct (String.eqb (lower module) "mssearch") eqn:H3; [|done]]].
  - apply String.eqb_eq in H1. rewrite H1 in *.
    change ("peakfilter" +:+ ".json") with "peakfilter.json" in *. split.
    + left. by rewrite Hex.
    + intros neg pos. unfold missing_parameters. rewrite Hfile.
      cbn [negb stage_title String.eqb Ascii.eqb Bool.eqb].
      destruct (truthy neg || truthy pos);
        repeat match goal with |- context [isfile w1 ?p] => destruct (isfile w1 p) end;
        simpl; intuition congruence.
  - apply String.eqb_eq in H2. rewrite H2 in *.
    change ("amalgamator" +:+ ".json") with "amalgamator.json" in *. split.
    + right. left. by rewrite Hex.
    + intros neg pos. unfold missing_parameters. rewrite Hfile.
      cbn [negb stage_title String.eqb Ascii.eqb Bool.eqb].
      destruct (truthy neg || truthy pos);
        repeat match goal with |- context [isfile w1 ?p] => destruct (isfile w1 p) end;
        simpl; intuition congruence.
  - apply String.eqb_eq in H3. rewrite H3 in *.
    change ("mssearch" +:+ ".json") with "mssearch.json" in *. split.
    + right. right. left. by rewrite Hex.
    + intros neg pos. unfold missing_parameters. rewrite Hfile.
      cbn [negb stage_title String.eqb Ascii.eqb Bool.eqb].
      destruct (truthy neg || truthy pos);
        repeat match goal with |- context [isfile w1 ?p] => destruct (isfile w1 p) end;
        simpl; intuition congruence.
Qed.

End ParamsForms.

(** ** Further instances on the sample installation *)

(** X1, instance: [update_state(a="x")] on a fresh installation, read back. *)
Lemma state_written_is_state_read_witness :
  let E := sample_env 0 in
  let w1 := snd (update_state E [("a", VStr "x")] (on_disk configured)) in
  read_state E w1 = (Next (VDict [("a", VStr "x")]), w1).
Proof.
  cbv zeta.
  exact (proj1 (state_written_is_state_read (sample_env 0) [("a", VStr "x")] []
                  (on_disk configured)
                  ltac:(vm_compute; reflexivity) ltac:(vm_compute; congruence))).
Defined.

(** X2, instance: the report is on disk and the process exits with code 1;
    the answer reports success. *)
Lemma xcms_success_is_output_existence_witness :
  reports_success (fst (respond (xcms (sample_env 1) align_neg) (on_disk aligned)))
  = true.
Proof.
  rewrite (xcms_success_is_output_existence (sample_env 1) align_neg (on_disk aligned)
             (mkProc "" "" 1) (files (on_disk aligned)) []);
    [reflexivity|vm_compute; congruence|reflexivity|reflexivity|vm_compute; congruence].
Defined.

(** X3, instances: no directory given; no [Rscript] to start. *)
Lemma xcms_launch_failures_witness :
  respond (xcms (sample_env 0) (form_of [])) (on_disk configured)
  = (Redirect "xcms" "Please provide the mzXML directory path.", on_disk configured)
  ∧ respond (xcms nothing_starts align_neg) (on_disk configured)
    = (Redirect "xcms" "Rscript not found. Please set the correct Rscript path.",
       on_disk configured).
Proof.
  split.
  - apply (proj1 (xcms_launch_failures (sample_env 0) (form_of []) (on_disk configured))).
    reflexivity.
  - apply (proj2 (xcms_launch_failures nothing_starts align_neg (on_disk configured))
             ltac:(vm_compute; congruence) FileNotFoundError).
    reflexivity.
Defined.

(** X4, instance: the report is not there; nothing is recorded. *)
Lemma xcms_records_only_with_output_witness :
  let E := sample_env 0 in
  files (snd (respond (xcms E align_neg) (on_disk configured))) !! STATE_PATH E
  = files (on_disk configured) !! STATE_PATH E.
Proof.
  cbv zeta.
  apply (proj2 (xcms_records_only_with_output (sample_env 0) align_neg (on_disk configured)
                  (fst (respond (xcms (sample_env 0) align_neg) (on_disk configured)))
                  (snd (respond (xcms (sample_env 0) align_neg) (on_disk configured)))
                  ltac:(apply surjective_pairing) ltac:(vm_compute; reflexivity))).
  intros argv input w proc fs H. vm_compute in H. by inversion H.
Defined.

(** X5, instance: the negative output recorded is gone, the generic one is
    there; the filter is run on the generic one. *)
Lemma peakfilter_resolves_first_existing_witness :
  let E := sample_env 0 in
  fst (respond (run_peakfilter E (form_of [])) (on_disk stale_alignment))
  = RunResult "PeakFilter Run"
      (str_join " " (peakfilter_argv E (form_of []) "/data/run7.csv"))
      true "" "" "".
Proof.
  cbv zeta.
  apply (proj2 (proj2 (peakfilter_resolves_first_existing (sample_env 0) (form_of [])
                  [("xcms_last_negative_csv", VStr "/gone/neg.csv");
                   ("xcms_last_csv", VStr "/data/run7.csv")]
                  (on_disk stale_alignment)
                  ltac:(reflexivity) ltac:(vm_compute; reflexivity) ltac:(reflexivity))
                "/data/run7.csv" (mkProc "" "" 0) (files (on_disk stale_alignment))
                ltac:(vm_compute; reflexivity) ltac:(vm_compute; reflexivity)
                ltac:(reflexivity))).
Defined.

(** X6, instance: a failed filter run on a negative input, with an output
    directory. *)
Lemma peakfilter_records_by_polarity_witness :
  let E := sample_env 1 in
  let form := form_of [("input_path", "/data/NEG_run.csv"); ("output_dir", "/out")] in
  files (snd (respond (run_peakfilter E form) (on_disk configured))) !! STATE_PATH E
  = Some (Json (VDict [("peakfilter_last_negative_summary",
                        VStr "/out/peakfilter_negative_summary.csv")])).
Proof.
  cbv zeta.
  rewrite (peakfilter_records_by_polarity (sample_env 1)
             (form_of [("input_path", "/data/NEG_run.csv"); ("output_dir", "/out")])
             (on_disk configured) (mkProc "" "" 1) (files (on_disk configured)) []);
    [vm_compute; reflexivity|vm_compute; congruence|vm_compute; congruence
    |vm_compute; reflexivity|reflexivity|vm_compute; reflexivity|vm_compute; congruence].
Defined.

(** X7, instance: a search request on an installation without parameters. *)
Lemma stage_needs_parameter_file_witness :
  let E := sample_env 0 in
  let form := form_of [("input_file", "/out/amalgamated.csv")] in
  snd (respond (run_mssearch E form) (on_disk [])) = on_disk []
  ∧ fst (respond (run_mssearch E form) (on_disk []))
    = Redirect "pipeline" "MSSearch parameters not found. Configure them under Params.".
Proof.
  cbv zeta.
  pose proof (proj2 (proj2 (stage_needs_parameter_file (sample_env 0)
                (form_of [("input_file", "/out/amalgamated.csv")]) (on_disk [])))
                ltac:(vm_compute; reflexivity)) as [H1 H2].
  split; [exact H1|]. apply H2. vm_compute. congruence.
Defined.

(** X8, instance: a successful search with an output directory. *)
Lemma search_never_records_witness :
  let E := sample_env 0 in
  let form := form_of [("input_file", "/out/amalgamated.csv"); ("output_dir", "/out")] in
  files (snd (respond (run_mssearch E form) (on_disk configured))) !! STATE_PATH E
  = files (on_disk configured) !! STATE_PATH E.
Proof.
  cbv zeta.
  apply (proj2 (search_never_records (sample_env 0)
                  (form_of [("input_file", "/out/amalgamated.csv"); ("output_dir", "/out")])
                  (on_disk configured) _ _ ltac:(apply surjective_pairing))).
  intros argv input w proc fs H. vm_compute in H. by inversion H.
Defined.

(** X9, instance: the negative input is given, the positive one comes from
    the state. *)
Lemma amalgamator_fills_inputs_from_state_witness :
  let E := sample_env 0 in
  let form := form_of [("neg_file", "/my/neg.csv")] in
  spawned (snd (respond (run_amalgamator E form) (on_disk deleted_summaries)))
  = [amalgamator_argv E form "/my/neg.csv" "/gone/pos_summary.csv"].
Proof.
  cbv zeta.
  apply (proj2 (amalgamator_fills_inputs_from_state (sample_env 0)
                  (form_of [("neg_file", "/my/neg.csv")])
                  [("peakfilter_last_negative_summary", VStr "/gone/neg_summary.csv");
                   ("peakfilter_last_positive_summary", VStr "/gone/pos_summary.csv")]
                  (on_disk deleted_summaries) ltac:(vm_compute; reflexivity))
           "/my/neg.csv" "/gone/pos_summary.csv" (mkProc "" "" 0)
           (files (on_disk deleted_summaries)));
    solve [reflexivity | vm_compute; reflexivity | vm_compute; congruence].
Defined.

(** X10, instance: the state names an amalgamated file and a negative
    summary; the search is run on the amalgamated file. *)
Lemma search_resolves_first_recorded_witness :
  let E := sample_env 0 in
  respond (run_mssearch E (form_of [])) (on_disk stale_state)
  = (RunResult "MSSearch Run"
       (str_join " " (mssearch_argv E (form_of []) "/old/amalgamated.csv"))
       true "" "" "",
     mkWorld (files (on_disk stale_state)) ∅
       [mssearch_argv E (form_of []) "/old/amalgamated.csv"]).
Proof.
  cbv zeta.
  apply (proj2 (search_resolves_first_recorded (sample_env 0) (form_of [])
                  [("amalgamator_last_csv", VStr "/old/amalgamated.csv");
                   ("peakfilter_last_negative_summary",
                    VStr "/out/peakfilter_negative_summary.csv")]
                  (on_disk stale_state)
                  ltac:(reflexivity) ltac:(vm_compute; reflexivity))
           "/old/amalgamated.csv" (mkProc "" "" 0) (files (on_disk stale_state)));
    solve [reflexivity | vm_compute; reflexivity | vm_compute; congruence].
Defined.

(** X11, instance: a successful amalgamation into [/out], then a search
    without input. *)
Lemma amalgamate_then_search_witness :
  let E := sample_env 0 in
  let form := form_of [("neg_file", "/out/neg.csv"); ("pos_file", "/out/pos.csv");
                       ("output_dir", "/out")] in
  let w1 := snd (respond (run_amalgamator E form) (on_disk configured)) in
  fst (respond (run_mssearch E (form_of [])) w1)
  = RunResult "MSSearch Run"
      (str_join " " (mssearch_argv E (form_of []) "/out/amalgamated.csv"))
      true "" "" "".
Proof.
  cbv zeta.
  exact (f_equal fst
    (proj2 (amalgamate_then_search (sample_env 0)
              (form_of [("neg_file", "/out/neg.csv"); ("pos_file", "/out/pos.csv");
                        ("output_dir", "/out")])
              (form_of []) (on_disk configured)
              (mkProc "" "" 0) (files (on_disk configured)) []
              (mkProc "" "" 0)
              (files (snd (respond (run_amalgamator (sample_env 0)
                       (form_of [("neg_file", "/out/neg.csv"); ("pos_file", "/out/pos.csv");
                                 ("output_dir", "/out")])) (on_disk configured))))
              ltac:(vm_compute; congruence) ltac:(vm_compute; congruence)
              ltac:(vm_compute; congruence) ltac:(vm_compute; reflexivity)
              ltac:(reflexivity) ltac:(reflexivity)
              ltac:(vm_compute; reflexivity) ltac:(vm_compute; congruence)
              ltac:(reflexivity) ltac:(vm_compute; reflexivity)
              ltac:(vm_compute; reflexivity)))).
Defined.

(** X12, instance: a negative report aligned, then a filter request without
    input. *)
Lemma align_then_filter_witness :
  let E := sample_env 0 in
  let w1 := snd (respond (xcms E align_neg) (on_disk aligned)) in
  fst (respond (run_peakfilter E (form_of [])) w1)
  = RunResult "PeakFilter Run"
      (str_join " " (peakfilter_argv E (form_of []) "/data/neg/xcms_report.csv"))
      true "" "" "".
Proof.
  cbv zeta.
  exact (align_then_filter (sample_env 0) align_neg (form_of []) (on_disk aligned)
           (mkProc "" "" 0) (files (on_disk aligned)) []
           (mkProc "" "" 0)
           (files (snd (respond (xcms (sample_env 0) align_neg) (on_disk aligned))))
           ltac:(vm_compute; congruence) ltac:(reflexivity)
           ltac:(vm_compute; congruence) ltac:(vm_compute; reflexivity)
           ltac:(vm_compute; reflexivity) ltac:(vm_compute; congruence)
           ltac:(vm_compute; reflexivity) ltac:(vm_compute; reflexivity)
           ltac:(reflexivity) ltac:(vm_compute; reflexivity)
           ltac:(vm_compute; reflexivity)).
Defined.


(** X14, instance: both inputs given, all stages succeed, and of the
    artifacts only the scatter plot is in the output directory. *)
Lemma pipeline_reports_existing_artifacts_witness :
  let r := respond (run_pipeline_full (sample_env 0) scenario_A) (on_disk with_plot) in
  isfile (snd r) "/out/category_scatterplot_all_lmsd.png" = true.
Proof.
  cbv zeta.
  pose proof (pipeline_reports_existing_artifacts (sample_env 0) scenario_A
                (on_disk with_plot)) as H.
  destruct (respond (run_pipeline_full (sample_env 0) scenario_A) (on_disk with_plot))
    as [resp w'] eqn:Hr.
  vm_compute in Hr. injection Hr as <- <-.
  destruct H as [H _]. apply H. by left.
Defined.

(** X15, instances: a negative-only run with no search parameters on
    disk; with saved search parameters that are not JSON; with saved search
    parameters that are a JSON list. *)
Lemma search_parameters_unreadable_or_not_object_witness :
  let E := sample_env 0 in
  let form := form_of [("neg_input", "/data/neg.csv"); ("output_dir", "/out")] in
  let argv1 := filter_argv E "/data/neg.csv" "/out" false false in
  let argv2 := search_argv E "/out/peakfilter_negative_summary.csv" "/out" in
  fst (respond (run_pipeline_full E form) (on_disk []))
  = Redirect "pipeline"
      "Missing parameters for: PeakFilter, Amalgamator, MSSearch. Configure them under Params."
  ∧ fst (respond (run_pipeline_full E form) (on_disk search_unreadable))
    = PipelineVisualize true "/out"
        [log_entry "PeakFilter (negative)" argv1 (mkProc "" "" 0);
         log_entry "MSSearch" argv2 (mkProc "" "" 0)]
        None None None None []
  ∧ respond (run_pipeline_full E form) (on_disk search_is_list)
    = (Crash AttributeError, mkWorld (files (on_disk search_is_list)) ∅ [argv1]).
Proof.
  cbv zeta. split; [|split].
  - exact (f_equal fst
      (proj1 (proj1 (search_parameters_unreadable_or_not_object (sample_env 0)
                       (form_of [("neg_input", "/data/neg.csv"); ("output_dir", "/out")])
                       (on_disk []) (mkProc "" "" 0) ∅
                       ltac:(vm_compute; congruence) ltac:(vm_compute; reflexivity)
                       ltac:(vm_compute; congruence))
                ltac:(vm_compute; reflexivity)))).
  - exact (f_equal fst
      (proj1 (proj2 (search_parameters_unreadable_or_not_object (sample_env 0)
                       (form_of [("neg_input", "/data/neg.csv"); ("output_dir", "/out")])
                       (on_disk search_unreadable) (mkProc "" "" 0)
                       (files (on_disk search_unreadable))
                       ltac:(vm_compute; congruence) ltac:(vm_compute; reflexivity)
                       ltac:(vm_compute; congruence))
                ltac:(vm_compute; reflexivity) ltac:(reflexivity) ltac:(reflexivity))
         ltac:(vm_compute; congruence) ltac:(vm_compute; congruence)
         (mkProc "" "" 0)
         (<[config_file (sample_env 0) "mssearch_web_pipeline.json" :=
             Json (VDict overlay_defaults)]> (files (on_disk search_unreadable)))
         ltac:(reflexivity) ltac:(reflexivity))).
  - apply (proj2 (proj2 (search_parameters_unreadable_or_not_object (sample_env 0)
                    (form_of [("neg_input", "/data/neg.csv"); ("output_dir", "/out")])
                    (on_disk search_is_list) (mkProc "" "" 0)
                    (files (on_disk search_is_list))
                    ltac:(vm_compute; congruence) ltac:(vm_compute; reflexivity)
                    ltac:(vm_compute; congruence))
                 ltac:(vm_compute; reflexivity) ltac:(reflexivity) ltac:(reflexivity))
           (VList []));
      [vm_compute; reflexivity|congruence].
Defined.

(** X16, instance: the state document is a JSON list and the amalgamator
    succeeds. *)
Lemma state_must_be_an_object_witness :
  let E := sample_env 0 in
  let form := form_of [("neg_file", "/out/neg.csv"); ("pos_file", "/out/pos.csv");
                       ("output_dir", "/out")] in
  respond (run_amalgamator E form) (on_disk state_is_list)
  = (Crash TypeError,
     mkWorld (files (on_disk state_is_list)) ∅
       [amalgamator_argv E form "/out/neg.csv" "/out/pos.csv"]).
Proof.
  cbv zeta.
  apply (proj2 (proj2 (state_must_be_an_object (sample_env 0) (VList [])
                  (form_of [("neg_file", "/out/neg.csv"); ("pos_file", "/out/pos.csv");
                            ("output_dir", "/out")])
                  (on_disk state_is_list) (mkProc "" "" 0) (files (on_disk state_is_list))
                  ltac:(congruence))));
    solve [reflexivity | vm_compute; reflexivity | vm_compute; congruence].
Defined.


(** X18, instance: the filter's form saved with a number and two pairs,
    then opened again. *)
Lemma params_save_then_prefill_witness :
  let E := sample_env 0 in
  let form := form_of [("polarity", "Positive"); ("numberOfTechReps", "3");
                       ("adductsPairs", "M+H|M+Na, M+H|M+K")] in
  let w1 := snd (params E "/app/LipidFinder/Data" sample_int sample_float
                   POST "PeakFilter" form (on_disk with_template)) in
  ∃ specs values,
    keys values = ["polarity"; "numberOfTechReps"; "adductsPairs"]
    ∧ params E "/app/LipidFinder/Data" sample_int sample_float
        GET "peakfilter" (form_of []) w1
      = (inr (ParamsPage "peakfilter" specs values), w1).
Proof.
  cbv zeta.
  destruct (params_save_then_prefill (sample_env 0) "/app/LipidFinder/Data"
              sample_int sample_float "PeakFilter"
              (form_of [("polarity", "Positive"); ("numberOfTechReps", "3");
                        ("adductsPairs", "M+H|M+Na, M+H|M+K")])
              (form_of []) (on_disk with_template)
              (snd (params (sample_env 0) "/app/LipidFinder/Data" sample_int sample_float
                      POST "PeakFilter"
                      (form_of [("polarity", "Positive"); ("numberOfTechReps", "3");
                                ("adductsPairs", "M+H|M+Na, M+H|M+K")])
                      (on_disk with_template)))
              (ParamsRedirect "index"
                 "Saved parameters for peakfilter to /app/webapp/config/peakfilter.json")
              ltac:(reflexivity) ltac:(vm_compute; congruence)
              ltac:(vm_compute; reflexivity))
    as (specs & values & Hspecs & _ & _ & Hkeys & Hget).
  exists specs, values. split; [|exact Hget].
  rewrite Hkeys. vm_compute in Hspecs. by injection Hspecs as <-.
Defined.

(** X19, instance: opening the search form changes nothing. *)
Lemma params_writes_only_its_file_witness :
  snd (params (sample_env 0) "/app/LipidFinder/Data" sample_int sample_float
         GET "mssearch" (form_of []) (on_disk with_template))
  = on_disk with_template.
Proof.
  exact (proj1 (proj2 (proj2 (params_writes_only_its_file (sample_env 0)
                  "/app/LipidFinder/Data" sample_int sample_float
                  GET "mssearch" (form_of []) (on_disk with_template)))) eq_refl).
Defined.

(** X20, instance: the number of replicates spelt out. *)
Lemma bad_number_rejects_whole_form_witness :
  params (sample_env 0) "/app/LipidFinder/Data" sample_int sample_float
    POST "peakfilter"
    (form_of [("polarity", "Positive"); ("numberOfTechReps", "three")])
    (on_disk with_template)
  = (inl ValueError, on_disk with_template).
Proof.
  apply (bad_number_rejects_whole_form (sample_env 0) "/app/LipidFinder/Data"
           sample_int sample_float "peakfilter"
           (form_of [("polarity", "Positive"); ("numberOfTechReps", "three")])
           (on_disk with_template)
           (List.filter (fun kv => is_active "peakfilter" (snd kv)) sample_template)
           "numberOfTechReps" replicates_spec "three");
    [reflexivity|vm_compute; reflexivity|vm_compute; tauto
    |left; split; reflexivity|vm_compute; reflexivity|congruence].
Defined.

(** X21, instance: the filter's form before anything was saved. *)
Lemma params_page_shows_saved_or_default_witness :
  params (sample_env 0) "/app/LipidFinder/Data" sample_int sample_float
    GET "peakfilter" (form_of []) (on_disk with_template)
  = (inr (ParamsPage "peakfilter"
            (List.filter (fun kv => is_active "peakfilter" (snd kv)) sample_template)
            [("polarity", VStr "Negative"); ("numberOfTechReps", VInt 3);
             ("adductsPairs", VList [])]),
     on_disk with_template).
Proof.
  exact (proj1 (proj1 (params_page_shows_saved_or_default (sample_env 0)
                  "/app/LipidFinder/Data" sample_int sample_float
                  "peakfilter" (form_of []) (on_disk with_template)
                  (List.filter (fun kv => is_active "peakfilter" (snd kv)) sample_template)
                  ltac:(reflexivity) ltac:(vm_compute; reflexivity))
                [] ltac:(vm_compute; reflexivity))).
Defined.

(** X22, instance: the parameters of the search in the sample template. *)
Lemma module_params_are_the_active_entries_witness :
  module_params "/app/LipidFinder/Data" (on_disk with_template) "mssearch"
  = inr (List.filter (fun kv => is_active "mssearch" (snd kv)) sample_template).
Proof.
  destruct (module_params "/app/LipidFinder/Data" (on_disk with_template) "mssearch")
    as [e|specs] eqn:H; [vm_compute in H; congruence|].
  f_equal.
  apply (proj1 (module_params_are_the_active_entries "/app/LipidFinder/Data"
                  (on_disk with_template) "mssearch" sample_template
                  ltac:(vm_compute; reflexivity)));
    [|exact H].
  repeat (apply NoDup_cons_2; [rewrite list_elem_of_In; simpl; intuition congruence|]).
  apply NoDup_nil_2.
Defined.

(** X23, instance: scenario A, all four stages succeed. *)
Lemma pipeline_both_polarities_witness :
  let E := sample_env 0 in
  spawned (snd (respond (run_pipeline_full E scenario_A) (on_disk configured)))
  = [filter_argv E "/data/neg.csv" "/out" false false;
     filter_argv E "/data/pos.csv" "/out" false false;
     amalgamate_argv E "/out";
     search_argv E "/out/amalgamated.csv" "/out"].
Proof.
  cbv zeta.
  exact (f_equal (fun r => spawned (snd r))
    (pipeline_both_polarities (sample_env 0) scenario_A (on_disk configured)
       (mkProc "" "" 0) (files (on_disk configured))
       (mkProc "" "" 0) (files (on_disk configured))
       (mkProc "" "" 0) (files (on_disk configured)) []
       (mkProc "" "" 0)
       (<["/app/webapp/config/mssearch_web_pipeline.json" :=
           Json (VDict (overlay_of []))]> (files (on_disk configured)))
       ltac:(vm_compute; congruence) ltac:(vm_compute; congruence)
       ltac:(vm_compute; congruence) ltac:(vm_compute; reflexivity)
       ltac:(reflexivity) ltac:(reflexivity)
       ltac:(reflexivity) ltac:(reflexivity)
       ltac:(reflexivity) ltac:(reflexivity)
       ltac:(vm_compute; reflexivity) ltac:(vm_compute; congruence)
       ltac:(reflexivity) ltac:(reflexivity))).
Defined.

(** X24, instance: the search parameters saved on an installation that had
    none. *)
Lemma saved_parameters_are_found_witness :
  let E := sample_env 0 in
  let w1 := snd (params E "/app/LipidFinder/Data" sample_int sample_float
                   POST "MSSearch" (form_of [("database", "lipidmaps")])
                   (on_disk with_template)) in
  In ("mssearch", true) (index E w1)
  ∧ ¬ In "MSSearch" (missing_parameters E w1 (VStr "/data/neg.csv") (VStr "")).
Proof.
  cbv zeta.
  pose proof (saved_parameters_are_found (sample_env 0) "/app/LipidFinder/Data"
                sample_int sample_float "MSSearch"
                (form_of [("database", "lipidmaps")]) (on_disk with_template)
                (snd (params (sample_env 0) "/app/LipidFinder/Data" sample_int
                        sample_float POST "MSSearch"
                        (form_of [("database", "lipidmaps")]) (on_disk with_template)))
                (ParamsRedirect "index"
                   "Saved parameters for mssearch to /app/webapp/config/mssearch.json")
                ltac:(reflexivity) ltac:(vm_compute; reflexivity))
    as (_ & Hindex & Hmissing).
  split; [exact Hindex|apply Hmissing].
Defined.

(** X25, instance: scenario A leaves the state document as it was. *)
Lemma pipeline_never_writes_state_witness :
  let E := sample_env 0 in
  let w' := snd (respond (run_pipeline_full E scenario_A) (on_disk configured)) in
  files w' !! STATE_PATH E = files (on_disk configured) !! STATE_PATH E
  ∧ fst (read_state E w') = fst (read_state E (on_disk configured)).
Proof.
  cbv zeta.
  apply (pipeline_never_writes_state (sample_env 0) scenario_A (on_disk configured)).
  intros argv input w proc fs H. vm_compute in H. by inversion H.
Defined.
